(** * FMZB Hub: product repository, user flows and query endpoints

    A shallow embedding of [app/product_model.py], [app/users.py] and
    [app/views.py], followed by the properties proved about them.

    Conventions of the embedding.
    - The text of a form field, of a column or of the session is a
      [string]; each of its 8-bit characters is a code point below 256
      (a character, not a byte of an encoding), and [lower] and [strip]
      act on such text as Python's [str] methods do.  Two functions are
      read on Python text in full, a list of code points of any size:
      [is_strong_password] and [query_database] (module [Unicode] and
      module [Views]); what they take from the Unicode character
      database, which is no part of the repository, is a parameter.
    - Points in time are whole seconds ([Z]) counted from a midnight;
      a day is 86400 seconds.
    - A price and a price bound are rationals, compared exactly, as the
      server compares the DECIMAL values it holds in full.
    - A column the code itself treats as nullable is an [option].
    - A statement fails only where the embedding says so: on a closed
      connection, on a LIMIT or OFFSET that is no unsigned 64-bit
      integer, on the bare word of a special [Decimal], and, in the
      check for open orders, whenever the server is said to fail it.
    - What lies outside the repository (the collation of the MySQL
      server, its clock, werkzeug's password hashing) is a field of the
      record describing the server or the libraries.
    - The functions of [product_model.py] are taken with their connection
      made: when [pymysql.connect] fails there, the exception leaves the
      function before any statement is sent.  The handlers of [users.py]
      and [views.py] test the connection themselves, and that is part
      of their embedding. *)

From Stdlib Require Import List String Ascii Bool Arith ZArith QArith Lia.
From Stdlib Require Import Permutation Sorted DecimalString.
Import ListNotations.

Local Open Scope string_scope.
Local Open Scope Z_scope.

(* ================================================================== *)
(** * Part I. The embedding *)
(* ================================================================== *)

(** ** Text *)

Module Text.

Definition code (c : ascii) : nat := nat_of_ascii c.

Definition in_range (lo hi : nat) (c : ascii) : bool :=
  (Nat.leb lo (code c) && Nat.leb (code c) hi)%bool.

(** The classes [A-Z], [a-z] and [0-9] of [re]; below 256 the class
    [\d] holds no other character than [0-9]. *)
Definition is_upper (c : ascii) : bool := in_range 65 90 c.
Definition is_lower (c : ascii) : bool := in_range 97 122 c.
Definition is_digit (c : ascii) : bool := in_range 48 57 c.
Definition is_alpha (c : ascii) : bool := (is_upper c || is_lower c)%bool.

(** [str.isspace] below 256: tab to carriage return, the four
    separators 28..31, the blank, the next-line control (133) and the
    no-break space (160). *)
Definition is_space (c : ascii) : bool :=
  (in_range 9 13 c || in_range 28 31 c || Nat.eqb (code c) 32
   || Nat.eqb (code c) 133 || Nat.eqb (code c) 160)%bool.

(** The capital letters below 256: [A-Z], and the accented capitals 192
    to 222 without the multiplication sign (215).  The small letter of
    each lies 32 above it. *)
Definition is_capital (c : ascii) : bool :=
  (is_upper c || in_range 192 214 c || in_range 216 222 c)%bool.

Definition lower_char (c : ascii) : ascii :=
  if is_capital c then ascii_of_nat (code c + 32) else c.

Fixpoint map_chars (f : ascii -> ascii) (s : string) : string :=
  match s with
  | EmptyString => EmptyString
  | String c r => String (f c) (map_chars f r)
  end.

(** [str.lower] *)
Definition lower : string -> string := map_chars lower_char.

Fixpoint lstrip (s : string) : string :=
  match s with
  | EmptyString => EmptyString
  | String c r => if is_space c then lstrip r else s
  end.

Fixpoint rstrip (s : string) : string :=
  match s with
  | EmptyString => EmptyString
  | String c r =>
      match rstrip r with
      | EmptyString => if is_space c then EmptyString else String c EmptyString
      | r' => String c r'
      end
  end.

Definition strip (s : string) : string := rstrip (lstrip s).

Fixpoint all_chars (p : ascii -> bool) (s : string) : bool :=
  match s with
  | EmptyString => true
  | String c r => (p c && all_chars p r)%bool
  end.

(** [needle in hay]. *)
Fixpoint contains (needle hay : string) : bool :=
  (prefix needle hay ||
   match hay with
   | EmptyString => false
   | String _ r => contains needle r
   end)%bool.

(** [s.startswith(p)]. *)
Definition startswith (s p : string) : bool := prefix p s.

(** Python truthiness of a [str]. *)
Definition nonempty (s : string) : bool :=
  match s with EmptyString => false | _ => true end.

(** [sep.join(parts)]. *)
Fixpoint join (sep : string) (parts : list string) : string :=
  match parts with
  | [] => EmptyString
  | [p] => p
  | p :: rest => p ++ sep ++ join sep rest
  end.

(** The double quote, which a string literal of this file cannot hold. *)
Definition dquote : string := String (ascii_of_nat 34) EmptyString.

(** [str(n)] for an integer. *)
Definition str_of_Z (z : Z) : string := NilZero.string_of_int (Z.to_int z).

End Text.

(** ** Python text in full *)

Module Unicode.

(** A [str] is a sequence of code points. *)
Definition point : Type := N.
Definition text : Type := list point.

(** A text of characters below 256, read as a [str]. *)
Definition of_string (s : string) : text :=
  map N_of_ascii (list_ascii_of_string s).

(** What the methods of [str] look up in the Unicode character
    database: the white space [str.strip] removes, and the upper case
    of a character as [str.upper] writes it, which may be several
    characters long. *)
Record CharacterData : Type := {
  white_space : point -> bool;
  upper_case : point -> text
}.

Definition in_range (lo hi c : point) : bool := ((lo <=? c) && (c <=? hi))%N%bool.

(** [str.upper] *)
Definition upper (ucd : CharacterData) (t : text) : text :=
  flat_map (upper_case ucd) t.

Fixpoint lstrip (ucd : CharacterData) (t : text) : text :=
  match t with
  | [] => []
  | c :: r => if white_space ucd c then lstrip ucd r else t
  end.

Definition rstrip (ucd : CharacterData) (t : text) : text :=
  rev (lstrip ucd (rev t)).

(** [str.strip] *)
Definition strip (ucd : CharacterData) (t : text) : text :=
  rstrip ucd (lstrip ucd t).

(** [t.startswith(p)] *)
Fixpoint startswith (t p : text) : bool :=
  match p, t with
  | [], _ => true
  | _ :: _, [] => false
  | a :: p', b :: t' => (N.eqb a b && startswith t' p')%bool
  end.

(** Python truthiness of a [str]. *)
Definition nonempty (t : text) : bool :=
  match t with [] => false | _ => true end.

(** The characters of the class the last [re.search] of
    [is_strong_password] looks for: the thirteen below, the double
    quote (code 34), and six more. *)
Definition special_points : text :=
  (of_string "!@#$%^&*(),.?" ++ [34%N] ++ of_string ":{}|<>")%list.

Definition is_special (c : point) : bool := existsb (N.eqb c) special_points.

(** [is_strong_password] of [users.py]: [len] counts the code points,
    [re.search] of a class looks for one character of it; the classes
    [A-Z] and [a-z] are those 26 letters each.  [decimal_digit] is the
    class [\d]: the decimal digits of every script, as the character
    database lists them. *)
Definition is_strong_password (decimal_digit : point -> bool) (password : text)
  : bool * string :=
  if Nat.ltb (List.length password) 8 then
    (false, "Password must be at least 8 characters")
  else if negb (existsb (in_range 65%N 90%N) password) then
    (false, "Must contain uppercase letter")
  else if negb (existsb (in_range 97%N 122%N) password) then
    (false, "Must contain lowercase letter")
  else if negb (existsb decimal_digit password) then
    (false, "Must contain digit")
  else if negb (existsb is_special password) then
    (false, "Must contain special character")
  else (true, "Valid").

End Unicode.

(** ** The fragment of MySQL the repository relies on *)

Module Sql.

(** Python exceptions the modelled code can meet. *)
Inductive exn : Type :=
| InvalidOperation                  (* decimal: the text is no number *)
| ProgrammingError (msg : string)   (* the server rejects the statement *)
| OperationalError (msg : string)   (* the server fails the statement *)
| InterfaceError                    (* statement on a closed connection *)
| AttributeError (msg : string)
| TypeError (msg : string)
| MySQLError (msg : string).        (* pymysql.err.Error *)

(** [str(e)] *)
Definition exn_str (e : exn) : string :=
  match e with
  | InvalidOperation => "[<class 'decimal.ConversionSyntax'>]"
  | ProgrammingError msg => "(1064, '" ++ msg ++ "')"
  | OperationalError msg => "(2013, '" ++ msg ++ "')"
  | InterfaceError => "(0, '')"
  | AttributeError msg | TypeError msg | MySQLError msg => msg
  end.

Inductive outcome (A : Type) : Type :=
| Return (a : A)
| Raise (e : exn).
Arguments Return {A} a.
Arguments Raise {A} e.

Definition bind {A B} (m : outcome A) (k : A -> outcome B) : outcome B :=
  match m with
  | Return a => k a
  | Raise e => Raise e
  end.

Notation "x <- m ;; k" := (bind m (fun x => k))
  (at level 61, m at next level, right associativity).

(** The call ended in an exception. *)
Definition raises {A} (m : outcome A) : bool :=
  match m with Raise _ => true | Return _ => false end.

(** All the values of a list of options, if none is missing. *)
Fixpoint all_some {A} (l : list (option A)) : option (list A) :=
  match l with
  | [] => Some []
  | None :: _ => None
  | Some a :: r => option_map (cons a) (all_some r)
  end.

(** SQL truth values: [None] is NULL. *)
Definition tv : Type := option bool.

Definition and3 (a b : tv) : tv :=
  match a, b with
  | Some false, _ | _, Some false => Some false
  | Some true, Some true => Some true
  | _, _ => None
  end.

Definition or3 (a b : tv) : tv :=
  match a, b with
  | Some true, _ | _, Some true => Some true
  | Some false, Some false => Some false
  | _, _ => None
  end.

(** A WHERE clause keeps the rows on which it is TRUE. *)
Definition is_true (a : tv) : bool :=
  match a with Some true => true | _ => false end.

Definition is_null {A} (x : option A) : tv :=
  Some (match x with None => true | Some _ => false end).

(** A comparison with NULL on either side is NULL. *)
Definition cmp3 {A B} (f : A -> B -> bool) (x : option A) (y : option B) : tv :=
  match x, y with
  | Some a, Some b => Some (f a b)
  | _, _ => None
  end.

Definition coalesce {A} (x y : option A) : option A :=
  match x with Some _ => x | None => y end.

Definition day : Z := 86400.

(** [DATEDIFF(a, b)]: the difference of the two calendar dates. *)
Definition datediff (a b : option Z) : option Z :=
  match a, b with
  | Some x, Some y => Some (x / day - y / day)
  | _, _ => None
  end.

(** Order of a sort key, NULL below every value (first under ASC, last
    under DESC). *)
Definition compare_key (x y : option Z) : comparison :=
  match x, y with
  | None, None => Eq
  | None, Some _ => Lt
  | Some _, None => Gt
  | Some a, Some b => Z.compare a b
  end.

(** ORDER BY: a stable insertion sort; [before a b] says that [a] may
    stand in front of [b]. *)
Section OrderBy.
Context {A : Type} (before : A -> A -> bool).

Fixpoint insert (x : A) (l : list A) : list A :=
  match l with
  | [] => [x]
  | y :: r => if before x y then x :: l else y :: insert x r
  end.

Fixpoint order_by (l : list A) : list A :=
  match l with
  | [] => []
  | x :: r => insert x (order_by r)
  end.

End OrderBy.

(** The largest integer literal the server reads as an unsigned
    64-bit number. *)
Definition max_unsigned : Z := 2 ^ 64 - 1.

(** [LIMIT lim OFFSET off].  The server takes only unsigned 64-bit
    integer literals there: a minus sign, or a literal above
    [max_unsigned], is a syntax error. *)
Definition limit_offset {A} (lim off : Z) (rows : list A) : outcome (list A) :=
  if (lim <? 0) || (off <? 0) || (max_unsigned <? lim) || (max_unsigned <? off)
  then Raise (ProgrammingError "You have an error in your SQL syntax")
  else Return (firstn (Z.to_nat lim) (skipn (Z.to_nat off) rows)).

(** LIKE under a binary collation: [%] stands for any run of characters,
    [_] for one character, and a backslash takes the next pattern
    character literally. *)
Fixpoint like_chars (p s : list ascii) {struct p} : bool :=
  match p with
  | [] => match s with [] => true | _ => false end
  | c :: p' =>
      if Ascii.eqb c "%" then
        (fix any (t : list ascii) : bool :=
           (like_chars p' t ||
            match t with [] => false | _ :: t' => any t' end)%bool) s
      else if Ascii.eqb c "_" then
        match s with [] => false | _ :: s' => like_chars p' s' end
      else if Ascii.eqb c "\" then
        match p', s with
        | e :: p'', d :: s' => (Ascii.eqb e d && like_chars p'' s')%bool
        | [], d :: s' => (Ascii.eqb c d && like_chars p' s')%bool
        | _, [] => false
        end
      else
        match s with
        | [] => false
        | d :: s' => (Ascii.eqb c d && like_chars p' s')%bool
        end
  end.

Definition like_binary (pattern subject : string) : bool :=
  like_chars (list_ascii_of_string pattern) (list_ascii_of_string subject).

(** A character LIKE does not read specially, and the test of a
    predicate on every tail of a text. *)
Definition plain_char (c : ascii) : bool :=
  negb (Ascii.eqb c "%" || Ascii.eqb c "_" || Ascii.eqb c "\")%bool.

Fixpoint any_suffix (f : list ascii -> bool) (t : list ascii) : bool :=
  (f t || match t with [] => false | _ :: t' => any_suffix f t' end)%bool.

(** The server: its clock and the collation of the text columns, which
    the repository does not fix.  [text_eq a b] is [a = b] on text and
    [text_like p s] is [s LIKE p]. *)
Record Server : Type := {
  now : Z;
  text_eq : string -> string -> bool;
  text_like : string -> string -> bool
}.

(** A server whose columns have a binary collation. *)
Definition binary_server (clock : Z) : Server :=
  {| now := clock; text_eq := String.eqb; text_like := like_binary |}.

(** A [decimal.Decimal]: a finite number, or one of the special values
    (NaN, sNaN, Infinity, -Infinity). *)
Inductive decimal : Type :=
| Finite (q : Q)
| NaNOrInfinity.

(** A value handed to [cursor.execute] for a [%s] placeholder.  The
    driver writes a [Decimal] into the statement in fixed-point
    notation; a special value comes out as a bare word. *)
Inductive param : Type :=
| PText (s : string)
| PDecimal (d : decimal)
| PInt (z : Z).

End Sql.

(** ** Validators of [users.py] *)

Module Validators.
Import Text.

(** [is_strong_password] as the handlers run it, on their texts of
    characters below 256, of which only [0-9] are decimal digits. *)
Definition is_strong_password (password : string) : bool * string :=
  Unicode.is_strong_password (Unicode.in_range 48%N 57%N)
                             (Unicode.of_string password).

(** [^[a-zA-Z0-9._%+-]+@[a-zA-Z0-9.-]+\.[a-zA-Z]{2,}$] read from the
    start of the text.  The dollar also matches in front of a final
    newline, so one such newline is dropped first.  The top-level
    segment holds no dot: it is the run of letters at the end, and the
    dot in front of it is the last character that is not a letter. *)
Definition local_char (c : ascii) : bool :=
  (is_alpha c || is_digit c
   || existsb (Ascii.eqb c) (list_ascii_of_string "._%+-"))%bool.

Definition domain_char (c : ascii) : bool :=
  (is_alpha c || is_digit c
   || existsb (Ascii.eqb c) (list_ascii_of_string ".-"))%bool.

Fixpoint span (p : ascii -> bool) (l : list ascii) : list ascii * list ascii :=
  match l with
  | c :: r => if p c then let (a, b) := span p r in (c :: a, b) else ([], l)
  | [] => ([], [])
  end.

Definition newline : ascii := ascii_of_nat 10.

Definition chomp (l : list ascii) : list ascii :=
  match rev l with
  | c :: r => if Ascii.eqb c newline then rev r else l
  | [] => l
  end.

Definition is_valid_email (email : string) : bool :=
  let (local, rest) := span local_char (chomp (list_ascii_of_string email)) in
  match local, rest with
  | _ :: _, at_sign :: host =>
      if Ascii.eqb at_sign "@" then
        let (tld, more) := span is_alpha (rev host) in
        match more with
        | dot :: dom =>
            (Ascii.eqb dot "." && Nat.leb 2 (List.length tld)
             && negb (Nat.eqb (List.length dom) 0) && forallb domain_char dom)%bool
        | [] => false
        end
      else false
  | _, _ => false
  end.

End Validators.



(** ** [app/product_model.py] *)

Module ProductModel.
Import Text Sql.

(** A row of the table [product]. *)
Record Product : Type := {
  product_id : Z;
  SKU : option string;
  title : option string;
  category : option string;
  price : Q;
  quantity : Z;
  description : option string;
  image_url : option string;
  archived : bool;
  is_sold : bool;
  created_at : option Z;
  updated_at : option Z
}.

(** *** The statements sent by [search_products], as the server reads
    them.  The WHERE text is split at [" AND "]; each piece must be one
    of the six predicates the repository writes. *)

Inductive predicate : Type :=
| ArchivedIsZero | SkuLike | CategoryEq | TitleOrDescriptionLike
| PriceGe | PriceLe.

Definition predicate_of_sql (text : string) : option predicate :=
  if String.eqb text "archived = 0" then Some ArchivedIsZero
  else if String.eqb text "SKU LIKE %s" then Some SkuLike
  else if String.eqb text "category = %s" then Some CategoryEq
  else if String.eqb text "(title LIKE %s OR description LIKE %s)"
       then Some TitleOrDescriptionLike
  else if String.eqb text "price >= %s" then Some PriceGe
  else if String.eqb text "price <= %s" then Some PriceLe
  else None.

(** [s.split(sep)]; [skip] counts the characters of a separator still to
    be passed over. *)
Fixpoint split_from (sep s : string) (skip : nat) (cur : string) : list string :=
  match s with
  | EmptyString => [cur]
  | String c r =>
      match skip with
      | S k => split_from sep r k cur
      | O =>
          if prefix sep s
          then cur :: split_from sep r (String.length sep - 1) EmptyString
          else split_from sep r O (cur ++ String c EmptyString)
      end
  end.

Definition split (sep s : string) : list string := split_from sep s O EmptyString.

Definition parse_where (where_sql : string) : option (list predicate) :=
  if String.eqb where_sql "" then Some []
  else if prefix " WHERE " where_sql then
    all_some (map predicate_of_sql
                  (split " AND " (substring 7 (String.length where_sql - 7) where_sql)))
  else None.

(** A predicate with its placeholders filled in. *)
Inductive condition : Type :=
| NotArchived
| SkuMatches (pattern : string)
| CategoryIs (value : string)
| TitleOrDescriptionMatches (pattern1 pattern2 : string)
| PriceAtLeast (q : Q)
| PriceAtMost (q : Q)
| PriceAgainstWord.   (* [price >= NaN]: the bare word of a special Decimal *)

(** Filling the placeholders from the front of the argument list. *)
Fixpoint fill (preds : list predicate) (args : list param)
  : option (list condition * list param) :=
  match preds with
  | [] => Some ([], args)
  | p :: preds' =>
      let continue (c : condition) (rest : list param) :=
        match fill preds' rest with
        | Some (cs, unused) => Some (c :: cs, unused)
        | None => None
        end in
      match p, args with
      | ArchivedIsZero, _ => continue NotArchived args
      | SkuLike, PText s :: rest => continue (SkuMatches s) rest
      | CategoryEq, PText s :: rest => continue (CategoryIs s) rest
      | TitleOrDescriptionLike, PText s1 :: PText s2 :: rest =>
          continue (TitleOrDescriptionMatches s1 s2) rest
      | PriceGe, PDecimal (Finite q) :: rest => continue (PriceAtLeast q) rest
      | PriceLe, PDecimal (Finite q) :: rest => continue (PriceAtMost q) rest
      | PriceGe, PDecimal NaNOrInfinity :: rest
      | PriceLe, PDecimal NaNOrInfinity :: rest => continue PriceAgainstWord rest
      | _, _ => None
      end
  end.

Definition like3 (srv : Server) (subject : option string) (pattern : string) : tv :=
  cmp3 (fun s p => text_like srv p s) subject (Some pattern).

Definition holds (srv : Server) (r : Product) (c : condition) : tv :=
  match c with
  | NotArchived => Some (negb (archived r))
  | SkuMatches p => like3 srv (SKU r) p
  | CategoryIs v => cmp3 (text_eq srv) (category r) (Some v)
  | TitleOrDescriptionMatches p1 p2 =>
      or3 (like3 srv (title r) p1) (like3 srv (description r) p2)
  | PriceAtLeast q => Some (Qle_bool q (price r))
  | PriceAtMost q => Some (Qle_bool (price r) q)
  | PriceAgainstWord => None
  end.

Definition holds_all (srv : Server) (cs : list condition) (r : Product) : tv :=
  fold_right (fun c acc => and3 (holds srv r c) acc) (Some true) cs.

Definition selected (srv : Server) (cs : list condition) (table : list Product)
  : list Product :=
  filter (fun r => is_true (holds_all srv cs r)) table.

Definition syntax_error {A} : outcome A :=
  Raise (ProgrammingError "You have an error in your SQL syntax").

Definition format_error {A} : outcome A :=
  Raise (TypeError "not all arguments converted during string formatting").

(** The server takes the bare word of a special [Decimal] for the name
    of a column, and the table has no such column. *)
Definition unknown_column {A} : outcome A :=
  Raise (OperationalError "Unknown column in 'where clause'").

Definition names_resolve (cs : list condition) : bool :=
  forallb (fun c => match c with PriceAgainstWord => false | _ => true end) cs.

(** The counting statement: [SELECT COUNT AS total FROM product{where_sql}],
    the count being that of all the rows. *)
Definition execute_count (srv : Server) (table : list Product)
    (where_sql : string) (args : list param) : outcome Z :=
  match parse_where where_sql with
  | None => syntax_error
  | Some preds =>
      match fill preds args with
      | Some (cs, []) =>
          if names_resolve cs
          then Return (Z.of_nat (List.length (selected srv cs table)))
          else unknown_column
      | _ => format_error
      end
  end.

(** [ORDER BY updated_at DESC] *)
Definition updated_first (a b : Product) : bool :=
  match compare_key (updated_at a) (updated_at b) with
  | Lt => false
  | _ => true
  end.

(** [SELECT * FROM product {where_sql} ORDER BY updated_at DESC
    LIMIT %s OFFSET %s] *)
Definition execute_page (srv : Server) (table : list Product)
    (where_sql : string) (args : list param) : outcome (list Product) :=
  match parse_where where_sql with
  | None => syntax_error
  | Some preds =>
      match fill preds args with
      | Some (cs, [PInt lim; PInt off]) =>
          if names_resolve cs
          then limit_offset lim off (order_by updated_first (selected srv cs table))
          else unknown_column
      | _ => format_error
      end
  end.

(** *** [search_products] *)

(** The value under a price key of the filters, seen through
    [Decimal(...)]: absent or [None]; a value [Decimal] turns into the
    finite number [q]; a value [Decimal] turns into NaN or an infinity
    (the float [nan], the texts ['NaN'] and ['Infinity'], ...); or a
    value on which [Decimal] raises. *)
Inductive price_arg : Type :=
| NoPrice
| Price (q : Q)
| SpecialPrice
| BadPrice.

Record Filters : Type := {
  f_sku : option string;
  f_category : option string;
  f_keyword : option string;
  f_min_price : price_arg;
  f_max_price : price_arg
}.

(** [filters.get(key)] used as a condition, and [filters[key]]. *)
Definition truthy (v : option string) : bool :=
  match v with Some s => nonempty s | None => false end.

Definition item (v : option string) : string :=
  match v with Some s => s | None => EmptyString end.

Definition Decimal (v : price_arg) : outcome decimal :=
  match v with
  | Price q => Return (Finite q)
  | SpecialPrice => Return NaNOrInfinity
  | NoPrice =>
      Raise (TypeError "conversion from NoneType to Decimal is not supported")
  | BadPrice => Raise InvalidOperation
  end.

Definition is_not_None (v : price_arg) : bool :=
  match v with NoPrice => false | _ => true end.

(** The clause list and the arguments after the three text filters. *)
Definition text_clauses (filters : Filters) : list string * list param :=
  let where_clauses := ["archived = 0"] in
  let params : list param := [] in
  let '(where_clauses, params) :=
    if truthy (f_sku filters)
    then ((where_clauses ++ ["SKU LIKE %s"])%list,
          (params ++ [PText ("%" ++ item (f_sku filters) ++ "%")])%list)
    else (where_clauses, params) in
  let '(where_clauses, params) :=
    if truthy (f_category filters)
    then ((where_clauses ++ ["category = %s"])%list,
          (params ++ [PText (item (f_category filters))])%list)
    else (where_clauses, params) in
  if truthy (f_keyword filters)
  then
    let kw := PText ("%" ++ item (f_keyword filters) ++ "%") in
    ((where_clauses ++ ["(title LIKE %s OR description LIKE %s)"])%list,
     (params ++ [kw; kw])%list)
  else (where_clauses, params).

(** The clause list and the arguments when all five filters are read. *)
Definition build_where (filters : Filters) : outcome (list string * list param) :=
  let '(where_clauses, params) := text_clauses filters in
  r <- (if is_not_None (f_min_price filters)
        then d <- Decimal (f_min_price filters) ;;
             Return ((where_clauses ++ ["price >= %s"])%list, (params ++ [PDecimal d])%list)
        else Return (where_clauses, params)) ;;
  let '(where_clauses, params) := r in
  if is_not_None (f_max_price filters)
  then d <- Decimal (f_max_price filters) ;;
       Return ((where_clauses ++ ["price <= %s"])%list, (params ++ [PDecimal d])%list)
  else Return (where_clauses, params).

Definition where_sql_of (where_clauses : list string) : string :=
  match where_clauses with
  | [] => EmptyString
  | _ => " WHERE " ++ join " AND " where_clauses
  end.

Definition search_products (srv : Server) (table : list Product)
    (filters : Filters) (page per_page : Z) : outcome (list Product * Z) :=
  r <- build_where filters ;;
  let '(where_clauses, params) := r in
  let where_sql := where_sql_of where_clauses in
  let offset := (page - 1) * per_page in
  total <- execute_count srv table where_sql params ;;
  rows <- execute_page srv table where_sql (params ++ [PInt per_page; PInt offset])%list ;;
  Return (rows, total).

(** *** [fetch_idle_stock] *)

Record IdleRow : Type := {
  idle_product_id : Z;
  idle_SKU : option string;
  idle_title : option string;
  idle_category : option string;
  idle_price : Q;
  idle_quantity : Z;
  days_idle : option Z
}.

(** [archived = 0 AND (updated_at IS NULL OR
     updated_at < NOW() - INTERVAL days DAY)] *)
Definition idle_where (srv : Server) (days : Z) (r : Product) : tv :=
  and3 (Some (negb (archived r)))
       (or3 (is_null (updated_at r))
            (cmp3 Z.ltb (updated_at r) (Some (now srv - days * day)))).

(** The select list, with
    [DATEDIFF(NOW(), COALESCE(updated_at, created_at)) AS days_idle]. *)
Definition idle_row (srv : Server) (r : Product) : IdleRow :=
  {| idle_product_id := product_id r;
     idle_SKU := SKU r;
     idle_title := title r;
     idle_category := category r;
     idle_price := price r;
     idle_quantity := quantity r;
     days_idle := datediff (Some (now srv))
                           (coalesce (updated_at r) (created_at r)) |}.

(** [ORDER BY days_idle DESC, quantity DESC] *)
Definition idlest_first (a b : IdleRow) : bool :=
  match compare_key (days_idle a) (days_idle b) with
  | Gt => true
  | Lt => false
  | Eq => idle_quantity b <=? idle_quantity a
  end.

Definition fetch_idle_stock (srv : Server) (table : list Product) (days : Z)
  : list IdleRow :=
  order_by idlest_first
    (map (idle_row srv)
         (filter (fun r => is_true (idle_where srv days r)) table)).

(** *** [archive_product] *)

(** [UPDATE product SET archived = 1, updated_at = NOW()
     WHERE product_id = %s] *)
Definition archive_product (srv : Server) (table : list Product) (id : Z)
  : list Product :=
  map (fun r =>
         if product_id r =? id then
           {| product_id := product_id r; SKU := SKU r; title := title r;
              category := category r; price := price r;
              quantity := quantity r; description := description r;
              image_url := image_url r; archived := true;
              is_sold := is_sold r; created_at := created_at r;
              updated_at := Some (now srv) |}
         else r)
      table.

(** *** [product_has_open_orders] *)

(** The order tables are defined outside the repository.  [listed] holds
    the names [information_schema.tables] gives for the schema; the rows
    are those of [orders] and [order_items] when both exist with the
    columns the query names.  [fails n] tells that the server fails the
    statement number [n] of the call (a missing column, a lost
    connection, a missing privilege). *)
Record Order : Type := { id : Z; status : option string }.
Record OrderItem : Type := { order_id : Z; item_product_id : Z }.

Record OrderTables : Type := {
  listed : list string;
  orders : list Order;
  order_items : list OrderItem;
  fails : nat -> bool
}.

Definition execute {A} (db : OrderTables) (n : nat) (result : A) : outcome A :=
  if fails db n then Raise (OperationalError "statement failed")
  else Return result.

Definition _table_exists (srv : Server) (db : OrderTables) (n : nat)
    (table_name : string) : outcome bool :=
  cnt <- execute db n
           (Z.of_nat (List.length (filter (fun t => text_eq srv t table_name) (listed db)))) ;;
  Return (negb (cnt =? 0)).

(** [COALESCE(o.status, 'open') NOT IN ('completed','closed','cancelled')] *)
Definition is_open (srv : Server) (o : Order) : bool :=
  let st := match status o with Some s => s | None => "open" end in
  negb (existsb (text_eq srv st) ["completed"; "closed"; "cancelled"]).

(** The number of rows of [order_items JOIN orders] for the product
    whose order is open. *)
Definition open_order_count (srv : Server) (db : OrderTables) (pid : Z) : Z :=
  Z.of_nat
    (List.length
       (filter (fun io : OrderItem * Order =>
                  let (oi, o) := io in
                  (order_id oi =? id o) && (item_product_id oi =? pid)
                  && is_open srv o)%bool
               (list_prod (order_items db) (orders db)))).

(** The body of the [try]. *)
Definition open_orders_check (srv : Server) (db : OrderTables) (pid : Z)
  : outcome bool :=
  has_orders <- _table_exists srv db 0 "orders" ;;
  both <- (if has_orders then _table_exists srv db 1 "order_items"
           else Return false) ;;
  if negb both then Return false
  else
    cnt <- execute db 2 (open_order_count srv db pid) ;;
    Return (negb (cnt =? 0)).

Definition product_has_open_orders (srv : Server) (db : OrderTables) (pid : Z)
  : bool :=
  match open_orders_check srv db pid with
  | Return b => b
  | Raise _ => false   (* except Exception: return False *)
  end.

End ProductModel.

(** ** [app/users.py] *)

Module Users.
Import Text Sql Validators.

(** *** Tables *)

Record User : Type := {
  Email : string;
  UserType : string;
  ContactFirstName : string;
  ContactLastName : string;
  UPassword : string;
  Phone : option string;
  Website : option string;
  BusinessName : option string;
  Status : string;
  TimeOfCreation : Z;
  LastLogin : option Z
}.

Record Activity : Type := {
  ActivityEmail : string;
  ActivityType : string;
  ActivityDescription : option string;
  ActivityDate : Z
}.

Record Database : Type := {
  UserProfile : list User;
  UserActivityLog : list Activity
}.

(** *** What a request handler sees and changes *)

(** The surroundings of a request: the server, whether [pymysql.connect]
    succeeds, and werkzeug's two password functions
    ([generate_password_hash] with the salt it draws for this request). *)
Record Env : Type := {
  srv : Server;
  reachable : bool;
  check_password_hash : string -> string -> bool;
  generate_password_hash : string -> string
}.

Record Session : Type := {
  user_email : string;
  user_name : string;
  user_type : string;
  permanent : bool
}.

(** [connected] is the state of the connection the handler opened;
    [flashes] is the queue of flashed messages with their categories;
    [session] is [None] when the session holds no [user_email]. *)
Record State : Type := {
  db : Database;
  connected : bool;
  flashes : list (string * string);
  session : option Session
}.

Inductive json : Type :=
| JText (s : string)
| JNumber (z : Z).

Inductive response : Type :=
| Render (template : string) (user : option User)
| Redirect (endpoint : string)
| Jsonify (body : list (string * json)) (status_code : Z).

(** Handlers run in a state monad whose state outlives an exception:
    what was flashed or written before a [raise] stays. *)
Definition H (A : Type) : Type := State -> State * outcome A.

Definition ret {A} (a : A) : H A := fun s => (s, Return a).

Definition raise {A} (e : exn) : H A := fun s => (s, Raise e).

Definition bindH {A B} (m : H A) (k : A -> H B) : H B :=
  fun s =>
    match m s with
    | (s', Return a) => k a s'
    | (s', Raise e) => (s', Raise e)
    end.

Notation "x <~ m ; k" := (bindH m (fun x => k))
  (at level 61, m at next level, right associativity).
Notation "m ;; k" := (bindH m (fun _ => k))
  (at level 61, right associativity).

(** [try: body / except Exception as e: handler(e)] *)
Definition try_except {A} (body : H A) (handler : exn -> H A) : H A :=
  fun s =>
    match body s with
    | (s', Return a) => (s', Return a)
    | (s', Raise e) => handler e s'
    end.

Definition set_db (d : Database) (s : State) : State :=
  {| db := d; connected := connected s; flashes := flashes s; session := session s |}.

Definition flash (message category : string) : H unit :=
  fun s => ({| db := db s; connected := connected s;
               flashes := (flashes s ++ [(message, category)])%list;
               session := session s |}, Return tt).

Definition set_session (v : option Session) : H unit :=
  fun s => ({| db := db s; connected := connected s; flashes := flashes s;
               session := v |}, Return tt).

Definition get_session : H (option Session) := fun s => (s, Return (session s)).

(** [get_db()]: a fresh connection, or [None] when connecting fails.
    The handle is [true] for a connection and [false] for [None]. *)
Definition get_db (env : Env) : H bool :=
  fun s =>
    if reachable env
    then ({| db := db s; connected := true; flashes := flashes s;
             session := session s |}, Return true)
    else (s, Return false).

(** [conn.cursor()] *)
Definition cursor (conn : bool) : H unit :=
  if conn then ret tt
  else raise (AttributeError "'NoneType' object has no attribute 'cursor'").

(** [conn.close()] *)
Definition close : H unit :=
  fun s =>
    if connected s
    then ({| db := db s; connected := false; flashes := flashes s;
             session := session s |}, Return tt)
    else (s, Raise (MySQLError "Already closed")).

(** [cursor.execute(...)]: a statement reads and may rewrite the tables;
    on a closed connection it raises and leaves them alone. *)
Definition execute {A} (statement : Database -> Database * A) : H A :=
  fun s =>
    if connected s
    then let (d, a) := statement (db s) in (set_db d s, Return a)
    else (s, Raise InterfaceError).

(** The same for a statement the server may reject. *)
Definition execute_checked {A} (statement : Database -> outcome (Database * A))
  : H A :=
  fun s =>
    if connected s
    then match statement (db s) with
         | Return (d, a) => (set_db d s, Return a)
         | Raise e => (s, Raise e)
         end
    else (s, Raise InterfaceError).

(** *** Statements *)

(** [SELECT ... FROM UserProfile WHERE Email = %s] and [fetchone()] *)
Definition select_user (env : Env) (email : string) (d : Database)
  : Database * option User :=
  (d, find (fun u => text_eq (srv env) (Email u) email) (UserProfile d)).

Definition insert_user (u : User) (d : Database) : Database * unit :=
  ({| UserProfile := (UserProfile d ++ [u])%list;
      UserActivityLog := UserActivityLog d |}, tt).

(** [INSERT INTO UserActivityLog (Email, ActivityType,
    ActivityDescription, ActivityDate) VALUES (%s, ..., NOW())] *)
Definition log_activity (env : Env) (email kind : string)
    (description : option string) (d : Database) : Database * unit :=
  ({| UserProfile := UserProfile d;
      UserActivityLog :=
        (UserActivityLog d ++
         [{| ActivityEmail := email; ActivityType := kind;
             ActivityDescription := description;
             ActivityDate := now (srv env) |}])%list |}, tt).

Definition update_users (env : Env) (email : string) (f : User -> User)
    (d : Database) : Database * unit :=
  ({| UserProfile :=
        map (fun u => if text_eq (srv env) (Email u) email then f u else u)
            (UserProfile d);
      UserActivityLog := UserActivityLog d |}, tt).

Definition with_last_login (t : Z) (u : User) : User :=
  {| Email := Email u; UserType := UserType u;
     ContactFirstName := ContactFirstName u;
     ContactLastName := ContactLastName u; UPassword := UPassword u;
     Phone := Phone u; Website := Website u; BusinessName := BusinessName u;
     Status := Status u; TimeOfCreation := TimeOfCreation u;
     LastLogin := Some t |}.

(** [s or None] *)
Definition or_None (s : string) : option string :=
  if nonempty s then Some s else None.

Inductive method : Type := GET | POST.

(** [@login_required] *)
Definition login_required (f : Session -> H response) : H response :=
  sess <~ get_session ;
  match sess with
  | None => flash "Please log in first." "warning" ;; ret (Redirect "users.login")
  | Some who => f who
  end.

(** *** [register] *)

Record RegisterForm : Type := {
  reg_email : string;
  reg_user_type : string;
  reg_first_name : string;
  reg_last_name : string;
  reg_password : string;
  reg_confirm_password : string;
  reg_phone : string;
  reg_website : string;
  reg_business_name : string
}.

Definition register (env : Env) (m : method) (form : RegisterForm) : H response :=
  match m with
  | GET => ret (Render "users/register.html" None)
  | POST =>
    try_except
      (let email := lower (strip (reg_email form)) in
       let user_type := strip (reg_user_type form) in
       let first_name := strip (reg_first_name form) in
       let last_name := strip (reg_last_name form) in
       let password := reg_password form in
       let confirm_password := reg_confirm_password form in
       let phone := or_None (strip (reg_phone form)) in
       let website := or_None (strip (reg_website form)) in
       let business_name := or_None (strip (reg_business_name form)) in
       if (negb (nonempty email) || negb (is_valid_email email))%bool then
         flash "Invalid email address." "danger" ;;
         ret (Redirect "users.register")
       else if negb (existsb (String.eqb user_type) ["customer"; "merchant"]) then
         flash "Invalid role." "danger" ;;
         ret (Redirect "users.register")
       else if (negb (nonempty first_name) || negb (nonempty last_name))%bool then
         flash "First and last name required." "danger" ;;
         ret (Redirect "users.register")
       else if negb (String.eqb password confirm_password) then
         flash "Passwords do not match." "danger" ;;
         ret (Redirect "users.register")
       else
         let (is_valid, msg) := is_strong_password password in
         if negb is_valid then
           flash msg "danger" ;;
           ret (Redirect "users.register")
         else
           conn <~ get_db env ;
           if negb conn then
             flash "Database error." "danger" ;;
             ret (Redirect "users.register")
           else
             cursor conn ;;
             found <~ execute (select_user env email) ;
             match found with
             | Some _ =>
                 close ;;
                 flash "Email already registered." "danger" ;;
                 ret (Redirect "users.register")
             | None =>
                 let hashed := generate_password_hash env password in
                 execute (insert_user
                            {| Email := email; UserType := user_type;
                               ContactFirstName := first_name;
                               ContactLastName := last_name;
                               UPassword := hashed; Phone := phone;
                               Website := website;
                               BusinessName := business_name;
                               Status := "active";
                               TimeOfCreation := now (srv env);
                               LastLogin := None |}) ;;
                 execute (log_activity env email "Registered" None) ;;
                 close ;;
                 flash "Account created! Please log in." "success" ;;
                 ret (Redirect "users.login")
             end)
      (fun e =>
         flash ("Error: " ++ exn_str e) "danger" ;;
         ret (Redirect "users.register"))
  end.

(** *** [login] *)

Record LoginForm : Type := {
  login_email : string;
  login_password : string
}.

Definition login (env : Env) (m : method) (form : LoginForm) : H response :=
  match m with
  | GET => ret (Render "users/login.html" None)
  | POST =>
    try_except
      (let email := lower (strip (login_email form)) in
       let password := login_password form in
       conn <~ get_db env ;
       if negb conn then
         flash "Database error." "danger" ;;
         ret (Redirect "users.login")
       else
         cursor conn ;;
         found <~ execute (select_user env email) ;
         match found with
         | None =>
             close ;;
             flash "Invalid email or password." "danger" ;;
             ret (Redirect "users.login")
         | Some user =>
             if negb (check_password_hash env (UPassword user) password) then
               close ;;
               flash "Invalid email or password." "danger" ;;
               ret (Redirect "users.login")
             else if negb (String.eqb (Status user) "active") then
               close ;;
               flash "Account disabled." "warning" ;;
               ret (Redirect "users.login")
             else
               set_session
                 (Some {| user_email := email;
                          user_name := ContactFirstName user ++ " "
                                       ++ ContactLastName user;
                          user_type := UserType user;
                          permanent := true |}) ;;
               execute (update_users env email (with_last_login (now (srv env)))) ;;
               execute (log_activity env email "Logged In" None) ;;
               close ;;
               flash ("Welcome, " ++ ContactFirstName user ++ "!") "success" ;;
               ret (Redirect "users.dashboard")
         end)
      (fun e =>
         flash ("Error: " ++ exn_str e) "danger" ;;
         ret (Redirect "users.login"))
  end.

(** *** [profile] *)

Record ProfileForm : Type := {
  prof_first_name : string;
  prof_last_name : string;
  prof_phone : string;
  prof_website : string;
  prof_business_name : string;
  prof_new_password : string;
  prof_confirm_password : string
}.

(** One [column = %s] of the SET list with its argument. *)
Definition assign (text value : string) (u : User) : option User :=
  let mk fn ln pw ph ws bn :=
    Some {| Email := Email u; UserType := UserType u;
            ContactFirstName := fn; ContactLastName := ln; UPassword := pw;
            Phone := ph; Website := ws; BusinessName := bn;
            Status := Status u; TimeOfCreation := TimeOfCreation u;
            LastLogin := LastLogin u |} in
  let fn := ContactFirstName u in
  let ln := ContactLastName u in
  let pw := UPassword u in
  let ph := Phone u in
  let ws := Website u in
  let bn := BusinessName u in
  if String.eqb text "ContactFirstName = %s" then mk value ln pw ph ws bn
  else if String.eqb text "ContactLastName = %s" then mk fn value pw ph ws bn
  else if String.eqb text "Phone = %s" then mk fn ln pw (Some value) ws bn
  else if String.eqb text "Website = %s" then mk fn ln pw ph (Some value) bn
  else if String.eqb text "BusinessName = %s" then mk fn ln pw ph ws (Some value)
  else if String.eqb text "UPassword = %s" then mk fn ln value ph ws bn
  else None.

(** The SET list applied to one row; [None] stands for a statement the
    server rejects or whose arguments do not fit. *)
Fixpoint assign_all (updates params : list string) (u : User)
  : option (User * list string) :=
  match updates, params with
  | [], _ => Some (u, params)
  | text :: updates', value :: params' =>
      match assign text value u with
      | Some u' => assign_all updates' params' u'
      | None => None
      end
  | _ :: _, [] => None
  end.

(** [UPDATE UserProfile SET {', '.join(updates)} WHERE Email = %s] with
    the arguments [params], the last of which is the email. *)
Definition update_profile (env : Env) (updates params : list string)
    (d : Database) : outcome (Database * unit) :=
  let values := removelast params in
  let email := last params EmptyString in
  if negb (Nat.eqb (List.length params) (S (List.length updates))) then
    Raise (TypeError "not all arguments converted during string formatting")
  else
    match all_some
            (map (fun u =>
                    if text_eq (srv env) (Email u) email
                    then option_map fst (assign_all updates values u)
                    else Some u)
                 (UserProfile d)) with
    | Some users =>
        Return ({| UserProfile := users;
                   UserActivityLog := UserActivityLog d |}, tt)
    | None => Raise (ProgrammingError "Unknown column")
    end.

(** The tail of the POST branch: the UPDATE when something is to be set. *)
Definition apply_updates (env : Env) (email : string)
    (updates params : list string) : H response :=
  match updates with
  | _ :: _ =>
      let params := (params ++ [email])%list in
      execute_checked (update_profile env updates params) ;;
      execute (log_activity env email "Profile Updated" None) ;;
      flash "Profile updated." "success" ;;
      close ;;
      ret (Redirect "users.profile")
  | [] =>
      flash "No changes." "info" ;;
      close ;;
      ret (Redirect "users.profile")
  end.

(** The body of the [try] of the POST branch. *)
Definition profile_post (env : Env) (email : string) (form : ProfileForm)
  : H response :=
  let first_name := strip (prof_first_name form) in
  let last_name := strip (prof_last_name form) in
  let phone := or_None (strip (prof_phone form)) in
  let website := or_None (strip (prof_website form)) in
  let business_name := or_None (strip (prof_business_name form)) in
  let new_password := strip (prof_new_password form) in
  let confirm_password := strip (prof_confirm_password form) in
  conn <~ get_db env ;
  cursor conn ;;
  let updates : list string := [] in
  let params : list string := [] in
  let '(updates, params) :=
    if nonempty first_name
    then ((updates ++ ["ContactFirstName = %s"])%list,
          (params ++ [first_name])%list)
    else (updates, params) in
  let '(updates, params) :=
    if nonempty last_name
    then ((updates ++ ["ContactLastName = %s"])%list,
          (params ++ [last_name])%list)
    else (updates, params) in
  let '(updates, params) :=
    match phone with
    | Some v => ((updates ++ ["Phone = %s"])%list, (params ++ [v])%list)
    | None => (updates, params)
    end in
  let '(updates, params) :=
    match website with
    | Some v => ((updates ++ ["Website = %s"])%list, (params ++ [v])%list)
    | None => (updates, params)
    end in
  let '(updates, params) :=
    match business_name with
    | Some v => ((updates ++ ["BusinessName = %s"])%list,
                 (params ++ [v])%list)
    | None => (updates, params)
    end in
  if nonempty new_password then
    if negb (String.eqb new_password confirm_password) then
      close ;;
      flash "Passwords do not match." "danger" ;;
      user <~ execute (select_user env email) ;
      ret (Render "users/profile.html" user)
    else
      let (is_valid, msg) := is_strong_password new_password in
      if negb is_valid then
        close ;;
        flash msg "danger" ;;
        user <~ execute (select_user env email) ;
        ret (Render "users/profile.html" user)
      else
        apply_updates env email
          (updates ++ ["UPassword = %s"])%list
          (params ++ [generate_password_hash env new_password])%list
  else apply_updates env email updates params.

Definition profile (env : Env) (m : method) (form : ProfileForm) : H response :=
  login_required (fun who =>
    let email := user_email who in
    match m with
    | GET =>
        conn <~ get_db env ;
        cursor conn ;;
        user <~ execute (select_user env email) ;
        close ;;
        ret (Render "users/profile.html" user)
    | POST =>
      try_except
        (profile_post env email form)
        (fun e =>
           flash ("Error: " ++ exn_str e) "danger" ;;
           ret (Redirect "users.profile"))
    end).

(** *** [chat_analyze] *)

Definition select_count : string :=
  "SELECT COUNT(" ++ "*) as cnt FROM UserProfile WHERE ".

Definition quoted (s : string) : string := dquote ++ s ++ dquote.

(** The whitelisted queries, in the order the dictionary is written. *)
Definition queries : list (string * (string * string)) :=
  [ ("new customers",
     (select_count ++ "UserType=" ++ quoted "customer"
        ++ " AND TimeOfCreation >= DATE_SUB(NOW(), INTERVAL 30 DAY)",
      "New customers (30d)"));
    ("active users",
     (select_count ++ "Status=" ++ quoted "active", "Total active users"));
    ("merchants",
     (select_count ++ "UserType=" ++ quoted "merchant", "Total merchants"));
    ("customers",
     (select_count ++ "UserType=" ++ quoted "customer", "Total customers"));
    ("disabled",
     (select_count ++ "Status=" ++ quoted "disabled", "Disabled accounts")) ].

Definition count_users (p : User -> bool) (d : Database) : Z :=
  Z.of_nat (List.length (filter p (UserProfile d))).

(** The server's reading of a whitelisted statement: the value of
    [cnt] in the single row it returns. *)
Definition run_count (env : Env) (sql : string) (d : Database)
  : outcome (Database * Z) :=
  let eq := text_eq (srv env) in
  let is_query (n : nat) :=
    String.eqb sql (fst (snd (nth n queries ("", ("", ""))))) in
  if is_query 0%nat then
    Return (d, count_users
                 (fun u => eq (UserType u) "customer"
                           && (now (srv env) - 30 * day <=? TimeOfCreation u))%bool d)
  else if is_query 1%nat then
    Return (d, count_users (fun u => eq (Status u) "active") d)
  else if is_query 2%nat then
    Return (d, count_users (fun u => eq (UserType u) "merchant") d)
  else if is_query 3%nat then
    Return (d, count_users (fun u => eq (UserType u) "customer") d)
  else if is_query 4%nat then
    Return (d, count_users (fun u => eq (Status u) "disabled") d)
  else Raise (ProgrammingError "You have an error in your SQL syntax").

(** The [for] loop: the first keyword found in the question decides. *)
Fixpoint first_match (env : Env) (question : string)
    (qs : list (string * (string * string))) : H (option Z * string) :=
  match qs with
  | [] => ret (None, "Not found")
  | (keyword, (sql, desc)) :: rest =>
      if contains keyword question then
        cnt <~ execute_checked (run_count env sql) ;
        ret (Some cnt, desc)
      else first_match env question rest
  end.

Definition not_understood : string :=
  "Query not understood. Try: " ++ quoted "new customers" ++ ", "
    ++ quoted "active users" ++ ", " ++ quoted "merchants" ++ ", "
    ++ quoted "customers" ++ ", " ++ quoted "disabled".

(** [question_field] is the value under the key [question] of the
    request body, [None] when the key is missing or null. *)
Definition chat_analyze (env : Env) (question_field : option string) : H response :=
  login_required (fun who =>
    try_except
      (let email := user_email who in
       let question :=
         lower (strip (match question_field with
                       | Some q => q
                       | None => EmptyString
                       end)) in
       if negb (nonempty question) then
         ret (Jsonify [("error", JText "No question")] 400)
       else
         conn <~ get_db env ;
         cursor conn ;;
         found <~ first_match env question queries ;
         let '(result, label) := found in
         execute (log_activity env email "Analysis" (Some question)) ;;
         close ;;
         match result with
         | Some value =>
             ret (Jsonify [("answer", JText (label ++ ": " ++ str_of_Z value));
                           ("value", JNumber value);
                           ("label", JText label)] 200)
         | None => ret (Jsonify [("answer", JText not_understood)] 200)
         end)
      (fun e => ret (Jsonify [("error", JText (exn_str e))] 500))).

End Users.

(** ** [app/views.py] *)

Module Views.
Import Sql Unicode.

(** A value of a result row: one [jsonify] writes (a number, a text, a
    date, NULL), given as it is written, or one of a type it does not
    know (the [bytes] of a binary column, the [timedelta] of a TIME
    column), given by the name of the type. *)
Inductive value : Type :=
| Written (json : string)
| Unwritable (type_name : string).

(** A result row, as a list of column names and values. *)
Definition Row : Type := list (string * value).

(** The database as the passthrough endpoint meets it: whether a
    connection can be made, and what the server answers to a statement. *)
Record Backend : Type := {
  reachable : bool;
  run : text -> outcome (list Row)
}.

Inductive body : Type :=
| Failure (error : string)
| Results (results : list Row) (count : Z).

Record Reply : Type := {
  payload : body;
  status_code : Z
}.

(** [cursor.execute(sql_query)] and [cursor.fetchall()]: the server
    receives the statement, which joins those it has received, and
    answers with rows or an error. *)
Definition cursor_execute (be : Backend) (sql_query : text) (received : list text)
  : list text * outcome (list Row) :=
  ((received ++ [sql_query])%list, run be sql_query).

(** The type of the first value, in the order of the rows and of their
    columns, that [jsonify] cannot write. *)
Definition first_unwritable (results : list Row) : option string :=
  match
    find (fun v => match v with Unwritable _ => true | Written _ => false end)
         (map snd (List.concat results))
  with
  | Some (Unwritable type_name) => Some type_name
  | _ => None
  end.

(** [jsonify({'results': results, 'count': len(results)})] *)
Definition jsonify (results : list Row) : outcome body :=
  match first_unwritable results with
  | Some type_name =>
      Raise (TypeError ("Object of type " ++ type_name
                        ++ " is not JSON serializable"))
  | None => Return (Results results (Z.of_nat (List.length results)))
  end.

(** [query_field] is the value under the key [query] of the request
    body, [None] when the key is missing; [received] holds the
    statements the server has received so far.  Whatever is raised
    after the two checks of the text is caught and answered with its
    text and status 500. *)
Definition query_database (ucd : CharacterData) (be : Backend)
    (query_field : option text) (received : list text) : list text * Reply :=
  let sql_query :=
    strip ucd (match query_field with Some q => q | None => [] end) in
  if negb (nonempty sql_query) then
    (received, {| payload := Failure "No query provided"; status_code := 400 |})
  else if negb (startswith (upper ucd sql_query) (of_string "SELECT")) then
    (received,
     {| payload := Failure "Only SELECT queries are allowed"; status_code := 400 |})
  else if negb (reachable be) then
    (received,
     {| payload := Failure "Database connection failed"; status_code := 500 |})
  else
    let (received', fetched) := cursor_execute be sql_query received in
    match results <- fetched ;; jsonify results with
    | Return answer => (received', {| payload := answer; status_code := 200 |})
    | Raise e =>
        (received', {| payload := Failure (exn_str e); status_code := 500 |})
    end.

End Views.

(** ** The properties as the specification words them *)

Module Stated.
Import Text Sql Validators ProductModel.

(** *** Password rules, in the order they are announced *)

Inductive rule : Type :=
| MinLength | NeedsUpper | NeedsLower | NeedsDigit | NeedsSpecial.

Definition rules : list rule :=
  [MinLength; NeedsUpper; NeedsLower; NeedsDigit; NeedsSpecial].

Definition rule_met (decimal_digit : Unicode.point -> bool)
    (password : Unicode.text) (r : rule) : bool :=
  match r with
  | MinLength => Nat.leb 8 (List.length password)
  | NeedsUpper => existsb (Unicode.in_range 65%N 90%N) password
  | NeedsLower => existsb (Unicode.in_range 97%N 122%N) password
  | NeedsDigit => existsb decimal_digit password
  | NeedsSpecial => existsb Unicode.is_special password
  end.

Definition rule_message (r : rule) : string :=
  match r with
  | MinLength => "Password must be at least 8 characters"
  | NeedsUpper => "Must contain uppercase letter"
  | NeedsLower => "Must contain lowercase letter"
  | NeedsDigit => "Must contain digit"
  | NeedsSpecial => "Must contain special character"
  end.

Definition first_unmet (decimal_digit : Unicode.point -> bool)
    (password : Unicode.text) : option rule :=
  find (fun r => negb (rule_met decimal_digit password r)) rules.

(** *** Idle stock *)

(** Not archived, and never updated or last updated more than [days]
    days before now. *)
Definition stale (srv : Server) (days : Z) (r : Product) : bool :=
  (negb (archived r) &&
   match updated_at r with
   | None => true
   | Some u => u <? now srv - days * day
   end)%bool.

(** Not archived, and the time of the last update, or of the creation
    when there was no update, lies more than [days] days before now. *)
Definition idle_since_last_change (srv : Server) (days : Z) (r : Product) : bool :=
  (negb (archived r) &&
   match coalesce (updated_at r) (created_at r) with
   | None => false
   | Some t => t <? now srv - days * day
   end)%bool.

(** The days between today's date and the date of the last update, or
    of the creation when there was no update. *)
Definition days_since_last_change (srv : Server) (r : Product) : option Z :=
  match updated_at r with
  | Some u => Some (now srv / day - u / day)
  | None =>
      match created_at r with
      | Some c => Some (now srv / day - c / day)
      | None => None
      end
  end.

(** [a] is at least as idle as [b], and holds at least as many pieces
    when they are equally idle; a row without days-idle value counts as
    the least idle. *)
Definition idle_order (a b : IdleRow) : Prop :=
  match days_idle a, days_idle b with
  | Some x, Some y => y < x \/ (x = y /\ idle_quantity b <= idle_quantity a)
  | Some _, None => True
  | None, Some _ => False
  | None, None => idle_quantity b <= idle_quantity a
  end.

(** *** Product search *)

(** The optional predicates, one per filter that is set. *)
Definition sku_matches (srv : Server) (filters : Filters) (r : Product) : bool :=
  if truthy (f_sku filters)
  then is_true (like3 srv (SKU r) ("%" ++ item (f_sku filters) ++ "%"))
  else true.

Definition category_matches (srv : Server) (filters : Filters) (r : Product) : bool :=
  if truthy (f_category filters)
  then is_true (cmp3 (text_eq srv) (category r) (Some (item (f_category filters))))
  else true.

Definition keyword_matches (srv : Server) (filters : Filters) (r : Product) : bool :=
  if truthy (f_keyword filters)
  then (is_true (like3 srv (title r) ("%" ++ item (f_keyword filters) ++ "%"))
        || is_true (like3 srv (description r)
                          ("%" ++ item (f_keyword filters) ++ "%")))%bool
  else true.

Definition min_price_matches (filters : Filters) (r : Product) : bool :=
  match f_min_price filters with
  | Price q => Qle_bool q (price r)
  | _ => true
  end.

Definition max_price_matches (filters : Filters) (r : Product) : bool :=
  match f_max_price filters with
  | Price q => Qle_bool (price r) q
  | _ => true
  end.

(** The conjunction of [archived = 0] and the predicates of the filters
    that are set. *)
Definition matches (srv : Server) (filters : Filters) (r : Product) : bool :=
  (negb (archived r) && sku_matches srv filters r
   && category_matches srv filters r && keyword_matches srv filters r
   && min_price_matches filters r && max_price_matches filters r)%bool.

(** The clause texts one expects for the filters that are set. *)
Definition expected_clauses (filters : Filters) : list string :=
  (["archived = 0"]
   ++ (if truthy (f_sku filters) then ["SKU LIKE %s"] else [])
   ++ (if truthy (f_category filters) then ["category = %s"] else [])
   ++ (if truthy (f_keyword filters)
       then ["(title LIKE %s OR description LIKE %s)"] else [])
   ++ (if is_not_None (f_min_price filters) then ["price >= %s"] else [])
   ++ (if is_not_None (f_max_price filters) then ["price <= %s"] else []))%list.

(** The value under a price key is absent, or one [Decimal] turns into
    a finite number. *)
Definition finite_or_absent (v : price_arg) : bool :=
  match v with NoPrice | Price _ => true | SpecialPrice | BadPrice => false end.

Definition no_filters : Filters :=
  {| f_sku := None; f_category := None; f_keyword := None;
     f_min_price := NoPrice; f_max_price := NoPrice |}.

(** Most recently updated first; a row never updated comes last. *)
Definition recent_order (a b : Product) : Prop :=
  match updated_at a, updated_at b with
  | Some x, Some y => y <= x
  | _, None => True
  | None, Some _ => False
  end.

Definition flagged {A} (b : bool) (l : list A) : list A := if b then l else [].

(** The page [page] of [rows], [per_page] rows to a page, pages counted
    from 1. *)
Definition page_of {A} (page per_page : Z) (rows : list A) : list A :=
  firstn (Z.to_nat per_page) (skipn (Z.to_nat ((page - 1) * per_page)) rows).

(** What a search comes to: the page cut out of the matching rows in
    the order of the query, with the number of matching rows. *)
Definition page_result (srv : Server) (table : list Product) (filters : Filters)
    (page per_page : Z) : outcome (list Product * Z) :=
  rows <- limit_offset per_page ((page - 1) * per_page)
            (order_by updated_first (filter (matches srv filters) table)) ;;
  Return (rows, Z.of_nat (List.length (filter (matches srv filters) table))).

Definition price_value (v : price_arg) : Q :=
  match v with Price q => q | _ => 0%Q end.

Definition expected_params (filters : Filters) : list param :=
  ((if truthy (f_sku filters)
    then [PText ("%" ++ item (f_sku filters) ++ "%")] else [])
   ++ (if truthy (f_category filters)
       then [PText (item (f_category filters))] else [])
   ++ (if truthy (f_keyword filters)
       then [PText ("%" ++ item (f_keyword filters) ++ "%");
             PText ("%" ++ item (f_keyword filters) ++ "%")] else [])
   ++ (if is_not_None (f_min_price filters)
       then [PDecimal (Finite (price_value (f_min_price filters)))] else [])
   ++ (if is_not_None (f_max_price filters)
       then [PDecimal (Finite (price_value (f_max_price filters)))] else []))%list.

End Stated.


(** ** Words of the specification about the user flows *)

Module StatedUsers.
Import Text Sql Validators Users.

(** The account a submitted email leads to: the row the lookup by the
    stripped, lower-cased email finds, if any. *)
Definition account (env : Env) (d : Database) (submitted : string) : option User :=
  find (fun u => text_eq (srv env) (Email u) (lower (strip submitted)))
       (UserProfile d).

(** The state a request leaves when it opened a connection, closed it,
    flashed [messages] and changed nothing else. *)
Definition answered (s : State) (messages : list (string * string)) : State :=
  {| db := db s; connected := false;
     flashes := (flashes s ++ messages)%list; session := session s |}.

(** The state a request leaves when it flashed [messages] and changed
    nothing else. *)
Definition noted (s : State) (messages : list (string * string)) : State :=
  {| db := db s; connected := connected s;
     flashes := (flashes s ++ messages)%list; session := session s |}.

(** The message of the first field check of [register] the form fails. *)
Definition validation_failure (form : RegisterForm) : option string :=
  let email := lower (strip (reg_email form)) in
  if (negb (nonempty email) || negb (is_valid_email email))%bool
  then Some "Invalid email address."
  else if negb (existsb (String.eqb (strip (reg_user_type form)))
                        ["customer"; "merchant"])
  then Some "Invalid role."
  else if (negb (nonempty (strip (reg_first_name form)))
           || negb (nonempty (strip (reg_last_name form))))%bool
  then Some "First and last name required."
  else if negb (String.eqb (reg_password form) (reg_confirm_password form))
  then Some "Passwords do not match."
  else if negb (fst (is_strong_password (reg_password form)))
  then Some (snd (is_strong_password (reg_password form)))
  else None.

(** The row [register] inserts. *)
Definition new_user (env : Env) (form : RegisterForm) : User :=
  {| Email := lower (strip (reg_email form));
     UserType := strip (reg_user_type form);
     ContactFirstName := strip (reg_first_name form);
     ContactLastName := strip (reg_last_name form);
     UPassword := generate_password_hash env (reg_password form);
     Phone := or_None (strip (reg_phone form));
     Website := or_None (strip (reg_website form));
     BusinessName := or_None (strip (reg_business_name form));
     Status := "active"; TimeOfCreation := now (srv env);
     LastLogin := None |}.

(** The state after a registration that went through. *)
Definition registered (env : Env) (s : State) (form : RegisterForm) : State :=
  {| db := {| UserProfile := (UserProfile (db s) ++ [new_user env form])%list;
              UserActivityLog :=
                (UserActivityLog (db s) ++
                 [{| ActivityEmail := lower (strip (reg_email form));
                     ActivityType := "Registered";
                     ActivityDescription := None;
                     ActivityDate := now (srv env) |}])%list |};
     connected := false;
     flashes := (flashes s ++ [("Account created! Please log in.", "success")])%list;
     session := session s |}.

(** The two forms agree on every field [register] checks but the email. *)
Definition same_particulars (a b : RegisterForm) : Prop :=
  reg_user_type a = reg_user_type b
  /\ reg_first_name a = reg_first_name b
  /\ reg_last_name a = reg_last_name b
  /\ reg_password a = reg_password b
  /\ reg_confirm_password a = reg_confirm_password b.

(** The stored emails, case-folded. *)
Definition case_folded_emails (d : Database) : list string :=
  map (fun u => lower (Email u)) (UserProfile d).

(** No two rows of [UserProfile] hold emails that are equal up to
    letter case. *)
Definition case_folded_unique (d : Database) : Prop :=
  NoDup (case_folded_emails d).

(** The lookup by [email] finds every row whose email, case-folded, is
    [email]. *)
Definition lookup_sees_every_spelling (env : Env) (d : Database)
    (email : string) : Prop :=
  forall u, In u (UserProfile d) -> lower (Email u) = email ->
            text_eq (srv env) (Email u) email = true.

(** Every stored email is case-folded, as [register] writes them. *)
Definition stored_case_folded (d : Database) : Prop :=
  forall u, In u (UserProfile d) -> lower (Email u) = Email u.

(** The comparison of the collation ignores letter case. *)
Definition ignores_case (env : Env) : Prop :=
  forall a b, lower a = lower b -> text_eq (srv env) a b = true.

(** The comparison of the collation holds of the text and itself. *)
Definition equal_to_itself (env : Env) (t : string) : Prop :=
  text_eq (srv env) t t = true.

(** The message flashed for a refused password change. *)
Definition password_refusal (new_password confirm_password : string) : string :=
  if String.eqb new_password confirm_password
  then snd (is_strong_password new_password)
  else "Passwords do not match.".

(** The first whitelisted phrase the question holds. *)
Definition first_phrase (question : string)
  : option (string * (string * string)) :=
  find (fun entry => contains (fst entry) question) queries.

(** The value of [cnt] a whitelisted statement gives on the tables. *)
Definition canned_value (env : Env) (d : Database) (sql : string) : Z :=
  match run_count env sql d with
  | Return (_, value) => value
  | Raise _ => 0
  end.

(** The body of the answer to a question: the label and the value of
    the first phrase it holds, or the list of the phrases. *)
Definition analysis_answer (env : Env) (d : Database) (question : string)
  : list (string * json) :=
  match first_phrase question with
  | Some (_, (sql, label)) =>
      let value := canned_value env d sql in
      [("answer", JText (label ++ ": " ++ str_of_Z value));
       ("value", JNumber value);
       ("label", JText label)]
  | None => [("answer", JText not_understood)]
  end.

(** The audit row of an analysis. *)
Definition analysis_row (env : Env) (email description : string) : Activity :=
  {| ActivityEmail := email; ActivityType := "Analysis";
     ActivityDescription := Some description;
     ActivityDate := now (srv env) |}.

(** The state after an analysis: one more audit row, the connection
    closed. *)
Definition analysed (env : Env) (s : State) (email question : string) : State :=
  {| db := {| UserProfile := UserProfile (db s);
              UserActivityLog :=
                (UserActivityLog (db s)
                 ++ [analysis_row env email question])%list |};
     connected := false; flashes := flashes s; session := session s |}.

(** The question as the handler reads it. *)
Definition normalised (question_field : option string) : string :=
  lower (strip (match question_field with
                | Some q => q
                | None => EmptyString
                end)).

End StatedUsers.

(** ** Sample data *)

Module Samples.
Import Text Sql ProductModel Stated.

(** Day 100, at midnight. *)
Definition today : Server := binary_server 8640000.

Definition lamp : Product :=
  {| product_id := 1; SKU := Some "LMP-1"; title := Some "Desk lamp";
     category := Some "home"; price := 25 # 2; quantity := 4;
     description := Some "Warm light"; image_url := None; archived := false;
     is_sold := false; created_at := Some 86400; updated_at := Some 864000 |}.

Definition chair : Product :=
  {| product_id := 2; SKU := Some "CHR-2"; title := Some "Chair";
     category := Some "home"; price := 40 # 1; quantity := 9;
     description := None; image_url := None; archived := false;
     is_sold := false; created_at := Some 86400; updated_at := Some 7776000 |}.

(** A product created at the moment of the call and never updated. *)
Definition fresh_product : Product :=
  {| product_id := 7; SKU := Some "SKU-7"; title := Some "Lamp";
     category := Some "home"; price := 25 # 2; quantity := 3;
     description := None; image_url := None; archived := false;
     is_sold := false; created_at := Some 8640000; updated_at := None |}.


Definition shelf : list Product := [lamp; chair].

(** One open order for the lamp; every statement succeeds. *)
Definition order_book : OrderTables :=
  {| listed := ["product"; "orders"; "order_items"];
     orders := [{| id := 10; status := Some "open" |}];
     order_items := [{| order_id := 10; item_product_id := 1 |}];
     fails := fun _ => false |}.

(** A schema without order tables. *)
Definition no_order_tables : OrderTables :=
  {| listed := ["product"]; orders := []; order_items := [];
     fails := fun _ => false |}.

Definition blank_min_price : Filters :=
  {| f_sku := None; f_category := None; f_keyword := None;
     f_min_price := BadPrice; f_max_price := NoPrice |}.

(** A minimum price of NaN. *)
Definition nan_min_price : Filters :=
  {| f_sku := None; f_category := None; f_keyword := None;
     f_min_price := SpecialPrice; f_max_price := NoPrice |}.

End Samples.

(** *** Python text *)

Module TextSamples.
Import Sql Unicode Views.

(** An excerpt of the character database, enough for the examples: the
    white space of [str.isspace]; the upper case of [a-z], of the long s
    (383), which is [S], and of the sharp s (223), which is [SS]. *)
Definition excerpt : CharacterData :=
  {| white_space := fun c =>
       (in_range 9 13 c || in_range 28 32 c || N.eqb c 133 || N.eqb c 160
        || N.eqb c 5760 || in_range 8192 8202 c || in_range 8232 8233 c
        || N.eqb c 8239 || N.eqb c 8287 || N.eqb c 12288)%N%bool;
     upper_case := fun c =>
       if in_range 97%N 122%N c then [(c - 32)%N]
       else if N.eqb c 383%N then [83%N]
       else if N.eqb c 223%N then [83%N; 83%N]
       else [c] |}.

(** Some decimal digits: [0-9] and the Arabic-Indic digits. *)
Definition two_scripts (c : point) : bool :=
  (in_range 48 57 c || in_range 1632 1641 c)%N%bool.

(** A server that can be reached and answers every statement with one
    row. *)
Definition one_row : Backend :=
  {| reachable := true; run := fun _ => Return [[("1", Written "1")]] |}.

(** A server that answers every statement with one row that holds the
    bytes of a binary column. *)
Definition one_blob : Backend :=
  {| reachable := true;
     run := fun _ => Return [[("id", Written "1"); ("photo", Unwritable "bytes")]] |}.

End TextSamples.

(** *** Users *)

Module UserSamples.
Import Text Sql Users.

(** A reachable server; for the sake of the examples a password is its
    own hash. *)
Definition office : Env :=
  {| srv := binary_server 8640000; reachable := true;
     check_password_hash := String.eqb;
     generate_password_hash := fun password => password |}.

Definition ann : User :=
  {| Email := "ann@example.com"; UserType := "customer";
     ContactFirstName := "Ann"; ContactLastName := "Lee";
     UPassword := "Abcdef1!"; Phone := None; Website := None;
     BusinessName := None; Status := "active"; TimeOfCreation := 86400;
     LastLogin := None |}.

Definition bob : User :=
  {| Email := "bob@example.com"; UserType := "merchant";
     ContactFirstName := "Bob"; ContactLastName := "Roe";
     UPassword := "Zyxwvu9?"; Phone := None; Website := None;
     BusinessName := Some "Roe Ltd"; Status := "disabled";
     TimeOfCreation := 86400; LastLogin := None |}.

(** An account whose email was stored with a capital letter, by other
    means than [register]. *)
Definition capital_ann : User :=
  {| Email := "Ann@example.com"; UserType := "customer";
     ContactFirstName := "Ann"; ContactLastName := "Lee";
     UPassword := "Abcdef1!"; Phone := None; Website := None;
     BusinessName := None; Status := "active"; TimeOfCreation := 86400;
     LastLogin := None |}.

Definition capital_ann_on_file : State :=
  {| db := {| UserProfile := [capital_ann]; UserActivityLog := [] |};
     connected := false; flashes := []; session := None |}.

Definition nobody_yet : State :=
  {| db := {| UserProfile := []; UserActivityLog := [] |};
     connected := false; flashes := []; session := None |}.

Definition two_accounts : State :=
  {| db := {| UserProfile := [ann; bob]; UserActivityLog := [] |};
     connected := false; flashes := []; session := None |}.

Definition ann_logged_in : State :=
  {| db := {| UserProfile := [ann; bob]; UserActivityLog := [] |};
     connected := false; flashes := [];
     session := Some {| user_email := "ann@example.com";
                        user_name := "Ann Lee"; user_type := "customer";
                        permanent := true |} |}.

Definition ann_session : Session :=
  {| user_email := "ann@example.com"; user_name := "Ann Lee";
     user_type := "customer"; permanent := true |}.

Definition ann_signs_up : RegisterForm :=
  {| reg_email := " Ann@Example.com "; reg_user_type := "customer";
     reg_first_name := "Ann"; reg_last_name := "Lee";
     reg_password := "Abcdef1!"; reg_confirm_password := "Abcdef1!";
     reg_phone := ""; reg_website := ""; reg_business_name := "" |}.

Definition ann_signs_up_again : RegisterForm :=
  {| reg_email := " ANN@example.COM "; reg_user_type := "customer";
     reg_first_name := "Ann"; reg_last_name := "Lee";
     reg_password := "Abcdef1!"; reg_confirm_password := "Abcdef1!";
     reg_phone := "555"; reg_website := ""; reg_business_name := "" |}.

Definition stranger_logs_in : LoginForm :=
  {| login_email := "carol@example.com"; login_password := "Abcdef1!" |}.

Definition ann_mistypes : LoginForm :=
  {| login_email := "Ann@example.com"; login_password := "abcdef1!" |}.

Definition mismatched_passwords : ProfileForm :=
  {| prof_first_name := "Anne"; prof_last_name := ""; prof_phone := "";
     prof_website := ""; prof_business_name := "";
     prof_new_password := "Abcdef1!"; prof_confirm_password := "Abcdef2!" |}.

End UserSamples.

(** ** More of [app/product_model.py]: keys, inserts and updates *)

Module ProductWrites.
Import Text Sql ProductModel.

(** [SELECT 1 FROM product WHERE SKU = %s [AND product_id <> %s]
    LIMIT 1]; the second condition is there when [exclude_product_id]
    is truthy, that is neither [None] nor 0. *)
Definition sku_exists (srv : Server) (table : list Product) (sku : string)
    (exclude_product_id : option Z) : bool :=
  let same_sku (r : Product) := is_true (cmp3 (text_eq srv) (SKU r) (Some sku)) in
  let excluded :=
    match exclude_product_id with
    | Some n => negb (n =? 0)
    | None => false
    end in
  match
    (if excluded
     then find (fun r =>
                  same_sku r
                  && negb (product_id r
                           =? match exclude_product_id with
                              | Some n => n
                              | None => 0
                              end))%bool table
     else find same_sku table)
  with
  | Some _ => true
  | None => false
  end.

(** [SELECT * FROM product WHERE product_id = %s] and [fetchone()] *)
Definition fetch_product (table : list Product) (id : Z) : option Product :=
  find (fun r => product_id r =? id) table.

(** The value under the key [quantity] of a payload, seen through
    [int(...)]: absent or [None]; a value [int] turns into [n]; or a
    value on which [int] raises. *)
Inductive int_arg : Type :=
| NoInt
| IntOf (n : Z)
| BadInt.

Record Payload : Type := {
  p_SKU : option string;
  p_title : option string;
  p_category : option string;
  p_price : price_arg;
  p_quantity : int_arg;
  p_description : option string;
  p_image_url : option string
}.

(** What stops a write: a conversion that raises before the statement
    is sent, or the server rejecting the statement. *)
Inductive refusal : Type :=
| PriceRefused (e : exn)        (* [Decimal(payload.get("price"))] raised *)
| QuantityTypeError             (* [int(None)] *)
| QuantityValueError            (* [int] of a text that is no integer *)
| StatementRejected (e : exn).  (* the bare word of a special Decimal *)

Inductive attempt (A : Type) : Type :=
| Done (a : A)
| Refused (why : refusal).
Arguments Done {A} a.
Arguments Refused {A} why.

(** [Decimal(payload.get("price"))]: [Decimal(None)] is a type error. *)
Definition payload_price (v : price_arg) : attempt decimal :=
  match v with
  | Price q => Done (Finite q)
  | SpecialPrice => Done NaNOrInfinity
  | NoPrice =>
      Refused (PriceRefused
                 (TypeError "conversion from NoneType to Decimal is not supported"))
  | BadPrice => Refused (PriceRefused InvalidOperation)
  end.

(** [int(payload.get("quantity"))] *)
Definition payload_quantity (v : int_arg) : attempt Z :=
  match v with
  | IntOf n => Done n
  | NoInt => Refused QuantityTypeError
  | BadInt => Refused QuantityValueError
  end.

(** The arguments of the statement are built from left to right: the
    price is converted before the quantity. *)
Definition converted (payload : Payload) : attempt (decimal * Z) :=
  match payload_price (p_price payload) with
  | Refused why => Refused why
  | Done d =>
      match payload_quantity (p_quantity payload) with
      | Refused why => Refused why
      | Done n => Done (d, n)
      end
  end.

(** The price as the server reads it in the statement: the bare word of
    a special [Decimal] is taken for a column name, and the statement is
    rejected. *)
Definition price_literal (d : decimal) : attempt Q :=
  match d with
  | Finite q => Done q
  | NaNOrInfinity =>
      Refused (StatementRejected (OperationalError "Unknown column in 'field list'"))
  end.

(** The price and the quantity a write statement stores. *)
Definition stored_values (payload : Payload) : attempt (Q * Z) :=
  match converted payload with
  | Refused why => Refused why
  | Done (d, n) =>
      match price_literal d with
      | Refused why => Refused why
      | Done q => Done (q, n)
      end
  end.

(** [INSERT INTO product (...) VALUES (..., 0, 0, NOW(), NOW())] and
    [cur.lastrowid].  [new_id] is the key the server gives the row. *)
Definition insert_product (srv : Server) (table : list Product) (new_id : Z)
    (payload : Payload) : attempt (list Product * Z) :=
  match stored_values payload with
  | Refused why => Refused why
  | Done (q, n) =>
      Done ((table ++
             [{| product_id := new_id; SKU := p_SKU payload;
                 title := p_title payload; category := p_category payload;
                 price := q; quantity := n;
                 description := p_description payload;
                 image_url := p_image_url payload; archived := false;
                 is_sold := false; created_at := Some (now srv);
                 updated_at := Some (now srv) |}])%list,
            new_id)
  end.

(** [UPDATE product SET SKU=%s, title=%s, category=%s, price=%s,
    quantity=%s, description=%s, image_url=%s, updated_at=NOW()
    WHERE product_id=%s] *)
Definition update_product (srv : Server) (table : list Product) (id : Z)
    (payload : Payload) : attempt (list Product) :=
  match stored_values payload with
  | Refused why => Refused why
  | Done (q, n) =>
      Done (map (fun r =>
                   if product_id r =? id then
                     {| product_id := product_id r; SKU := p_SKU payload;
                        title := p_title payload;
                        category := p_category payload;
                        price := q; quantity := n;
                        description := p_description payload;
                        image_url := p_image_url payload;
                        archived := archived r; is_sold := is_sold r;
                        created_at := created_at r;
                        updated_at := Some (now srv) |}
                   else r)
                table)
  end.

End ProductWrites.

(** ** More of [app/users.py]: deactivation, logout and the dashboard data *)

Module UserPages.
Import Text Sql Validators Users.

Definition with_status (st : string) (u : User) : User :=
  {| Email := Email u; UserType := UserType u;
     ContactFirstName := ContactFirstName u;
     ContactLastName := ContactLastName u; UPassword := UPassword u;
     Phone := Phone u; Website := Website u; BusinessName := BusinessName u;
     Status := st; TimeOfCreation := TimeOfCreation u;
     LastLogin := LastLogin u |}.

(** *** [deactivate] *)

Definition deactivate (env : Env) : H response :=
  login_required (fun who =>
    try_except
      (let email := user_email who in
       conn <~ get_db env ;
       cursor conn ;;
       execute (update_users env email (with_status "disabled")) ;;
       execute (log_activity env email "Deactivated" None) ;;
       close ;;
       set_session None ;;
       flash "Account deactivated." "info" ;;
       ret (Redirect "users.login"))
      (fun e =>
         flash ("Error: " ++ exn_str e) "danger" ;;
         ret (Redirect "users.profile"))).

(** *** [logout] *)

Definition logout (env : Env) : H response :=
  login_required (fun who =>
    try_except
      (let email := user_email who in
       conn <~ get_db env ;
       cursor conn ;;
       execute (log_activity env email "Logged Out" None) ;;
       close)
      (fun _ => ret tt) ;;
    set_session None ;;
    flash "Logged out." "success" ;;
    ret (Redirect "users.login")).

(** *** [dashboard] *)

Definition dashboard : H response :=
  login_required (fun _ => ret (Render "users/dashboard.html" None)).

(** *** [metrics] *)

Definition count_where (p : User -> bool) (d : Database) : Database * Z :=
  (d, count_users p d).

Definition metrics (env : Env) : H response :=
  login_required (fun _ =>
    try_except
      (conn <~ get_db env ;
       cursor conn ;;
       total <~ execute (count_where (fun _ => true)) ;
       active <~ execute (count_where
                            (fun u => text_eq (srv env) (Status u) "active")) ;
       disabled <~ execute (count_where
                              (fun u => text_eq (srv env) (Status u) "disabled")) ;
       close ;;
       ret (Jsonify [("total", JNumber total); ("active", JNumber active);
                     ("disabled", JNumber disabled)] 200))
      (fun e => ret (Jsonify [("error", JText (exn_str e))] 500))).

(** *** [recent_users] *)

(** The columns the statement selects. *)
Record Listed : Type := {
  l_Email : string;
  l_UserType : string;
  l_Status : string;
  l_TimeOfCreation : Z;
  l_ContactFirstName : string;
  l_ContactLastName : string
}.

Definition listed_of (u : User) : Listed :=
  {| l_Email := Email u; l_UserType := UserType u; l_Status := Status u;
     l_TimeOfCreation := TimeOfCreation u;
     l_ContactFirstName := ContactFirstName u;
     l_ContactLastName := ContactLastName u |}.

(** [ORDER BY TimeOfCreation DESC] *)
Definition newest_first (a b : Listed) : bool :=
  l_TimeOfCreation b <=? l_TimeOfCreation a.

(** [SELECT ... FROM UserProfile ORDER BY TimeOfCreation DESC LIMIT 10] *)
Definition select_recent (d : Database) : Database * list Listed :=
  (d, firstn 10 (order_by newest_first (map listed_of (UserProfile d)))).

(** What a data endpoint answers: the redirect of [login_required], the
    list handed to [jsonify], or an error body with its status. *)
Inductive data_reply : Type :=
| Turned (r : response)
| Users (rows : list Listed)
| Problem (error : string) (status_code : Z).

(** [@login_required] around a function that answers with data. *)
Definition login_required_data (f : Session -> H data_reply) : H data_reply :=
  sess <~ get_session ;
  match sess with
  | None => flash "Please log in first." "warning" ;;
            ret (Turned (Redirect "users.login"))
  | Some who => f who
  end.

Definition recent_users (env : Env) : H data_reply :=
  login_required_data (fun _ =>
    try_except
      (conn <~ get_db env ;
       cursor conn ;;
       users <~ execute select_recent ;
       close ;;
       ret (Users users))
      (fun e => ret (Problem (exn_str e) 500))).

End UserPages.

(** ** More of [app/views.py]: the chat relay *)

Module Assistant.
Import Text Sql.

(** The database as [get_database_context] meets it: whether a
    connection can be made, and the table names the server lists for the
    schema, or the error it raises. *)
Record Schema : Type := {
  schema_reachable : bool;
  table_names : outcome (list string)
}.

Definition get_database_context (sch : Schema) : string :=
  let context := "Available Northwind database tables: " in
  if negb (schema_reachable sch) then context ++ "Unable to connect to database."
  else
    match table_names sch with
    | Return tables =>
        context ++ match tables with
                   | [] => "No tables found"
                   | _ => join ", " tables
                   end
    | Raise e => context ++ "(Error retrieving schema: " ++ exn_str e ++ ")"
    end.

(** The provider: whether a client was built, the model name taken from
    the environment, and what a completion request gives: the reply, or
    the text of the error raised. *)
Record Provider : Type := {
  configured : bool;
  model : string;
  complete : string -> string -> string -> string + string
}.

(** One request sent to the provider. *)
Record Request : Type := {
  req_model : string;
  req_system : string;
  req_user : string
}.

Record ChatReply : Type := {
  chat_body : list (string * string);
  chat_status : Z;
  sent : list Request
}.

Definition newline : string := String (ascii_of_nat 10) EmptyString.

Definition system_prompt (db_context : string) : string :=
  "You are a helpful assistant with access to a Northwind database."
  ++ newline
  ++ "You can answer questions about products, customers, orders, suppliers, employees, and more."
  ++ newline ++ newline ++ db_context ++ newline ++ newline
  ++ "When users ask about data, you can help them understand the database or suggest SQL queries."
  ++ newline ++ "Be friendly and helpful in your responses.".

(** [message_field] is the value under the key [message] of the request
    body, [None] when the key is missing. *)
Definition chat_api (ai : Provider) (sch : Schema) (message_field : option string)
  : ChatReply :=
  if negb (configured ai) then
    {| chat_body := [("error", "OpenAI API not configured")];
       chat_status := 500; sent := [] |}
  else
    let user_message :=
      strip (match message_field with Some m => m | None => EmptyString end) in
    if negb (nonempty user_message) then
      {| chat_body := [("error", "Empty message")]; chat_status := 400;
         sent := [] |}
    else
      let db_context := get_database_context sch in
      let request :=
        {| req_model := model ai; req_system := system_prompt db_context;
           req_user := user_message |} in
      match complete ai (model ai) (system_prompt db_context) user_message with
      | inl reply =>
          {| chat_body := [("reply", reply)]; chat_status := 200;
             sent := [request] |}
      | inr error_msg =>
          if (contains "401" error_msg || contains "Unauthorized" error_msg)%bool
          then
            {| chat_body :=
                 [("error",
                   "Authentication failed. Check OPENAI_API_KEY and OPENAI_API_BASE in .env");
                  ("details", error_msg)];
               chat_status := 401; sent := [request] |}
          else if contains "404" error_msg then
            {| chat_body :=
                 [("error",
                   "Model or endpoint not found. Check OPENAI_MODEL and OPENAI_API_BASE");
                  ("details", error_msg)];
               chat_status := 404; sent := [request] |}
          else
            {| chat_body := [("error", "API Error: " ++ error_msg)];
               chat_status := 500; sent := [request] |}
      end.

End Assistant.

(** ** More of [app/product_model.py]: the valuation report *)

Module Valuation.
Import Text Sql ProductModel.

(** GROUP BY puts two categories in one group when both are null or the
    collation holds them equal. *)
Definition same_category (srv : Server) (a b : option string) : bool :=
  match a, b with
  | None, None => true
  | Some x, Some y => text_eq srv x y
  | _, _ => false
  end.

(** The groups, each named by the category of one of its rows. *)
Definition group_keys (srv : Server) (rows : list Product) : list (option string) :=
  fold_right
    (fun r keys =>
       if existsb (fun k => same_category srv k (category r)) keys
       then keys else category r :: keys)
    [] rows.

(** [price * quantity] of a row and [SUM] over rows. *)
Definition stock_value (r : Product) : Q := (price r * inject_Z (quantity r))%Q.

Definition sum_values (rows : list Product) : Q :=
  fold_right (fun r acc => (stock_value r + acc)%Q) 0%Q rows.

(** [ORDER BY category]: null first, then by the order of the collation,
    which is [text_le]. *)
Definition category_first (text_le : string -> string -> bool)
    (a b : option string * Q) : bool :=
  match fst a, fst b with
  | None, _ => true
  | Some _, None => false
  | Some x, Some y => text_le x y
  end.

(** [SELECT category, SUM(price * quantity) AS total_value FROM product
    WHERE archived = 0 GROUP BY category ORDER BY category] *)
Definition inventory_value_by_category (text_le : string -> string -> bool)
    (srv : Server) (table : list Product) : list (option string * Q) :=
  let live := filter (fun r => negb (archived r)) table in
  order_by (category_first text_le)
    (map (fun k =>
            (k, sum_values
                  (filter (fun r => same_category srv k (category r)) live)))
         (group_keys srv live)).

End Valuation.

(** ** Words for the further properties *)

Module StatedMore.
Import Text Sql Validators ProductModel Users ProductWrites UserPages Assistant
  Valuation.
Import StatedUsers.

(** The shape the email pattern asks for: a local part, an at sign, a
    domain, a dot and a top-level segment of two letters or more. *)
Definition email_shape (local dom tld : list ascii) : Prop :=
  local <> [] /\ forallb local_char local = true
  /\ dom <> [] /\ forallb domain_char dom = true
  /\ (2 <= List.length tld)%nat /\ forallb is_alpha tld = true.

(** The row an insert writes and the row an update leaves. *)
Definition inserted_row (srv : Server) (new_id : Z) (payload : Payload)
    (q : Q) (n : Z) : Product :=
  {| product_id := new_id; SKU := p_SKU payload; title := p_title payload;
     category := p_category payload; price := q; quantity := n;
     description := p_description payload; image_url := p_image_url payload;
     archived := false; is_sold := false; created_at := Some (now srv);
     updated_at := Some (now srv) |}.

Definition updated_row (srv : Server) (payload : Payload) (q : Q) (n : Z)
    (r : Product) : Product :=
  {| product_id := product_id r; SKU := p_SKU payload; title := p_title payload;
     category := p_category payload; price := q; quantity := n;
     description := p_description payload; image_url := p_image_url payload;
     archived := archived r; is_sold := is_sold r; created_at := created_at r;
     updated_at := Some (now srv) |}.

(** The row an archiving leaves. *)
Definition archived_row (srv : Server) (r : Product) : Product :=
  {| product_id := product_id r; SKU := SKU r; title := title r;
     category := category r; price := price r; quantity := quantity r;
     description := description r; image_url := image_url r;
     archived := true; is_sold := is_sold r; created_at := created_at r;
     updated_at := Some (now srv) |}.

(** No row of the table has the key. *)
Definition key_free (table : list Product) (id : Z) : bool :=
  negb (existsb (fun r => product_id r =? id) table).

(** The state a successful login of the account [u] leaves: the session
    set up, the rows of the email stamped, one audit row more. *)
Definition logged_in (env : Env) (s : State) (submitted : string) (u : User)
  : State :=
  let email := lower (strip submitted) in
  {| db :=
       {| UserProfile :=
            map (fun v => if text_eq (srv env) (Email v) email
                          then with_last_login (now (srv env)) v else v)
                (UserProfile (db s));
          UserActivityLog :=
            (UserActivityLog (db s)
             ++ [{| ActivityEmail := email; ActivityType := "Logged In";
                    ActivityDescription := None;
                    ActivityDate := now (srv env) |}])%list |};
     connected := false;
     flashes :=
       (flashes s
        ++ [(("Welcome, " ++ ContactFirstName u ++ "!")%string, "success")])%list;
     session :=
       Some {| user_email := email;
               user_name := ContactFirstName u ++ " " ++ ContactLastName u;
               user_type := UserType u; permanent := true |} |}.

(** The answer of [login_required] to a request without a session. *)
Definition turned_away (s : State) : State * outcome response :=
  (noted s [("Please log in first.", "warning")],
   Return (Redirect "users.login")).

(** The state a logout leaves: the session gone, the farewell flashed,
    and, when the database could be reached, one audit row more. *)
Definition logged_out (env : Env) (s : State) (who : Session) : State :=
  {| db :=
       if reachable env
       then {| UserProfile := UserProfile (db s);
               UserActivityLog :=
                 (UserActivityLog (db s)
                  ++ [{| ActivityEmail := user_email who;
                         ActivityType := "Logged Out";
                         ActivityDescription := None;
                         ActivityDate := now (srv env) |}])%list |}
       else db s;
     connected := if reachable env then false else connected s;
     flashes := (flashes s ++ [("Logged out.", "success")])%list;
     session := None |}.

(** The state a deactivation leaves. *)
Definition deactivated (env : Env) (s : State) (who : Session) : State :=
  {| db :=
       {| UserProfile :=
            map (fun v => if text_eq (srv env) (Email v) (user_email who)
                          then with_status "disabled" v else v)
                (UserProfile (db s));
          UserActivityLog :=
            (UserActivityLog (db s)
             ++ [{| ActivityEmail := user_email who;
                    ActivityType := "Deactivated";
                    ActivityDescription := None;
                    ActivityDate := now (srv env) |}])%list |};
     connected := false;
     flashes := (flashes s ++ [("Account deactivated.", "info")])%list;
     session := None |}.

(** A field of the profile form after stripping, if it is not blank. *)
Definition given (field : string) : option string := or_None (strip field).

Definition keep_or (old : string) (field : string) : string :=
  match given field with Some v => v | None => old end.

Definition keep_or_set (old : option string) (field : string) : option string :=
  match given field with Some v => Some v | None => old end.

(** The row a profile update leaves: each field of the form that is not
    blank replaces the value of the row, the others keep theirs; a new
    password is stored as its hash. *)
Definition patched (env : Env) (form : ProfileForm) (u : User) : User :=
  {| Email := Email u; UserType := UserType u;
     ContactFirstName := keep_or (ContactFirstName u) (prof_first_name form);
     ContactLastName := keep_or (ContactLastName u) (prof_last_name form);
     UPassword :=
       match given (prof_new_password form) with
       | Some password => generate_password_hash env password
       | None => UPassword u
       end;
     Phone := keep_or_set (Phone u) (prof_phone form);
     Website := keep_or_set (Website u) (prof_website form);
     BusinessName := keep_or_set (BusinessName u) (prof_business_name form);
     Status := Status u; TimeOfCreation := TimeOfCreation u;
     LastLogin := LastLogin u |}.

(** Some field of the form is not blank. *)
Definition something_given (form : ProfileForm) : bool :=
  (nonempty (strip (prof_first_name form))
   || nonempty (strip (prof_last_name form))
   || nonempty (strip (prof_phone form))
   || nonempty (strip (prof_website form))
   || nonempty (strip (prof_business_name form))
   || nonempty (strip (prof_new_password form)))%bool.

(** The new password is blank, or it equals its confirmation and passes
    the strength check. *)
Definition password_acceptable (form : ProfileForm) : bool :=
  (negb (nonempty (strip (prof_new_password form)))
   || (String.eqb (strip (prof_new_password form))
                  (strip (prof_confirm_password form))
       && fst (is_strong_password (strip (prof_new_password form)))))%bool.

(** The state a profile update leaves when its password part is
    acceptable. *)
Definition profile_saved (env : Env) (s : State) (who : Session)
    (form : ProfileForm) : State :=
  if something_given form then
    {| db :=
         {| UserProfile :=
              map (fun u => if text_eq (srv env) (Email u) (user_email who)
                            then patched env form u else u)
                  (UserProfile (db s));
            UserActivityLog :=
              (UserActivityLog (db s)
               ++ [{| ActivityEmail := user_email who;
                      ActivityType := "Profile Updated";
                      ActivityDescription := None;
                      ActivityDate := now (srv env) |}])%list |};
       connected := false;
       flashes := (flashes s ++ [("Profile updated.", "success")])%list;
       session := session s |}
  else answered s [("No changes.", "info")].

(** What a profile update never rewrites. *)
Definition identity_of (u : User) : string * string * string * Z * option Z :=
  (Email u, UserType u, Status u, TimeOfCreation u, LastLogin u).

(** From [d] to [d'] the audit log and the list of account emails were
    only extended at their ends. *)
Definition extends (d d' : Database) : Prop :=
  (exists added,
     UserActivityLog d' = (UserActivityLog d ++ added)%list)
  /\ (exists added,
        map Email (UserProfile d') = (map Email (UserProfile d) ++ added)%list).

(** A handler or a step of one that, from every state and whether it
    returns or raises, only extends the tables. *)
Definition only_extends {A} (m : H A) : Prop :=
  forall s, extends (db s) (db (fst (m s))).

(** Every account is active or disabled, and not both. *)
Definition active_or_disabled (env : Env) (d : Database) : bool :=
  forallb (fun u => xorb (text_eq (srv env) (Status u) "active")
                         (text_eq (srv env) (Status u) "disabled"))
          (UserProfile d).

(** [a] was created no earlier than [b]. *)
Definition not_older (a b : Listed) : Prop :=
  l_TimeOfCreation b <= l_TimeOfCreation a.

(** The customers created in the last 30 days, and all customers. *)
Definition new_customer (env : Env) (u : User) : bool :=
  (text_eq (srv env) (UserType u) "customer"
   && (now (srv env) - 30 * day <=? TimeOfCreation u))%bool.

Definition customer (env : Env) (u : User) : bool :=
  text_eq (srv env) (UserType u) "customer".

(** The body of an answer with a value. *)
Definition valued (label : string) (value : Z) : list (string * json) :=
  [("answer", JText (label ++ ": " ++ str_of_Z value));
   ("value", JNumber value);
   ("label", JText label)].

(** The request the chat relay sends for a message. *)
Definition relayed (ai : Provider) (sch : Schema) (message : string) : Request :=
  {| req_model := model ai;
     req_system := system_prompt (get_database_context sch);
     req_user := strip message |}.

(** The status the relay gives to an error text of the provider. *)
Definition error_status (error_msg : string) : Z :=
  if (contains "401" error_msg || contains "Unauthorized" error_msg)%bool then 401
  else if contains "404" error_msg then 404
  else 500.

(** On the categories [cats] the grouping is an equivalence: each is in
    its own group, and being in one group is symmetric and transitive. *)
Definition groups_consistent (srv : Server) (cats : list (option string)) : bool :=
  forallb
    (fun a =>
       same_category srv a a
       && forallb
            (fun b =>
               implb (same_category srv a b) (same_category srv b a)
               && forallb
                    (fun c =>
                       implb (same_category srv a b && same_category srv b c)
                             (same_category srv a c))
                    cats)
            cats)%bool
    cats.

(** The total of the group of a category, the sum of the totals of the
    groups [keys], and what a row of category [c] and value [v] adds to
    the groups [keys]. *)
Definition group_total (srv : Server) (rows : list Product) (k : option string)
  : Q :=
  sum_values (filter (fun r => same_category srv k (category r)) rows).

Definition grand (srv : Server) (keys : list (option string))
    (rows : list Product) : Q :=
  fold_right (fun k acc => (group_total srv rows k + acc)%Q) 0%Q keys.

Definition share (srv : Server) (keys : list (option string))
    (c : option string) (v : Q) : Q :=
  fold_right (fun k acc => ((if same_category srv k c then v else 0) + acc)%Q)
             0%Q keys.

(** The sum of the totals of a report. *)
Definition sum_totals (report : list (option string * Q)) : Q :=
  fold_right (fun line acc => (snd line + acc)%Q) 0%Q report.

End StatedMore.

(** ** More sample data *)

Module MoreSamples.
Import Text Sql ProductModel Users ProductWrites.

(** A new first name and a phone number; the other fields blank. *)
Definition renamed : ProfileForm :=
  {| prof_first_name := " Anne "; prof_last_name := ""; prof_phone := "555 0100";
     prof_website := ""; prof_business_name := "";
     prof_new_password := ""; prof_confirm_password := "" |}.

Definition floor_lamp : Payload :=
  {| p_SKU := Some "LMP-3"; p_title := Some "Floor lamp";
     p_category := Some "home"; p_price := Price (60 # 1);
     p_quantity := IntOf 2; p_description := None; p_image_url := None |}.

End MoreSamples.

(* ================================================================== *)
(** * Part II. Properties *)
(* ================================================================== *)

(** ** Sorting and three-valued logic *)

Module SqlFacts.
Import Sql.

Lemma is_true_and3 (a b : tv) : is_true (and3 a b) = (is_true a && is_true b)%bool.
Proof. destruct a as [[|]|], b as [[|]|]; reflexivity. Qed.

Lemma is_true_or3 (a b : tv) : is_true (or3 a b) = (is_true a || is_true b)%bool.
Proof. destruct a as [[|]|], b as [[|]|]; reflexivity. Qed.

Section OrderByFacts.
Context {A : Type} (before : A -> A -> bool).
Hypothesis before_total : forall a b, before a b = false -> before b a = true.
Hypothesis before_trans :
  forall a b c, before a b = true -> before b c = true -> before a c = true.

Let R (a b : A) : Prop := before a b = true.

Lemma insert_perm (x : A) (l : list A) : Permutation (insert before x l) (x :: l).
Proof.
  induction l as [|y r IH]; simpl.
  - apply Permutation_refl.
  - destruct (before x y).
    + apply Permutation_refl.
    + apply perm_trans with (y :: x :: r).
      * now apply perm_skip.
      * apply perm_swap.
Qed.

Lemma order_by_perm (l : list A) : Permutation (order_by before l) l.
Proof.
  induction l as [|x r IH]; simpl.
  - constructor.
  - apply perm_trans with (x :: order_by before r).
    + apply insert_perm.
    + now apply perm_skip.
Qed.

Lemma insert_sorted (x : A) (l : list A) :
  StronglySorted R l -> StronglySorted R (insert before x l).
Proof.
  induction l as [|y r IH]; simpl; intros Hs.
  - constructor; constructor.
  - inversion Hs as [|? ? Hr Hy]; subst.
    destruct (before x y) eqn:Hxy.
    + constructor; [exact Hs|].
      constructor; [exact Hxy|].
      rewrite Forall_forall in Hy |- *.
      intros z Hz. apply before_trans with y; [exact Hxy|now apply Hy].
    + constructor; [now apply IH|].
      apply Permutation_Forall with (x :: r).
      * apply Permutation_sym, insert_perm.
      * constructor; [now apply before_total|exact Hy].
Qed.

Lemma order_by_sorted (l : list A) : StronglySorted R (order_by before l).
Proof.
  induction l as [|x r IH]; simpl.
  - constructor.
  - now apply insert_sorted.
Qed.

End OrderByFacts.

Lemma StronglySorted_skipn {A} (R : A -> A -> Prop) (n : nat) (l : list A) :
  StronglySorted R l -> StronglySorted R (skipn n l).
Proof.
  revert l; induction n as [|n IH]; intros l Hs; simpl; [exact Hs|].
  destruct l as [|x r]; [constructor|].
  inversion Hs; subst. now apply IH.
Qed.

Lemma StronglySorted_firstn {A} (R : A -> A -> Prop) (n : nat) (l : list A) :
  StronglySorted R l -> StronglySorted R (firstn n l).
Proof.
  revert l; induction n as [|n IH]; intros l Hs; simpl; [constructor|].
  destruct l as [|x r]; [constructor|].
  inversion Hs as [|? ? Hr Hx]; subst.
  constructor; [now apply IH|].
  rewrite Forall_forall in Hx |- *.
  intros z Hz. apply Hx. revert Hz. clear.
  revert r; induction n as [|n IH]; intros r Hz; simpl in Hz; [contradiction|].
  destruct r as [|y r]; [contradiction|].
  destruct Hz as [->|Hz]; [now left|right; now apply IH].
Qed.

Lemma StronglySorted_impl {A} (R S : A -> A -> Prop) (l : list A) :
  (forall a b, R a b -> S a b) -> StronglySorted R l -> StronglySorted S l.
Proof.
  intros HRS; induction 1 as [|x r Hr IH Hx]; constructor; auto.
  eapply Forall_impl; [|exact Hx]. intros b; apply HRS.
Qed.

End SqlFacts.

(** ** Containment and LIKE *)

Module TextFacts.
Import Text Sql.

Lemma prefix_iff (p s : string) :
  prefix p s = true <-> exists rest, s = p ++ rest.
Proof.
  revert s; induction p as [|a p IH]; intros s.
  - split; [intros _; now exists s|intros _; now destruct s].
  - destruct s as [|b s]; cbn [prefix append].
    + split; [discriminate|intros [rest H]; discriminate].
    + destruct (ascii_dec a b) as [->|Hn].
      * rewrite IH. split; intros [rest H]; exists rest; congruence.
      * split; [discriminate|intros [rest H]; congruence].
Qed.

(** [contains] is containment as a run of consecutive characters. *)
Lemma contains_iff (needle hay : string) :
  contains needle hay = true <->
  exists before after, hay = before ++ needle ++ after.
Proof.
  induction hay as [|c hay IH].
  - cbn [contains]. rewrite orb_false_r, prefix_iff. split.
    + intros [rest H]. exists "", rest. exact H.
    + intros (before & after & H).
      destruct before; [now exists after|discriminate].
  - cbn [contains]. rewrite orb_true_iff, prefix_iff, IH. split.
    + intros [[rest H]|(before & after & H)].
      * exists "", rest. exact H.
      * exists (String c before), after. simpl. now rewrite H.
    + intros (before & after & H).
      destruct before as [|d before]; [left; now exists after|right].
      simpl in H. injection H as _ H. now exists before, after.
Qed.

Lemma like_percent (p t : list ascii) :
  like_chars ("%"%char :: p) t = any_suffix (like_chars p) t.
Proof.
  cbn [like_chars]. rewrite Ascii.eqb_refl.
  induction t as [|d t IH]; [reflexivity|].
  cbn [any_suffix]. now rewrite <- IH.
Qed.

Lemma like_only_percent (t : list ascii) : like_chars ["%"%char] t = true.
Proof.
  rewrite like_percent.
  induction t as [|d t IH]; [reflexivity|].
  cbn [any_suffix]. rewrite IH. apply orb_true_r.
Qed.

Lemma like_plain_prefix (s : string) (t : string) :
  all_chars plain_char s = true ->
  like_chars (list_ascii_of_string s ++ ["%"%char]) (list_ascii_of_string t)
  = prefix s t.
Proof.
  revert t; induction s as [|c s IH]; intros t Hs.
  - cbn [list_ascii_of_string app]. rewrite like_only_percent.
    now destruct t.
  - cbn [all_chars] in Hs. apply andb_true_iff in Hs. destruct Hs as [Hc Hs].
    unfold plain_char in Hc. apply negb_true_iff in Hc.
    apply orb_false_iff in Hc. destruct Hc as [Hc H3].
    apply orb_false_iff in Hc. destruct Hc as [H1 H2].
    cbn [list_ascii_of_string app like_chars]. rewrite H1, H2, H3.
    destruct t as [|d t]; [reflexivity|].
    cbn [list_ascii_of_string prefix]. rewrite IH by exact Hs.
    destruct (ascii_dec c d) as [->|Hn].
    + now rewrite Ascii.eqb_refl.
    + apply Ascii.eqb_neq in Hn. now rewrite Hn.
Qed.

(** Under the binary collation, and for a text without wildcard
    characters, [LIKE '%text%'] is containment of the text. *)
Lemma like_binary_contains (s t : string) :
  all_chars plain_char s = true ->
  like_binary ("%" ++ s ++ "%") t = contains s t.
Proof.
  intros Hs. unfold like_binary.
  replace (list_ascii_of_string ("%" ++ s ++ "%"))
    with ("%"%char :: (list_ascii_of_string s ++ ["%"%char]))%list.
  - rewrite like_percent.
    induction t as [|d t IH].
    + cbn [list_ascii_of_string any_suffix contains]. rewrite !orb_false_r.
      exact (like_plain_prefix s "" Hs).
    + cbn [any_suffix contains list_ascii_of_string].
      rewrite <- IH. f_equal.
      exact (like_plain_prefix s (String d t) Hs).
  - cbn [append list_ascii_of_string]. f_equal.
    clear. induction s as [|c s IH]; [reflexivity|].
    cbn [append list_ascii_of_string app]. now rewrite IH.
Qed.

(** [strip] removes the white space below 256 that lies above ASCII
    too, the next-line control and the no-break space; [lower] folds
    the accented capitals. *)
Lemma strip_and_lower_above_ascii :
  strip (String (ascii_of_nat 160)
           ("ann@example.com" ++ String (ascii_of_nat 133) EmptyString))
  = "ann@example.com"
  /\ lower (String (ascii_of_nat 201) "COLE")
     = String (ascii_of_nat 233) "cole".
Proof. split; reflexivity. Qed.

End TextFacts.

(** ** Password strength *)

Module ValidatorFacts.
Import Text Validators Stated.

(** C4.  For every password, a text of any code points,
    [is_strong_password] answers with a pair: when some rule is unmet,
    [false] and the message of the first unmet rule in the order length
    (at least 8 code points), uppercase ([A-Z]), lowercase ([a-z]),
    digit (a decimal digit of any script), special character; when
    every rule is met, [true]. *)
Theorem is_strong_password_reports_first_unmet_rule
    (decimal_digit : Unicode.point -> bool) (password : Unicode.text) :
  Unicode.is_strong_password decimal_digit password =
    match first_unmet decimal_digit password with
    | Some r => (false, rule_message r)
    | None => (true, "Valid")
    end.
Proof.
  cbv [Unicode.is_strong_password first_unmet rules find rule_met].
  rewrite Nat.ltb_antisym.
  destruct (Nat.leb 8 (List.length password)); cbn [negb]; [|reflexivity].
  destruct (existsb (Unicode.in_range 65%N 90%N) password); cbn [negb];
    [|reflexivity].
  destruct (existsb (Unicode.in_range 97%N 122%N) password); cbn [negb];
    [|reflexivity].
  destruct (existsb decimal_digit password); cbn [negb]; [|reflexivity].
  destruct (existsb Unicode.is_special password); reflexivity.
Qed.

Lemma find_first {A} (f : A -> bool) (l : list A) (r : A) :
  find f l = Some r <->
  f r = true /\
  exists before after,
    l = (before ++ r :: after)%list /\ forall x, In x before -> f x = false.
Proof.
  split.
  - induction l as [|y l IH]; simpl; [discriminate|].
    destruct (f y) eqn:Hy.
    + intros [= ->]. split; [exact Hy|].
      exists [], l. split; [reflexivity|intros ? []].
    + intros Hf. destruct (IH Hf) as [Hr (before & after & -> & Hb)].
      split; [exact Hr|].
      exists (y :: before), after. split; [reflexivity|].
      intros x [<-|Hx]; [exact Hy|now apply Hb].
  - intros [Hr (before & after & -> & Hb)].
    induction before as [|x before IH]; simpl.
    + now rewrite Hr.
    + rewrite (Hb x (or_introl eq_refl)).
      apply IH. intros z Hz. apply Hb. now right.
Qed.

(** What [first_unmet] stands for: the rule it names is unmet and every
    rule announced before it is met; it names none only when all five
    rules are met. *)
Lemma first_unmet_some (decimal_digit : Unicode.point -> bool)
    (password : Unicode.text) (r : rule) :
  first_unmet decimal_digit password = Some r <->
  rule_met decimal_digit password r = false /\
  exists before after,
    rules = (before ++ r :: after)%list /\
    forall r', In r' before -> rule_met decimal_digit password r' = true.
Proof.
  unfold first_unmet. rewrite find_first.
  rewrite negb_true_iff.
  split; intros [Hr (before & after & Heq & Hb)]; (split; [exact Hr|]);
    exists before, after; (split; [exact Heq|]); intros r' Hin;
    specialize (Hb r' Hin).
  - now apply negb_false_iff in Hb.
  - now apply negb_false_iff.
Qed.

Lemma first_unmet_none (decimal_digit : Unicode.point -> bool)
    (password : Unicode.text) :
  first_unmet decimal_digit password = None
  <-> forall r, rule_met decimal_digit password r = true.
Proof.
  unfold first_unmet. split.
  - intros Hn r.
    pose proof (find_none _ _ Hn r) as H.
    assert (In r rules) as Hin by (destruct r; simpl; tauto).
    specialize (H Hin). now apply negb_false_iff in H.
  - intros Hall. cbv [rules find].
    now rewrite !Hall.
Qed.

(** On a text of characters below 256 the check does not depend on what
    the character database says of other characters: every class of
    decimal digits that holds, below 256, [0-9] and nothing else gives
    the answer the handlers get. *)
Lemma existsb_of_string (p q : Unicode.point -> bool) (s : string) :
  (forall c, (c < 256)%N -> p c = q c) ->
  existsb p (Unicode.of_string s) = existsb q (Unicode.of_string s).
Proof.
  intros Hpq. unfold Unicode.of_string.
  induction s as [|c s IH]; [reflexivity|].
  cbn [list_ascii_of_string map existsb].
  now rewrite IH, (Hpq _ (N_ascii_bounded c)).
Qed.

Lemma is_strong_password_below_256
    (decimal_digit : Unicode.point -> bool) (password : string) :
  (forall c, (c < 256)%N -> decimal_digit c = Unicode.in_range 48%N 57%N c) ->
  Unicode.is_strong_password decimal_digit (Unicode.of_string password)
  = is_strong_password password.
Proof.
  intros Hdigits. unfold is_strong_password, Unicode.is_strong_password.
  now rewrite (existsb_of_string decimal_digit _ password Hdigits).
Qed.

(** Two passwords beyond the 8-bit texts.  Seven code points, one of
    them the e with acute accent (233), are too short, whatever the
    decimal digits.  A password whose only digit is the Arabic-Indic
    digit one (1633) is valid, and without it the digit is missing. *)
Lemma is_strong_password_on_wide_text :
  (forall decimal_digit,
     Unicode.is_strong_password decimal_digit
       ([65%N; 233%N] ++ Unicode.of_string "1!aaa")%list
     = (false, "Password must be at least 8 characters"))
  /\ Unicode.is_strong_password TextSamples.two_scripts
       (Unicode.of_string "Abcdefg!" ++ [1633%N])%list
     = (true, "Valid")
  /\ Unicode.is_strong_password TextSamples.two_scripts
       (Unicode.of_string "Abcdefg!x")
     = (false, "Must contain digit").
Proof. repeat split; reflexivity. Qed.

End ValidatorFacts.

(** ** Idle stock *)

Module IdleStockFacts.
Import Text Sql ProductModel Stated Samples SqlFacts.

Ltac compare_keys :=
  repeat match goal with
         | |- context [Z.compare ?x ?y] => destruct (Z.compare_spec x y)
         | H : context [Z.compare ?x ?y] |- _ => destruct (Z.compare_spec x y)
         end;
  rewrite ?Z.leb_le, ?Z.leb_gt in *.

Lemma idlest_first_total (a b : IdleRow) :
  idlest_first a b = false -> idlest_first b a = true.
Proof.
  unfold idlest_first, compare_key.
  destruct (days_idle a), (days_idle b); compare_keys;
    intros; try discriminate; try reflexivity; lia.
Qed.

Lemma idlest_first_trans (a b c : IdleRow) :
  idlest_first a b = true -> idlest_first b c = true -> idlest_first a c = true.
Proof.
  unfold idlest_first, compare_key.
  destruct (days_idle a), (days_idle b), (days_idle c); compare_keys;
    intros; try discriminate; try reflexivity; lia.
Qed.

Lemma idlest_first_order (a b : IdleRow) :
  idlest_first a b = true -> idle_order a b.
Proof.
  unfold idlest_first, idle_order, compare_key.
  destruct (days_idle a), (days_idle b); compare_keys;
    intros; try discriminate; try exact I; try lia.
Qed.

Lemma idle_where_stale (srv : Server) (days : Z) (r : Product) :
  is_true (idle_where srv days r) = stale srv days r.
Proof.
  unfold idle_where, stale.
  rewrite is_true_and3, is_true_or3.
  destruct (archived r), (updated_at r) as [u|]; simpl;
    try destruct (u <? now srv - days * day); reflexivity.
Qed.

Lemma NoDup_map_inj {A B} (f : A -> B) (l : list A) (a b : A) :
  NoDup (map f l) -> In a l -> In b l -> f a = f b -> a = b.
Proof.
  induction l as [|x l IH]; simpl; intros Hnd Ha Hb Hf; [contradiction|].
  inversion Hnd as [|? ? Hx Hl]; subst.
  destruct Ha as [->|Ha], Hb as [->|Hb]; try reflexivity.
  - exfalso. apply Hx. rewrite Hf. now apply in_map.
  - exfalso. apply Hx. rewrite <- Hf. now apply in_map.
  - now apply IH.
Qed.

(** What [fetch_idle_stock] returns.  Its rows are exactly the products
    that are not archived and whose [updated_at] is null or lies more
    than [days] days back; each carries the days between today's date
    and the date of [updated_at], or of [created_at] when [updated_at]
    is null; they come most idle first and, among equally idle ones,
    largest quantity first; a product updated within the last [days]
    days is not among the products reported. *)
Lemma fetch_idle_stock_rows
    (srv : Server) (table : list Product) (days : Z) :
  Permutation (fetch_idle_stock srv table days)
              (map (idle_row srv) (filter (stale srv days) table))
  /\ (forall row, In row (fetch_idle_stock srv table days) ->
        exists r, In r table /\ stale srv days r = true
                  /\ idle_product_id row = product_id r
                  /\ days_idle row = days_since_last_change srv r)
  /\ StronglySorted idle_order (fetch_idle_stock srv table days)
  /\ (forall r u, updated_at r = Some u -> now srv - days * day <= u ->
                  stale srv days r = false)
  /\ (NoDup (map product_id table) ->
      forall r u, In r table -> updated_at r = Some u ->
                  now srv - days * day <= u ->
                  ~ In (product_id r)
                       (map idle_product_id (fetch_idle_stock srv table days))).
Proof.
  assert (forall r u, updated_at r = Some u -> now srv - days * day <= u ->
                      stale srv days r = false) as Hrecent.
  { intros r u Hu Hle. unfold stale. rewrite Hu.
    destruct (archived r); simpl; [reflexivity|].
    apply Z.ltb_ge. exact Hle. }
  assert (Permutation (fetch_idle_stock srv table days)
            (map (idle_row srv) (filter (stale srv days) table))) as Hperm.
  { unfold fetch_idle_stock.
    rewrite (filter_ext _ _ (idle_where_stale srv days)).
    apply order_by_perm. }
  split; [exact Hperm|]. split; [|split; [|split; [exact Hrecent|]]].
  - intros row Hrow.
    apply (Permutation_in _ Hperm) in Hrow.
    apply in_map_iff in Hrow. destruct Hrow as (r & <- & Hr).
    apply filter_In in Hr. destruct Hr as [Hin Hstale].
    exists r. repeat split; try assumption.
    unfold idle_row, days_since_last_change, datediff, coalesce. cbn [days_idle].
    destruct (updated_at r), (created_at r); reflexivity.
  - unfold fetch_idle_stock.
    apply StronglySorted_impl with (R := fun a b => idlest_first a b = true).
    + apply idlest_first_order.
    + apply order_by_sorted.
      * apply idlest_first_total.
      * apply idlest_first_trans.
  - intros Hids r u Hin Hu Hle Hrep.
    apply in_map_iff in Hrep. destruct Hrep as (row & Hid & Hrow).
    apply (Permutation_in _ Hperm) in Hrow.
    apply in_map_iff in Hrow. destruct Hrow as (r' & <- & Hr').
    apply filter_In in Hr'. destruct Hr' as [Hin' Hstale].
    assert (r' = r) as -> by (now apply (NoDup_map_inj product_id table)).
    rewrite (Hrecent r u Hu Hle) in Hstale. discriminate.
Qed.

(** The WHERE clause never looks at [created_at]: a product that is not
    archived and was never updated is reported for every [days],
    however recently it was created. *)
Lemma fetch_idle_stock_reports_every_product_never_updated
    (srv : Server) (table : list Product) (days : Z) (r : Product) :
  In r table -> archived r = false -> updated_at r = None ->
  In (idle_row srv r) (fetch_idle_stock srv table days).
Proof.
  intros Hin Ha Hu.
  destruct (fetch_idle_stock_rows srv table days) as [Hperm _].
  apply (Permutation_in _ (Permutation_sym Hperm)).
  apply in_map. apply filter_In. split; [exact Hin|].
  unfold stale. now rewrite Ha, Hu.
Qed.

(** C1.  The code parts from the claim on a product that was never
    updated.  The fresh product of the samples is not archived, its
    [updated_at] is null and its [created_at] is the very moment of the
    call, so its [created_at] is not older than 30 days and the claim
    leaves it out; [fetch_idle_stock] with 30 days reports it, with zero
    days idle.  The select list falls back on [created_at] through
    COALESCE, the WHERE clause tests [updated_at IS NULL] alone. *)
Theorem fetch_idle_stock_reports_fresh_product :
  archived fresh_product = false
  /\ updated_at fresh_product = None
  /\ created_at fresh_product = Some (now today)
  /\ idle_since_last_change today 30 fresh_product = false
  /\ map (fun row => (idle_product_id row, days_idle row))
         (fetch_idle_stock today [fresh_product] 30)
     = [(7, Some 0)].
Proof. repeat split; reflexivity. Qed.

End IdleStockFacts.
(** ** Product search *)

Module SearchFacts.
Import Text Sql ProductModel Stated Samples SqlFacts.

Lemma build_where_expected (filters : Filters) :
  finite_or_absent (f_min_price filters) = true ->
  finite_or_absent (f_max_price filters) = true ->
  build_where filters = Return (expected_clauses filters, expected_params filters).
Proof.
  intros Hmn Hmx.
  unfold build_where, text_clauses, expected_clauses, expected_params.
  destruct (truthy (f_sku filters)), (truthy (f_category filters)),
    (truthy (f_keyword filters)), (f_min_price filters), (f_max_price filters);
    try discriminate; reflexivity.
Qed.

Lemma parse_flagged (b1 b2 b3 b4 b5 : bool) :
  parse_where
    (where_sql_of
       (["archived = 0"] ++ flagged b1 ["SKU LIKE %s"]
        ++ flagged b2 ["category = %s"]
        ++ flagged b3 ["(title LIKE %s OR description LIKE %s)"]
        ++ flagged b4 ["price >= %s"] ++ flagged b5 ["price <= %s"])%list)
  = Some ([ArchivedIsZero] ++ flagged b1 [SkuLike] ++ flagged b2 [CategoryEq]
          ++ flagged b3 [TitleOrDescriptionLike]
          ++ flagged b4 [PriceGe] ++ flagged b5 [PriceLe])%list.
Proof. destruct b1, b2, b3, b4, b5; vm_compute; reflexivity. Qed.

Lemma fill_flagged (b1 b2 b3 b4 b5 : bool) (p1 p2 p3 : string) (q1 q2 : Q)
    (rest : list param) :
  fill ([ArchivedIsZero] ++ flagged b1 [SkuLike] ++ flagged b2 [CategoryEq]
        ++ flagged b3 [TitleOrDescriptionLike]
        ++ flagged b4 [PriceGe] ++ flagged b5 [PriceLe])%list
       (flagged b1 [PText p1] ++ flagged b2 [PText p2]
        ++ flagged b3 [PText p3; PText p3]
        ++ flagged b4 [PDecimal (Finite q1)] ++ flagged b5 [PDecimal (Finite q2)]
        ++ rest)%list
  = Some (([NotArchived] ++ flagged b1 [SkuMatches p1]
           ++ flagged b2 [CategoryIs p2]
           ++ flagged b3 [TitleOrDescriptionMatches p3 p3]
           ++ flagged b4 [PriceAtLeast q1] ++ flagged b5 [PriceAtMost q2])%list,
          rest).
Proof. destruct b1, b2, b3, b4, b5; reflexivity. Qed.

Lemma names_resolve_flagged (b1 b2 b3 b4 b5 : bool) (p1 p2 p3 : string)
    (q1 q2 : Q) :
  names_resolve
    ([NotArchived] ++ flagged b1 [SkuMatches p1] ++ flagged b2 [CategoryIs p2]
     ++ flagged b3 [TitleOrDescriptionMatches p3 p3]
     ++ flagged b4 [PriceAtLeast q1] ++ flagged b5 [PriceAtMost q2])%list
  = true.
Proof. destruct b1, b2, b3, b4, b5; reflexivity. Qed.

Lemma is_true_some (b : bool) : is_true (Some b) = b.
Proof. now destruct b. Qed.

Lemma holds_all_matches (srv : Server) (filters : Filters) (r : Product) :
  finite_or_absent (f_min_price filters) = true ->
  finite_or_absent (f_max_price filters) = true ->
  is_true
    (holds_all srv
       ([NotArchived]
        ++ flagged (truthy (f_sku filters))
             [SkuMatches ("%" ++ item (f_sku filters) ++ "%")]
        ++ flagged (truthy (f_category filters))
             [CategoryIs (item (f_category filters))]
        ++ flagged (truthy (f_keyword filters))
             [TitleOrDescriptionMatches
                ("%" ++ item (f_keyword filters) ++ "%")
                ("%" ++ item (f_keyword filters) ++ "%")]
        ++ flagged (is_not_None (f_min_price filters))
             [PriceAtLeast (price_value (f_min_price filters))]
        ++ flagged (is_not_None (f_max_price filters))
             [PriceAtMost (price_value (f_max_price filters))])%list r)
  = matches srv filters r.
Proof.
  intros Hmn Hmx.
  unfold matches, sku_matches, category_matches, keyword_matches,
    min_price_matches, max_price_matches, holds_all.
  destruct (truthy (f_sku filters)), (truthy (f_category filters)),
    (truthy (f_keyword filters)), (f_min_price filters), (f_max_price filters);
    try discriminate;
    cbn [flagged app fold_right holds is_not_None price_value];
    rewrite ?is_true_and3, ?is_true_or3, ?is_true_some;
    rewrite ?andb_true_r; rewrite ?andb_assoc; reflexivity.
Qed.

Lemma search_products_value (srv : Server) (table : list Product)
    (filters : Filters) (page per_page : Z) :
  finite_or_absent (f_min_price filters) = true ->
  finite_or_absent (f_max_price filters) = true ->
  search_products srv table filters page per_page
  = page_result srv table filters page per_page.
Proof.
  intros Hmn Hmx.
  unfold search_products.
  rewrite (build_where_expected filters Hmn Hmx).
  cbn [bind].
  unfold execute_count, execute_page, expected_clauses.
  fold (@flagged string (truthy (f_sku filters)) ["SKU LIKE %s"]).
  fold (@flagged string (truthy (f_category filters)) ["category = %s"]).
  fold (@flagged string (truthy (f_keyword filters))
          ["(title LIKE %s OR description LIKE %s)"]).
  fold (@flagged string (is_not_None (f_min_price filters)) ["price >= %s"]).
  fold (@flagged string (is_not_None (f_max_price filters)) ["price <= %s"]).
  rewrite parse_flagged.
  unfold expected_params.
  fold (@flagged param (truthy (f_sku filters))
          [PText ("%" ++ item (f_sku filters) ++ "%")]).
  fold (@flagged param (truthy (f_category filters))
          [PText (item (f_category filters))]).
  fold (@flagged param (truthy (f_keyword filters))
          [PText ("%" ++ item (f_keyword filters) ++ "%");
           PText ("%" ++ item (f_keyword filters) ++ "%")]).
  fold (@flagged param (is_not_None (f_min_price filters))
          [PDecimal (Finite (price_value (f_min_price filters)))]).
  fold (@flagged param (is_not_None (f_max_price filters))
          [PDecimal (Finite (price_value (f_max_price filters)))]).
  rewrite <- !app_assoc.
  rewrite fill_flagged.
  match goal with
  | |- context [fill ?ps ?args] =>
      replace args with (args ++ [])%list by apply app_nil_r
  end.
  rewrite <- !app_assoc.
  rewrite fill_flagged.
  rewrite names_resolve_flagged.
  unfold selected, page_result.
  rewrite (filter_ext _ _ (fun r => holds_all_matches srv filters r Hmn Hmx)).
  reflexivity.
Qed.

Lemma updated_first_total (a b : Product) :
  updated_first a b = false -> updated_first b a = true.
Proof.
  unfold updated_first, compare_key.
  destruct (updated_at a), (updated_at b); try discriminate; try reflexivity.
  rewrite (Z.compare_antisym z z0).
  destruct (z ?= z0); simpl; intros; try discriminate; reflexivity.
Qed.

Lemma updated_first_recent (a b : Product) :
  updated_first a b = true <-> recent_order a b.
Proof.
  unfold updated_first, recent_order, compare_key.
  destruct (updated_at a) as [x|], (updated_at b) as [y|];
    try (split; [intros; exact I|reflexivity]);
    try (split; [discriminate|contradiction]).
  destruct (Z.compare_spec x y); split; intros; try reflexivity;
    try discriminate; lia.
Qed.

Lemma updated_first_trans (a b c : Product) :
  updated_first a b = true -> updated_first b c = true ->
  updated_first a c = true.
Proof.
  rewrite !updated_first_recent. unfold recent_order.
  destruct (updated_at a), (updated_at b), (updated_at c);
    intros; try exact I; try contradiction; lia.
Qed.

Lemma ordered_hits_sorted (srv : Server) (filters : Filters) (table : list Product) :
  StronglySorted recent_order
    (order_by updated_first (filter (matches srv filters) table)).
Proof.
  apply StronglySorted_impl with (R := fun a b => updated_first a b = true).
  - intros a b. apply updated_first_recent.
  - apply order_by_sorted.
    + apply updated_first_total.
    + apply updated_first_trans.
Qed.

Lemma limit_offset_in_range {A} (lim off : Z) (rows : list A) :
  0 <= lim <= max_unsigned -> 0 <= off <= max_unsigned ->
  limit_offset lim off rows
  = Return (firstn (Z.to_nat lim) (skipn (Z.to_nat off) rows)).
Proof.
  intros [Hl Hlm] [Ho Hom]. unfold limit_offset.
  apply Z.ltb_ge in Hl, Hlm, Ho, Hom. now rewrite Hl, Hlm, Ho, Hom.
Qed.

Lemma limit_offset_returns {A} (lim off : Z) (rows taken : list A) :
  limit_offset lim off rows = Return taken ->
  0 <= lim <= max_unsigned /\ 0 <= off <= max_unsigned
  /\ taken = firstn (Z.to_nat lim) (skipn (Z.to_nat off) rows).
Proof.
  unfold limit_offset.
  destruct (lim <? 0) eqn:Hl; [discriminate|].
  destruct (off <? 0) eqn:Ho; [discriminate|].
  destruct (max_unsigned <? lim) eqn:Hlm; [discriminate|].
  destruct (max_unsigned <? off) eqn:Hom; [discriminate|].
  cbn [orb]. intros [= <-].
  apply Z.ltb_ge in Hl, Hlm, Ho, Hom. repeat split; assumption.
Qed.

(** C2, as amended.  When the price bounds are absent or values that
    [Decimal] turns into finite numbers, and [per_page] lies between 0
    and the largest unsigned 64-bit integer, a page whose offset
    [(page-1)*per_page] is at or beyond the number of matching rows (and
    not above that largest integer) gives the empty row list with the
    number of matching rows, and no error; pages count from 1, page 1
    starting at the first matching row. *)
Theorem search_products_page_beyond_rows
    (srv : Server) (table : list Product) (filters : Filters)
    (page per_page : Z) :
  finite_or_absent (f_min_price filters) = true ->
  finite_or_absent (f_max_price filters) = true ->
  0 <= per_page <= max_unsigned ->
  Z.of_nat (List.length (filter (matches srv filters) table))
    <= (page - 1) * per_page <= max_unsigned ->
  search_products srv table filters page per_page
    = Return ([], Z.of_nat (List.length (filter (matches srv filters) table)))
  /\ search_products srv table filters 1 per_page
    = Return (firstn (Z.to_nat per_page)
                (order_by updated_first (filter (matches srv filters) table)),
              Z.of_nat (List.length (filter (matches srv filters) table))).
Proof.
  intros Hmn Hmx Hp Hoff.
  rewrite !search_products_value by assumption.
  unfold page_result.
  set (hits := filter (matches srv filters) table) in *.
  rewrite !limit_offset_in_range; try assumption;
    try (unfold max_unsigned in *; lia).
  cbn [bind]. split; [|reflexivity].
  rewrite skipn_all2; [now rewrite firstn_nil|].
  rewrite (Permutation_length (order_by_perm updated_first hits)). lia.
Qed.

(** C3, as amended.  The clause list is [archived = 0] followed by one
    clause for each filter that is set, in the order SKU, category,
    keyword, minimum price, maximum price, and the WHERE text joins them
    with AND.  When the price bounds are absent or finite numbers and
    the LIMIT and OFFSET values lie between 0 and the largest unsigned
    64-bit integer, the matching rows are those on which all these
    predicates hold; they are put most recently updated first; the
    answer is the page [page] of them, [per_page] rows from offset
    [(page-1)*per_page], with the number of matching rows.  With no
    filters the matching rows are all the products that are not
    archived, the total is their number, and all of them are returned
    when they fit on page 1. *)
Theorem search_products_conjunctive_page
    (srv : Server) (table : list Product) (filters : Filters)
    (page per_page : Z) :
  finite_or_absent (f_min_price filters) = true ->
  finite_or_absent (f_max_price filters) = true ->
  0 <= per_page <= max_unsigned ->
  1 <= page ->
  (page - 1) * per_page <= max_unsigned ->
  let hits := filter (matches srv filters) table in
  let ordered := order_by updated_first hits in
  (exists params, build_where filters = Return (expected_clauses filters, params))
  /\ where_sql_of (expected_clauses filters)
     = " WHERE " ++ join " AND " (expected_clauses filters)
  /\ search_products srv table filters page per_page
     = Return (page_of page per_page ordered, Z.of_nat (List.length hits))
  /\ Permutation ordered hits
  /\ StronglySorted recent_order ordered
  /\ filter (matches srv no_filters) table
     = filter (fun r => negb (archived r)) table
  /\ (page = 1 -> Z.of_nat (List.length hits) <= per_page ->
      page_of page per_page ordered = ordered).
Proof.
  intros Hmn Hmx Hp Hg Ho hits ordered.
  split; [|split; [|split; [|split; [|split; [|split]]]]].
  - eexists. now apply build_where_expected.
  - reflexivity.
  - rewrite search_products_value by assumption.
    unfold page_result. fold hits. fold ordered.
    rewrite limit_offset_in_range; [reflexivity|assumption|].
    split; [nia|assumption].
  - apply order_by_perm.
  - apply ordered_hits_sorted.
  - apply filter_ext. intros r. unfold matches. simpl.
    now rewrite !andb_true_r.
  - intros -> Hfit. unfold page_of. simpl.
    apply firstn_all2. unfold ordered.
    rewrite (Permutation_length (order_by_perm updated_first hits)). lia.
Qed.

Lemma search_products_page_beyond_rows_witness :
  finite_or_absent (f_min_price no_filters) = true
  /\ finite_or_absent (f_max_price no_filters) = true
  /\ 0 <= 10 <= max_unsigned
  /\ Z.of_nat (List.length (filter (matches today no_filters) shelf))
       <= (2 - 1) * 10 <= max_unsigned
  /\ search_products today shelf no_filters 2 10 = Return ([], 2)
  /\ search_products today shelf no_filters 1 10 = Return ([chair; lamp], 2).
Proof.
  split; [reflexivity|]. split; [reflexivity|].
  split; [split; vm_compute; discriminate|].
  split; [split; vm_compute; discriminate|].
  apply (search_products_page_beyond_rows today shelf no_filters 2 10);
    [reflexivity|reflexivity|split; vm_compute; discriminate
    |split; vm_compute; discriminate].
Defined.

(** C2, as worded, fails.  On an empty table every offset is at or
    beyond the number of matching rows, and yet the call raises: with a
    negative [per_page], which makes the server reject the page
    statement; with a price bound that [Decimal] refuses (the text of a
    blank form field, say), before any statement is sent; with a price
    bound that [Decimal] turns into NaN, whose bare word the server
    cannot resolve; and with a page so far out that the offset is no
    unsigned 64-bit integer. *)
Lemma search_products_can_raise_beyond_rows :
  (0 <= (1 - 1) * (-5)
   /\ search_products today [] no_filters 1 (-5)
      = Raise (ProgrammingError "You have an error in your SQL syntax"))
  /\ (0 <= (2 - 1) * 10
      /\ search_products today [] blank_min_price 2 10 = Raise InvalidOperation)
  /\ (0 <= (2 - 1) * 10
      /\ raises (search_products today [] nan_min_price 2 10) = true)
  /\ (0 <= (2 ^ 64 + 1 - 1) * 1
      /\ search_products today [] no_filters (2 ^ 64 + 1) 1
         = Raise (ProgrammingError "You have an error in your SQL syntax")).
Proof. repeat split; vm_compute; congruence. Qed.

(** Page 0 asks for a negative offset, which the server rejects: pages
    start at 1. *)
Lemma search_products_page_zero_raises :
  search_products today shelf no_filters 0 1
  = Raise (ProgrammingError "You have an error in your SQL syntax").
Proof. reflexivity. Qed.

Lemma search_products_conjunctive_page_witness :
  finite_or_absent (f_min_price no_filters) = true
  /\ finite_or_absent (f_max_price no_filters) = true
  /\ 0 <= 1 <= max_unsigned /\ 1 <= 2 /\ (2 - 1) * 1 <= max_unsigned
  /\ search_products today shelf no_filters 2 1 = Return ([lamp], 2).
Proof.
  split; [reflexivity|]. split; [reflexivity|].
  split; [split; vm_compute; discriminate|]. split; [lia|].
  split; [vm_compute; discriminate|].
  apply (search_products_conjunctive_page today shelf no_filters 2 1);
    [reflexivity|reflexivity|split; vm_compute; discriminate|lia
    |vm_compute; discriminate].
Defined.

(** C3, as worded, fails in its last part.  With no filters and two
    products on the shelf, neither archived, page 1 of one row per page
    holds one product, not all of them; the total is 2. *)
Lemma search_products_first_page_is_a_slice :
  filter (fun r => negb (archived r)) shelf = [lamp; chair]
  /\ search_products today shelf no_filters 1 1 = Return ([chair], 2).
Proof. split; reflexivity. Qed.

End SearchFacts.

(** ** Archiving and the open-orders check *)

Module ArchiveFacts.
Import Text Sql ProductModel Stated Samples.

Lemma table_missing (srv : Server) (db : OrderTables) (n : nat) (name : string) :
  (forall t, In t (listed db) -> text_eq srv t name = false) ->
  _table_exists srv db n name = Return false
  \/ exists e, _table_exists srv db n name = Raise e.
Proof.
  intros Habs. unfold _table_exists, execute.
  destruct (fails db n); [right; eexists; reflexivity|left].
  replace (filter (fun t => text_eq srv t name) (listed db)) with (@nil string).
  - reflexivity.
  - symmetry. induction (listed db) as [|t l IH]; [reflexivity|].
    simpl. rewrite (Habs t (or_introl eq_refl)).
    apply IH. intros t' Ht'. apply Habs. now right.
Qed.

Lemma table_probe_cases (srv : Server) (db : OrderTables) (n : nat) (name : string) :
  (fails db n = true /\ exists e, _table_exists srv db n name = Raise e)
  \/ (fails db n = false /\ exists b, _table_exists srv db n name = Return b).
Proof.
  unfold _table_exists, execute.
  destruct (fails db n); [left|right]; split; try reflexivity; eexists; reflexivity.
Qed.

(** The check answers [true] only when the three statements went
    through, both tables are listed, and an open order names the
    product. *)
Lemma open_orders_only_when_checked (srv : Server) (db : OrderTables) (pid : Z) :
  product_has_open_orders srv db pid = true ->
  (forall n, (n <= 2)%nat -> fails db n = false)
  /\ _table_exists srv db 0 "orders" = Return true
  /\ _table_exists srv db 1 "order_items" = Return true
  /\ open_order_count srv db pid <> 0.
Proof.
  unfold product_has_open_orders, open_orders_check.
  destruct (table_probe_cases srv db 0 "orders") as [[F0 [e ->]]|[F0 [b0 ->]]];
    cbn [bind]; [discriminate|].
  destruct b0; cbn [bind negb]; [|discriminate].
  destruct (table_probe_cases srv db 1 "order_items") as [[F1 [e ->]]|[F1 [b1 ->]]];
    cbn [bind]; [discriminate|].
  destruct b1; cbn [bind negb]; [|discriminate].
  unfold execute. destruct (fails db 2) eqn:F2; cbn [bind]; [discriminate|].
  intros Hc. apply negb_true_iff, Z.eqb_neq in Hc.
  repeat split; try assumption.
  intros n Hn.
  destruct n as [|[|[|n]]]; try assumption; lia.
Qed.

(** C6, as amended.  [product_has_open_orders] answers [false] whenever
    [orders] or [order_items] is not listed for the schema and whenever
    one of its statements raises.  [archive_product] sets the archived
    flag of every row with the given id and of no other row, whatever
    the order tables hold: it does so in every case in which the check
    answers [false], tables absent included, and it does not consult the
    check. *)
Theorem open_orders_check_fails_open_and_archive_is_unconditional
    (srv : Server) (db : OrderTables) (table : list Product) (pid : Z) :
  ((forall t, In t (listed db) -> text_eq srv t "orders" = false) ->
   product_has_open_orders srv db pid = false)
  /\ ((forall t, In t (listed db) -> text_eq srv t "order_items" = false) ->
      product_has_open_orders srv db pid = false)
  /\ (forall n, (n <= 2)%nat -> fails db n = true ->
                product_has_open_orders srv db pid = false)
  /\ map product_id (archive_product srv table pid) = map product_id table
  /\ (forall r, In r (archive_product srv table pid) -> product_id r = pid ->
                archived r = true /\ updated_at r = Some (now srv))
  /\ (forall r, product_id r <> pid ->
                In r (archive_product srv table pid) <-> In r table).
Proof.
  split; [|split; [|split; [|split; [|split]]]].
  - intros Habs.
    destruct (product_has_open_orders srv db pid) eqn:Hc; [|reflexivity].
    apply open_orders_only_when_checked in Hc.
    destruct Hc as (_ & H0 & _).
    destruct (table_missing srv db 0 "orders" Habs) as [E|[e E]];
      rewrite E in H0; discriminate.
  - intros Habs.
    destruct (product_has_open_orders srv db pid) eqn:Hc; [|reflexivity].
    apply open_orders_only_when_checked in Hc.
    destruct Hc as (_ & _ & H1 & _).
    destruct (table_missing srv db 1 "order_items" Habs) as [E|[e E]];
      rewrite E in H1; discriminate.
  - intros n Hn Hf.
    destruct (product_has_open_orders srv db pid) eqn:Hc; [|reflexivity].
    apply open_orders_only_when_checked in Hc.
    destruct Hc as (Hok & _). rewrite (Hok n Hn) in Hf. discriminate.
  - unfold archive_product. rewrite map_map. apply map_ext.
    intros r. now destruct (product_id r =? pid).
  - unfold archive_product. intros r Hin Hid.
    apply in_map_iff in Hin. destruct Hin as (r0 & Hr & _).
    destruct (product_id r0 =? pid) eqn:E.
    + subst r. simpl. split; reflexivity.
    + subst r0. apply Z.eqb_neq in E. contradiction.
  - unfold archive_product. intros r Hid. rewrite in_map_iff. split.
    + intros (r0 & Hr & Hin).
      destruct (product_id r0 =? pid) eqn:E.
      * subst r. simpl in Hid. apply Z.eqb_eq in E. contradiction.
      * now subst r0.
    + intros Hin. exists r. split; [|exact Hin].
      apply Z.eqb_neq in Hid. now rewrite Hid.
Qed.

(** C6, as worded, fails in its "exactly": with an open order for the
    lamp the check answers [true], and [archive_product] archives the
    lamp all the same.  Without order tables the check answers [false]
    and the lamp is archived too. *)
Lemma archive_product_does_not_consult_the_check :
  product_has_open_orders today order_book 1 = true
  /\ map archived (archive_product today [lamp] 1) = [true]
  /\ product_has_open_orders today no_order_tables 1 = false
  /\ map archived (archive_product today [lamp] 1) = [true].
Proof. repeat split; reflexivity. Qed.

End ArchiveFacts.

(** ** Login *)

Module LoginFacts.
Import Text Sql Validators Users StatedUsers UserSamples.

Ltac tidy :=
  cbn -[is_valid_email is_strong_password lower strip existsb String.eqb
        nonempty contains].

Ltac run_handler :=
  unfold try_except, bindH, get_db, cursor, execute, execute_checked, close,
    flash, ret, raise, set_session, get_session, set_db;
  tidy.

Ltac case_if :=
  match goal with
  | |- context [if ?c then _ else _] => destruct c eqn:?; tidy
  end.

Lemma login_unknown (env : Env) (s : State) (form : LoginForm) :
  reachable env = true ->
  account env (db s) (login_email form) = None ->
  login env POST form s
  = (answered s [("Invalid email or password.", "danger")],
     Return (Redirect "users.login")).
Proof.
  intros Hr Ha. unfold login. run_handler. rewrite Hr. cbn.
  unfold select_user. unfold account in Ha. rewrite Ha. reflexivity.
Qed.

Lemma login_wrong_password (env : Env) (s : State) (form : LoginForm) (u : User) :
  reachable env = true ->
  account env (db s) (login_email form) = Some u ->
  check_password_hash env (UPassword u) (login_password form) = false ->
  login env POST form s
  = (answered s [("Invalid email or password.", "danger")],
     Return (Redirect "users.login")).
Proof.
  intros Hr Ha Hc. unfold login. run_handler. rewrite Hr. cbn.
  unfold select_user. unfold account in Ha. rewrite Ha. cbn.
  rewrite Hc. reflexivity.
Qed.

Lemma login_disabled (env : Env) (s : State) (form : LoginForm) (u : User) :
  reachable env = true ->
  account env (db s) (login_email form) = Some u ->
  check_password_hash env (UPassword u) (login_password form) = true ->
  Status u <> "active" ->
  login env POST form s
  = (answered s [("Account disabled.", "warning")],
     Return (Redirect "users.login")).
Proof.
  intros Hr Ha Hc Hs. unfold login. run_handler. rewrite Hr. cbn.
  unfold select_user. unfold account in Ha. rewrite Ha. cbn.
  rewrite Hc. cbn. apply String.eqb_neq in Hs. rewrite Hs. reflexivity.
Qed.

Lemma login_welcome (env : Env) (s : State) (form : LoginForm) (u : User) :
  reachable env = true ->
  account env (db s) (login_email form) = Some u ->
  check_password_hash env (UPassword u) (login_password form) = true ->
  Status u = "active" ->
  flashes (fst (login env POST form s))
  = (flashes s ++ [(("Welcome, " ++ ContactFirstName u ++ "!")%string, "success")])%list.
Proof.
  intros Hr Ha Hc Hs. unfold login. run_handler. rewrite Hr. cbn.
  unfold select_user. unfold account in Ha. rewrite Ha. cbn.
  rewrite Hc. cbn. apply String.eqb_eq in Hs. rewrite Hs. reflexivity.
Qed.

(** C5.  With the database reachable, a login with an email that leads
    to no account and a login with the email of an account but a
    password that does not check end alike: the same single flashed
    message, the same redirect, nothing written.  The message about a
    disabled account is flashed exactly when the email leads to an
    account, the password checks, and the Status is not [active]. *)
Theorem login_failures_share_one_message
    (env : Env) (s : State) (unknown known : LoginForm) (u : User) :
  reachable env = true ->
  account env (db s) (login_email unknown) = None ->
  account env (db s) (login_email known) = Some u ->
  check_password_hash env (UPassword u) (login_password known) = false ->
  login env POST unknown s
    = (answered s [("Invalid email or password.", "danger")],
       Return (Redirect "users.login"))
  /\ login env POST known s = login env POST unknown s
  /\ (forall form,
        flashes (fst (login env POST form s))
          = (flashes s ++ [("Account disabled.", "warning")])%list
        <-> exists v,
              account env (db s) (login_email form) = Some v
              /\ check_password_hash env (UPassword v) (login_password form) = true
              /\ Status v <> "active").
Proof.
  intros Hr Hnone Hsome Hbad.
  split; [now apply login_unknown|].
  split.
  - rewrite (login_unknown env s unknown Hr Hnone).
    now apply login_wrong_password with u.
  - intros form. split.
    + intros Hf.
      destruct (account env (db s) (login_email form)) as [v|] eqn:Ha.
      * destruct (check_password_hash env (UPassword v) (login_password form)) eqn:Hc.
        -- destruct (String.eqb_spec (Status v) "active") as [Hs|Hs].
           ++ rewrite (login_welcome env s form v Hr Ha Hc Hs) in Hf.
              apply app_inv_head in Hf. discriminate.
           ++ exists v. repeat split; assumption.
        -- rewrite (login_wrong_password env s form v Hr Ha Hc) in Hf.
           simpl in Hf. apply app_inv_head in Hf. discriminate.
      * rewrite (login_unknown env s form Hr Ha) in Hf.
        simpl in Hf. apply app_inv_head in Hf. discriminate.
    + intros (v & Ha & Hc & Hs).
      now rewrite (login_disabled env s form v Hr Ha Hc Hs).
Qed.

Lemma login_failures_share_one_message_witness :
  reachable office = true
  /\ account office (db two_accounts) (login_email stranger_logs_in) = None
  /\ account office (db two_accounts) (login_email ann_mistypes) = Some ann
  /\ check_password_hash office (UPassword ann) (login_password ann_mistypes)
     = false
  /\ login office POST ann_mistypes two_accounts
     = login office POST stranger_logs_in two_accounts.
Proof.
  split; [reflexivity|]. split; [reflexivity|]. split; [reflexivity|].
  split; [reflexivity|].
  apply (login_failures_share_one_message office two_accounts
           stranger_logs_in ann_mistypes ann); reflexivity.
Defined.

End LoginFacts.

(** ** Registration *)

Module RegisterFacts.
Import Text Sql Validators Users StatedUsers UserSamples.
Import LoginFacts.

Lemma is_space_lower_char (c : ascii) : is_space (lower_char c) = is_space c.
Proof. destruct c as [[] [] [] [] [] [] [] []]; reflexivity. Qed.

Lemma lstrip_lower (s : string) : lstrip (lower s) = lower (lstrip s).
Proof.
  induction s as [|c r IH]; [reflexivity|].
  cbn [lower map_chars lstrip]. rewrite is_space_lower_char.
  destruct (is_space c); [exact IH|reflexivity].
Qed.

Lemma rstrip_lower (s : string) : rstrip (lower s) = lower (rstrip s).
Proof.
  induction s as [|c r IH]; [reflexivity|].
  cbn [lower map_chars rstrip]. fold (lower r). rewrite IH.
  destruct (rstrip r) as [|d t]; cbn [lower map_chars].
  - rewrite is_space_lower_char. now destruct (is_space c).
  - reflexivity.
Qed.

Lemma strip_lower (s : string) : lower (strip s) = strip (lower s).
Proof. unfold strip. now rewrite lstrip_lower, rstrip_lower. Qed.

Lemma lower_char_idem (c : ascii) : lower_char (lower_char c) = lower_char c.
Proof. destruct c as [[] [] [] [] [] [] [] []]; reflexivity. Qed.

Lemma lower_idem (s : string) : lower (lower s) = lower s.
Proof.
  induction s as [|c r IH]; [reflexivity|].
  cbn [lower map_chars]. fold (lower r) (lower (lower r)).
  now rewrite lower_char_idem, IH.
Qed.

Lemma register_refused (env : Env) (s : State) (form : RegisterForm) (msg : string) :
  validation_failure form = Some msg ->
  register env POST form s
  = (noted s [(msg, "danger")], Return (Redirect "users.register")).
Proof.
  unfold validation_failure, register. run_handler.
  destruct (is_strong_password (reg_password form)) as [ok m]; cbn [fst snd].
  repeat case_if; try discriminate; intros [= <-]; reflexivity.
Qed.

Lemma register_checked (env : Env) (s : State) (form : RegisterForm) :
  validation_failure form = None ->
  register env POST form s
  = if reachable env then
      match account env (db s) (reg_email form) with
      | Some _ => (answered s [("Email already registered.", "danger")],
                   Return (Redirect "users.register"))
      | None => (registered env s form, Return (Redirect "users.login"))
      end
    else (noted s [("Database error.", "danger")],
          Return (Redirect "users.register")).
Proof.
  unfold validation_failure, register, account. run_handler.
  destruct (is_strong_password (reg_password form)) as [ok m]; cbn [fst snd].
  unfold select_user.
  repeat case_if; try discriminate; intros _; try reflexivity;
    destruct (find _ (UserProfile (db s))); reflexivity.
Qed.

Lemma find_app_none {A} (f : A -> bool) (l : list A) (x : A) :
  find f l = None -> f x = true -> find f (l ++ [x]) = Some x.
Proof.
  induction l as [|y l IH]; simpl; intros Hn Hx.
  - now rewrite Hx.
  - destruct (f y); [discriminate|]. now apply IH.
Qed.

Lemma register_success (env : Env) (s s1 : State) (form : RegisterForm) :
  register env POST form s = (s1, Return (Redirect "users.login")) ->
  validation_failure form = None
  /\ reachable env = true
  /\ account env (db s) (reg_email form) = None
  /\ s1 = registered env s form.
Proof.
  intros Hreg.
  destruct (validation_failure form) as [msg|] eqn:Hv.
  - rewrite (register_refused env s form msg Hv) in Hreg. discriminate.
  - rewrite (register_checked env s form Hv) in Hreg.
    destruct (reachable env); [|discriminate].
    destruct (account env (db s) (reg_email form)); [discriminate|].
    injection Hreg as <-. repeat split.
Qed.

Lemma validation_failure_same (a b : RegisterForm) :
  lower (strip (reg_email a)) = lower (strip (reg_email b)) ->
  same_particulars a b ->
  validation_failure a = validation_failure b.
Proof.
  intros He (H1 & H2 & H3 & H4 & H5).
  unfold validation_failure. now rewrite He, H1, H2, H3, H4, H5.
Qed.

Lemma NoDup_snoc {A} (l : list A) (x : A) :
  NoDup l -> ~ In x l -> NoDup (l ++ [x]).
Proof.
  intros Hl Hx. apply NoDup_rev in Hl.
  rewrite <- (rev_involutive (l ++ [x])). apply NoDup_rev.
  rewrite rev_app_distr. cbn [rev app]. constructor; [|exact Hl].
  intros Hin. apply Hx. now apply in_rev.
Qed.

(** C9, as amended.  When a registration went through and a second one
    submits an email equal to the first up to letter case, the second
    is turned away with a flashed error and a redirect back to the
    form, and the tables stay as the first left them; when it differs
    from the first in nothing else that is checked, the message is that
    the email is already registered.  The registration that went
    through keeps the emails unique up to letter case provided the
    lookup by email finds every stored email whose case-folded form is
    the submitted one; it does when the stored emails are case-folded,
    which they stay, and when the collation ignores letter case. *)
Theorem register_turns_away_registered_email
    (env : Env) (s s1 : State) (first second : RegisterForm) :
  equal_to_itself env (lower (strip (reg_email first))) ->
  register env POST first s = (s1, Return (Redirect "users.login")) ->
  lower (reg_email second) = lower (reg_email first) ->
  (exists message,
     register env POST second s1
     = (answered s1 [(message, "danger")], Return (Redirect "users.register")))
  /\ (same_particulars second first ->
      register env POST second s1
      = (answered s1 [("Email already registered.", "danger")],
         Return (Redirect "users.register")))
  /\ (lookup_sees_every_spelling env (db s) (lower (strip (reg_email first))) ->
      case_folded_unique (db s) -> case_folded_unique (db s1))
  /\ (stored_case_folded (db s) ->
      lookup_sees_every_spelling env (db s) (lower (strip (reg_email first)))
      /\ stored_case_folded (db s1))
  /\ (ignores_case env ->
      lookup_sees_every_spelling env (db s) (lower (strip (reg_email first)))).
Proof.
  intros Hrefl Hreg Hcase.
  destruct (register_success env s s1 first Hreg) as (Hv & Hr & Ha & ->).
  assert (lower (strip (reg_email second)) = lower (strip (reg_email first)))
    as Hnorm by (now rewrite !strip_lower, Hcase).
  assert (account env (db (registered env s first)) (reg_email second)
          = Some (new_user env first)) as Hfound.
  { unfold account, registered; cbn [db UserProfile].
    rewrite Hnorm. apply find_app_none; [exact Ha|exact Hrefl]. }
  assert (forall msg,
            noted (registered env s first) [(msg, "danger")]
            = answered (registered env s first) [(msg, "danger")]) as Hclosed
    by reflexivity.
  assert (validation_failure second = None ->
          register env POST second (registered env s first)
          = (answered (registered env s first)
               [("Email already registered.", "danger")],
             Return (Redirect "users.register"))) as Hdup.
  { intros Hv2. rewrite (register_checked env _ second Hv2), Hr, Hfound.
    reflexivity. }
  split; [|split; [|split; [|split]]].
  - destruct (validation_failure second) as [msg|] eqn:Hv2.
    + exists msg. rewrite (register_refused env _ second msg Hv2).
      now rewrite Hclosed.
    + eexists. now apply Hdup.
  - intros Hsame. apply Hdup.
    now rewrite (validation_failure_same second first Hnorm Hsame).
  - intros Hsees Huniq.
    unfold case_folded_unique in *.
    assert (case_folded_emails (db (registered env s first))
            = (case_folded_emails (db s)
               ++ [lower (strip (reg_email first))])%list) as ->.
    { unfold case_folded_emails, registered. cbn [db UserProfile].
      rewrite map_app. cbn [map]. unfold new_user at 1. cbn [Email].
      now rewrite lower_idem. }
    apply NoDup_snoc; [exact Huniq|].
    intros Hin. unfold case_folded_emails in Hin. apply in_map_iff in Hin. destruct Hin as (u & Hu & Hin).
    pose proof (find_none _ _ Ha u Hin) as Hmiss. cbn beta in Hmiss.
    rewrite (Hsees u Hin Hu) in Hmiss. discriminate.
  - intros Hfolded. split.
    + intros u Hin Hu. rewrite (Hfolded u Hin) in Hu. rewrite Hu. exact Hrefl.
    + unfold stored_case_folded, registered. cbn [db UserProfile].
      intros u Hin. apply in_app_or in Hin. destruct Hin as [Hin|[<-|[]]].
      * now apply Hfolded.
      * cbn [new_user Email]. apply lower_idem.
  - intros Hci u Hin Hu. apply Hci. now rewrite Hu, lower_idem.
Qed.

Lemma register_turns_away_registered_email_witness :
  equal_to_itself office (lower (strip (reg_email ann_signs_up)))
  /\ register office POST ann_signs_up nobody_yet
     = (registered office nobody_yet ann_signs_up,
        Return (Redirect "users.login"))
  /\ lower (reg_email ann_signs_up_again) = lower (reg_email ann_signs_up)
  /\ register office POST ann_signs_up_again
       (registered office nobody_yet ann_signs_up)
     = (answered (registered office nobody_yet ann_signs_up)
          [("Email already registered.", "danger")],
        Return (Redirect "users.register")).
Proof.
  split; [reflexivity|]. split; [reflexivity|]. split; [reflexivity|].
  apply (register_turns_away_registered_email office nobody_yet
           (registered office nobody_yet ann_signs_up)
           ann_signs_up ann_signs_up_again);
    [reflexivity|reflexivity|reflexivity|repeat split].
Defined.

(** C9, as worded, fails in its last part.  The table holds one
    account, whose email was stored as [Ann@example.com], and the
    collation is binary.  A registration with [Ann@Example.com] looks
    up [ann@example.com], finds no row and goes through; afterwards two
    rows hold emails that are equal up to letter case. *)
Lemma register_adds_a_second_spelling :
  case_folded_emails (db capital_ann_on_file) = ["ann@example.com"]
  /\ case_folded_unique (db capital_ann_on_file)
  /\ register office POST ann_signs_up capital_ann_on_file
     = (registered office capital_ann_on_file ann_signs_up,
        Return (Redirect "users.login"))
  /\ map Email (UserProfile (db (registered office capital_ann_on_file ann_signs_up)))
     = ["Ann@example.com"; "ann@example.com"]
  /\ ~ case_folded_unique (db (registered office capital_ann_on_file ann_signs_up)).
Proof.
  assert (case_folded_emails (db capital_ann_on_file) = ["ann@example.com"])
    as Hbefore by reflexivity.
  assert (case_folded_emails
            (db (registered office capital_ann_on_file ann_signs_up))
          = ["ann@example.com"; "ann@example.com"]) as Hafter by reflexivity.
  split; [exact Hbefore|]. split.
  - unfold case_folded_unique. rewrite Hbefore.
    constructor; [intros []|constructor].
  - split; [reflexivity|]. split; [reflexivity|].
    unfold case_folded_unique. rewrite Hafter.
    intros Hnd. inversion Hnd as [|x l Hx Hl]; subst. apply Hx. now left.
Qed.

End RegisterFacts.

(** ** Profile update *)

Module ProfileFacts.
Import Text Sql Validators Users StatedUsers UserSamples.
Import LoginFacts.

(** A statement on a closed connection raises and changes nothing. *)
Lemma execute_on_closed_connection {A} (statement : Database -> Database * A)
    (s : State) :
  connected s = false -> execute statement s = (s, Raise InterfaceError).
Proof. intros Hc. unfold execute. now rewrite Hc. Qed.

Lemma profile_post_refused (env : Env) (s : State) (email : string)
    (form : ProfileForm) :
  reachable env = true ->
  nonempty (strip (prof_new_password form)) = true ->
  (negb (String.eqb (strip (prof_new_password form))
                    (strip (prof_confirm_password form)))
   || negb (fst (is_strong_password (strip (prof_new_password form)))))%bool
  = true ->
  profile_post env email form s
  = (answered s [(password_refusal (strip (prof_new_password form))
                    (strip (prof_confirm_password form)), "danger")],
     Raise InterfaceError).
Proof.
  intros Hr Hne Hbad.
  unfold profile_post, password_refusal. run_handler. rewrite Hr. tidy.
  destruct (nonempty (strip (prof_first_name form)));
    destruct (nonempty (strip (prof_last_name form)));
    destruct (or_None (strip (prof_phone form)));
    destruct (or_None (strip (prof_website form)));
    destruct (or_None (strip (prof_business_name form)));
    rewrite Hne;
    destruct (String.eqb (strip (prof_new_password form))
                         (strip (prof_confirm_password form)));
    tidy; try reflexivity;
    cbn [negb orb] in Hbad;
    destruct (is_strong_password (strip (prof_new_password form))) as [ok m];
    cbn [fst snd] in *; destruct ok; try discriminate; reflexivity.
Qed.

(** C10.  On a profile update whose new password is not empty and
    differs from its confirmation or fails the strength check, the
    handler closes the connection, flashes the specific message and then
    runs a statement on the closed connection, which raises: the body
    never comes to render the profile page.  The except branch flashes
    an error and redirects, and the tables are as before: no UPDATE was
    sent. *)
Theorem profile_refused_password_change_raises
    (env : Env) (s : State) (who : Session) (form : ProfileForm) :
  session s = Some who ->
  reachable env = true ->
  nonempty (strip (prof_new_password form)) = true ->
  (negb (String.eqb (strip (prof_new_password form))
                    (strip (prof_confirm_password form)))
   || negb (fst (is_strong_password (strip (prof_new_password form)))))%bool
  = true ->
  let refusal :=
    password_refusal (strip (prof_new_password form))
                     (strip (prof_confirm_password form)) in
  profile_post env (user_email who) form s
    = (answered s [(refusal, "danger")], Raise InterfaceError)
  /\ execute (select_user env (user_email who)) (answered s [(refusal, "danger")])
    = (answered s [(refusal, "danger")], Raise InterfaceError)
  /\ profile env POST form s
    = (answered s [(refusal, "danger"); ("Error: (0, '')", "danger")],
       Return (Redirect "users.profile"))
  /\ db (fst (profile env POST form s)) = db s.
Proof.
  intros Hs Hr Hne Hbad refusal.
  pose proof (profile_post_refused env s (user_email who) form Hr Hne Hbad)
    as Hbody.
  fold refusal in Hbody.
  assert (profile env POST form s
          = (answered s [(refusal, "danger"); ("Error: (0, '')", "danger")],
             Return (Redirect "users.profile"))) as Hall.
  { unfold profile, login_required, get_session, bindH at 1. rewrite Hs.
    unfold try_except. rewrite Hbody.
    unfold flash, bindH, ret, answered. cbn. now rewrite <- app_assoc. }
  split; [exact Hbody|]. split; [reflexivity|]. split; [exact Hall|].
  now rewrite Hall.
Qed.

Lemma profile_refused_password_change_raises_witness :
  session ann_logged_in = Some ann_session
  /\ reachable office = true
  /\ nonempty (strip (prof_new_password mismatched_passwords)) = true
  /\ profile office POST mismatched_passwords ann_logged_in
     = (answered ann_logged_in
          [("Passwords do not match.", "danger"); ("Error: (0, '')", "danger")],
        Return (Redirect "users.profile")).
Proof.
  split; [reflexivity|]. split; [reflexivity|]. split; [reflexivity|].
  apply (profile_refused_password_change_raises office ann_logged_in
           ann_session mismatched_passwords); reflexivity.
Defined.

End ProfileFacts.

(** ** Chat analysis *)

Module ChatFacts.
Import Text Sql Validators Users StatedUsers UserSamples.
Import LoginFacts.

(** Every whitelisted statement is one the server answers, leaving the
    tables alone. *)
Lemma queries_run (env : Env) (d : Database) :
  Forall (fun entry =>
            run_count env (fst (snd entry)) d
            = Return (d, canned_value env d (fst (snd entry))))
         queries.
Proof. unfold canned_value. repeat constructor. Qed.

Lemma first_match_find (env : Env) (question : string)
    (d : Database) (f : list (string * string)) (se : option Session)
    (qs : list (string * (string * string))) :
  Forall (fun entry =>
            run_count env (fst (snd entry)) d
            = Return (d, canned_value env d (fst (snd entry)))) qs ->
  first_match env question qs
    {| db := d; connected := true; flashes := f; session := se |}
  = ({| db := d; connected := true; flashes := f; session := se |},
     Return
       match find (fun entry => contains (fst entry) question) qs with
       | Some (_, (sql, label)) => (Some (canned_value env d sql), label)
       | None => (None, "Not found")
       end).
Proof.
  induction 1 as [|[keyword [sql label]] qs Hrun Hqs IH]; [reflexivity|].
  cbn [first_match find fst].
  destruct (contains keyword question); [|exact IH].
  unfold bindH, execute_checked, ret; cbn [connected db].
  cbn [fst snd] in Hrun. rewrite Hrun. reflexivity.
Qed.

(** C7, as amended.  For a logged-in user and a question that is not
    blank, the endpoint strips and lower-cases the question, goes through
    the five phrases in their fixed order and answers with the label and
    the value of the first phrase the question holds, or, when it holds
    none, with the message listing the phrases; either way it writes one
    audit row of type Analysis whose description is the stripped,
    lower-cased question. *)
Theorem chat_analyze_answers_first_phrase_and_logs
    (env : Env) (s : State) (who : Session) (question_field : option string) :
  session s = Some who ->
  reachable env = true ->
  nonempty (normalised question_field) = true ->
  chat_analyze env question_field s
  = (analysed env s (user_email who) (normalised question_field),
     Return (Jsonify (analysis_answer env (db s) (normalised question_field)) 200)).
Proof.
  intros Hs Hr Hq.
  destruct s as [d c f se]. cbn [session] in Hs. subst se.
  unfold chat_analyze, login_required, get_session, bindH at 1.
  cbn [session]. unfold try_except.
  fold (normalised question_field). rewrite Hq. cbn [negb].
  unfold bindH at 1, get_db. rewrite Hr. cbn [db flashes session].
  unfold bindH at 1, cursor, ret.
  unfold bindH at 1.
  rewrite (first_match_find env (normalised question_field) d f (Some who)
             queries (queries_run env d)).
  unfold analysis_answer, first_phrase, analysed.
  destruct (find _ queries) as [[keyword [sql label]]|]; reflexivity.
Qed.

Lemma chat_analyze_answers_first_phrase_and_logs_witness :
  session ann_logged_in = Some ann_session
  /\ reachable office = true
  /\ nonempty (normalised (Some " How many Merchants? ")) = true
  /\ chat_analyze office (Some " How many Merchants? ") ann_logged_in
     = (analysed office ann_logged_in "ann@example.com" "how many merchants?",
        Return (Jsonify [("answer", JText "Total merchants: 1");
                         ("value", JNumber 1);
                         ("label", JText "Total merchants")] 200)).
Proof.
  split; [reflexivity|]. split; [reflexivity|]. split; [reflexivity|].
  apply (chat_analyze_answers_first_phrase_and_logs office ann_logged_in
           ann_session (Some " How many Merchants? ")); reflexivity.
Defined.

(** C7, as worded, fails.  The audit row holds the stripped, lower-cased
    question, in which the text as it was sent does not occur; and a
    blank question is answered with an error and leaves no audit row. *)
Lemma chat_analyze_logs_normalised_text :
  map ActivityDescription
      (UserActivityLog
         (db (fst (chat_analyze office (Some " How many Merchants? ")
                     ann_logged_in))))
  = [Some "how many merchants?"]
  /\ contains " How many Merchants? " "how many merchants?" = false
  /\ chat_analyze office (Some "   ") ann_logged_in
     = (ann_logged_in, Return (Jsonify [("error", JText "No question")] 400)).
Proof. repeat split; reflexivity. Qed.

End ChatFacts.

(** ** The SQL passthrough *)

Module ViewsFacts.
Import Sql Unicode Views.

Lemma startswith_nonempty (t p : text) :
  p <> [] -> startswith t p = true -> nonempty t = true.
Proof.
  destruct p as [|a p]; [congruence|].
  destruct t; [discriminate|reflexivity].
Qed.

Lemma upper_nonempty (ucd : CharacterData) (t : text) :
  nonempty (upper ucd t) = true -> nonempty t = true.
Proof. destruct t; [discriminate|reflexivity]. Qed.

(** C8.  The statement is the submitted text without the white space
    around it.  The server receives it, unchanged and once, exactly
    when its upper-cased text starts with SELECT and a connection can be
    made, and then the answer carries what the server gave: the rows
    and their number with status 200, or, with status 500, the text of
    the error the server raised or of the error of writing the rows.  A
    statement that is not empty and does not start so is answered with
    the error about SELECT queries, status 400, and the server receives
    nothing.  Nothing else is looked at: whatever follows the prefix
    goes to the server as it is. *)
Theorem query_database_guard_is_the_select_prefix
    (ucd : CharacterData) (be : Backend) (query_field : option text)
    (received : list text) :
  let statement :=
    strip ucd (match query_field with Some q => q | None => [] end) in
  let select := startswith (upper ucd statement) (of_string "SELECT") in
  let outcome := query_database ucd be query_field received in
  fst outcome
    = (received ++ (if (select && reachable be)%bool then [statement] else []))%list
  /\ (select = true -> reachable be = true ->
      snd outcome
      = match run be statement with
        | Return results =>
            match first_unwritable results with
            | None =>
                {| payload := Results results (Z.of_nat (List.length results));
                   status_code := 200 |}
            | Some type_name =>
                {| payload := Failure ("Object of type " ++ type_name
                                       ++ " is not JSON serializable");
                   status_code := 500 |}
            end
        | Raise e => {| payload := Failure (exn_str e); status_code := 500 |}
        end)
  /\ (select = true -> reachable be = false ->
      snd outcome
      = {| payload := Failure "Database connection failed"; status_code := 500 |})
  /\ (select = false -> statement <> [] ->
      snd outcome
      = {| payload := Failure "Only SELECT queries are allowed";
           status_code := 400 |}).
Proof.
  intros statement select outcome. subst outcome.
  unfold query_database. fold statement. fold select.
  assert (select = true -> nonempty statement = true) as Hfull.
  { intros Hs. apply (upper_nonempty ucd).
    apply (startswith_nonempty _ (of_string "SELECT")); [discriminate|exact Hs]. }
  destruct select.
  - rewrite (Hfull eq_refl). cbn [negb andb].
    destruct (reachable be); cbn [negb].
    + unfold cursor_execute, jsonify.
      destruct (run be statement) as [results|e]; cbn [bind];
        [destruct (first_unwritable results)|]; cbn [fst snd];
        (split; [reflexivity|]); (split; [reflexivity|]);
        (split; [discriminate|discriminate]).
    + cbn [fst snd]. rewrite app_nil_r.
      split; [reflexivity|]. split; [discriminate|].
      split; [reflexivity|discriminate].
  - cbn [negb andb]. rewrite app_nil_r.
    destruct (nonempty statement) eqn:Hn; cbn [negb fst snd];
      (split; [reflexivity|]); (split; [discriminate|]);
      (split; [discriminate|]); intros _ Hne.
    + reflexivity.
    + destruct statement; [congruence|discriminate].
Qed.

(** The guard at work.  A statement after a no-break space (160), and
    one that starts with the long s (383), whose upper case is [S], are
    handed to the server; so is a SELECT followed by a second
    statement, as it stands; a DELETE is refused and the server receives
    nothing; rows that hold the bytes of a binary column are fetched
    and then answered with status 500. *)
Lemma query_database_examples :
  query_database TextSamples.excerpt TextSamples.one_row
    (Some ([160%N] ++ of_string "select 1")%list) []
  = ([of_string "select 1"],
     {| payload := Results [[("1", Written "1")]] 1; status_code := 200 |})
  /\ query_database TextSamples.excerpt TextSamples.one_row
       (Some ([383%N] ++ of_string "elect 1")%list) []
     = ([([383%N] ++ of_string "elect 1")%list],
        {| payload := Results [[("1", Written "1")]] 1; status_code := 200 |})
  /\ fst (query_database TextSamples.excerpt TextSamples.one_row
            (Some (of_string "select 1; drop table UserProfile")) [])
     = [of_string "select 1; drop table UserProfile"]
  /\ query_database TextSamples.excerpt TextSamples.one_row
       (Some (of_string " delete from UserProfile")) []
     = ([], {| payload := Failure "Only SELECT queries are allowed";
               status_code := 400 |})
  /\ query_database TextSamples.excerpt TextSamples.one_blob
       (Some (of_string "select id, photo from product")) []
     = ([of_string "select id, photo from product"],
        {| payload := Failure "Object of type bytes is not JSON serializable";
           status_code := 500 |}).
Proof. repeat split; reflexivity. Qed.

End ViewsFacts.

(** ** The email pattern *)

Module EmailFacts.
Import Text Sql Validators StatedMore.

Lemma span_spec (p : ascii -> bool) (l : list ascii) :
  let (a, b) := span p l in
  l = (a ++ b)%list /\ forallb p a = true
  /\ match b with [] => True | c :: _ => p c = false end.
Proof.
  induction l as [|c r IH]; simpl; [repeat split|].
  destruct (p c) eqn:Hc.
  - destruct (span p r) as [a b]. destruct IH as (-> & Ha & Hb).
    simpl. rewrite Hc, Ha. repeat split. exact Hb.
  - repeat split. exact Hc.
Qed.

Lemma span_app (p : ascii -> bool) (a b : list ascii) :
  forallb p a = true ->
  match b with [] => True | c :: _ => p c = false end ->
  span p (a ++ b) = (a, b).
Proof.
  induction a as [|c a IH]; simpl; intros Ha Hb.
  - destruct b as [|c b]; [reflexivity|]. simpl. now rewrite Hb.
  - apply andb_true_iff in Ha. destruct Ha as [Hc Ha].
    rewrite Hc, (IH Ha Hb). reflexivity.
Qed.

Lemma forallb_rev {A} (p : A -> bool) (l : list A) :
  forallb p (rev l) = forallb p l.
Proof.
  induction l as [|x l IH]; [reflexivity|].
  simpl. rewrite forallb_app, IH. simpl. rewrite andb_true_r. apply andb_comm.
Qed.

Lemma at_sign_not_local : local_char "@" = false.
Proof. reflexivity. Qed.

Lemma dot_not_alpha : is_alpha "." = false.
Proof. reflexivity. Qed.

(** X1.  [is_valid_email] accepts a text exactly when, a final newline
    left aside, it is a local part, an at sign, a domain, a dot and a
    top-level segment, in this order and with nothing else: the local
    part and the domain are not empty and hold only the characters
    allowed there, the segment holds two letters or more and only
    letters. *)
Theorem is_valid_email_shape (email : string) :
  is_valid_email email = true <->
  exists local dom tld,
    chomp (list_ascii_of_string email)
    = (local ++ "@"%char :: dom ++ "."%char :: tld)%list
    /\ email_shape local dom tld.
Proof.
  unfold is_valid_email, email_shape.
  set (s := chomp (list_ascii_of_string email)).
  split.
  - pose proof (span_spec local_char s) as Hs.
    destruct (span local_char s) as [local rest].
    destruct Hs as (Hs & Hlocal & _).
    destruct local as [|l0 local]; [discriminate|].
    destruct rest as [|at_sign host]; [discriminate|].
    destruct (Ascii.eqb_spec at_sign "@") as [->|]; [|discriminate].
    pose proof (span_spec is_alpha (rev host)) as Hh.
    destruct (span is_alpha (rev host)) as [tld more].
    destruct Hh as (Hh & Htld & _).
    destruct more as [|dot dom]; [discriminate|].
    intros Hc.
    apply andb_true_iff in Hc. destruct Hc as [Hc Hdom].
    apply andb_true_iff in Hc. destruct Hc as [Hc Hne].
    apply andb_true_iff in Hc. destruct Hc as [Hdot Hlen].
    apply Ascii.eqb_eq in Hdot. subst dot.
    exists (l0 :: local), (rev dom), (rev tld).
    split.
    + rewrite Hs. f_equal. f_equal.
      rewrite <- (rev_involutive host), Hh, rev_app_distr. simpl.
      now rewrite <- app_assoc.
    + split; [discriminate|]. split; [exact Hlocal|].
      split.
      * intros Hnil. apply (f_equal (@rev ascii)) in Hnil.
        rewrite rev_involutive in Hnil. subst dom. discriminate.
      * split; [now rewrite forallb_rev|].
        split; [rewrite length_rev; now apply Nat.leb_le|].
        now rewrite forallb_rev.
  - intros (local & dom & tld & Hs & Hl & Hlocal & Hd & Hdom & Hlen & Htld).
    rewrite Hs.
    rewrite (span_app local_char local ("@"%char :: dom ++ "."%char :: tld)
               Hlocal at_sign_not_local).
    destruct local as [|l0 local]; [contradiction|].
    rewrite Ascii.eqb_refl.
    replace (rev (dom ++ "."%char :: tld))
      with (rev tld ++ "."%char :: rev dom)%list
      by (rewrite rev_app_distr; simpl; now rewrite <- app_assoc).
    rewrite (span_app is_alpha (rev tld) ("."%char :: rev dom));
      [|now rewrite forallb_rev|exact dot_not_alpha].
    rewrite Ascii.eqb_refl, !length_rev, forallb_rev, Hdom.
    apply Nat.leb_le in Hlen. rewrite Hlen.
    destruct dom; [contradiction|reflexivity].
Qed.

End EmailFacts.

(** ** Keys, inserts, updates and what archiving hides *)

Module ProductFacts.
Import Text Sql ProductModel Stated Samples SqlFacts ProductWrites StatedMore.
Import MoreSamples.
Import SearchFacts IdleStockFacts.

Lemma find_iff {A} (f : A -> bool) (l : list A) :
  (exists x, find f l = Some x) <-> exists x, In x l /\ f x = true.
Proof.
  split.
  - intros [x Hx]. exists x. now apply find_some in Hx.
  - intros (x & Hin & Hf).
    destruct (find f l) as [y|] eqn:Hy; [now exists y|].
    rewrite (find_none _ _ Hy x Hin) in Hf. discriminate.
Qed.

(** X2.  [sku_exists] answers [true] exactly when some row holds the SKU
    and, if a product is excluded, is not that product.  A product id of
    0 excludes nothing: it is read like [None]. *)
Theorem sku_exists_iff (srv : Server) (table : list Product) (sku : string)
    (exclude_product_id : option Z) :
  (sku_exists srv table sku exclude_product_id = true <->
   exists r s,
     In r table /\ SKU r = Some s /\ text_eq srv s sku = true
     /\ match exclude_product_id with
        | Some n => n = 0 \/ product_id r <> n
        | None => True
        end)
  /\ sku_exists srv table sku (Some 0) = sku_exists srv table sku None.
Proof.
  split; [|reflexivity].
  assert (forall r, is_true (cmp3 (text_eq srv) (SKU r) (Some sku)) = true <->
                    exists s, SKU r = Some s /\ text_eq srv s sku = true) as Hsame.
  { intros r. destruct (SKU r) as [s|]; simpl.
    - destruct (text_eq srv s sku) eqn:E; split.
      + intros _. now exists s.
      + reflexivity.
      + discriminate.
      + intros (s' & [= <-] & H). congruence.
    - split; [discriminate|intros (s & H & _); discriminate]. }
  unfold sku_exists.
  destruct exclude_product_id as [n|]; [destruct (Z.eqb_spec n 0) as [->|Hn]|];
    cbn [negb].
  - split.
    + intros H. destruct (find _ table) as [r|] eqn:Hf; [|discriminate].
      apply find_some in Hf. destruct Hf as [Hin Hr].
      apply Hsame in Hr. destruct Hr as (s & Hs & Ht).
      exists r, s. repeat split; auto.
    + intros (r & s & Hin & Hs & Ht & _).
      destruct (find _ table) as [y|] eqn:Hf; [reflexivity|].
      pose proof (find_none _ _ Hf r Hin) as Hno. cbv beta in Hno.
      assert (is_true (cmp3 (text_eq srv) (SKU r) (Some sku)) = true) as Hyes
        by (apply Hsame; now exists s).
      congruence.
  - split.
    + intros H. destruct (find _ table) as [r|] eqn:Hf; [|discriminate].
      apply find_some in Hf. destruct Hf as [Hin Hr].
      apply andb_true_iff in Hr. destruct Hr as [Hr Hid].
      apply Hsame in Hr. destruct Hr as (s & Hs & Ht).
      apply negb_true_iff, Z.eqb_neq in Hid.
      exists r, s. repeat split; auto.
    + intros (r & s & Hin & Hs & Ht & Hex).
      destruct Hex as [Hex|Hex]; [contradiction|].
      destruct (find _ table) as [y|] eqn:Hf; [reflexivity|].
      pose proof (find_none _ _ Hf r Hin) as Hno. cbv beta in Hno.
      assert (is_true (cmp3 (text_eq srv) (SKU r) (Some sku)) = true) as Hyes
        by (apply Hsame; now exists s).
      apply Z.eqb_neq in Hex. rewrite Hyes, Hex in Hno. discriminate.
  - split.
    + intros H. destruct (find _ table) as [r|] eqn:Hf; [|discriminate].
      apply find_some in Hf. destruct Hf as [Hin Hr].
      apply Hsame in Hr. destruct Hr as (s & Hs & Ht).
      exists r, s. repeat split; auto.
    + intros (r & s & Hin & Hs & Ht & _).
      destruct (find _ table) as [y|] eqn:Hf; [reflexivity|].
      pose proof (find_none _ _ Hf r Hin) as Hno. cbv beta in Hno.
      assert (is_true (cmp3 (text_eq srv) (SKU r) (Some sku)) = true) as Hyes
        by (apply Hsame; now exists s).
      congruence.
Qed.

Lemma fetch_product_app (table : list Product) (r : Product) (id : Z) :
  fetch_product (table ++ [r]) id
  = match fetch_product table id with
    | Some x => Some x
    | None => if product_id r =? id then Some r else None
    end.
Proof.
  unfold fetch_product. induction table as [|x table IH]; simpl.
  - reflexivity.
  - destruct (product_id x =? id); [reflexivity|exact IH].
Qed.

Lemma key_free_fetch (table : list Product) (id : Z) :
  key_free table id = true -> fetch_product table id = None.
Proof.
  unfold key_free, fetch_product. intros H. apply negb_true_iff in H.
  induction table as [|x table IH]; simpl in *; [reflexivity|].
  apply orb_false_iff in H. destruct H as [Hx H].
  rewrite Hx. now apply IH.
Qed.

(** X3.  When the price and the quantity of the payload convert and the
    key the server gives is not in use, [insert_product] returns that
    key, [fetch_product] of it gives back the payload as a product that
    is neither archived nor sold, created and updated now, and every
    other key fetches what it fetched before. *)
Theorem insert_then_fetch (srv : Server) (table : list Product) (new_id : Z)
    (payload : Payload) (q : Q) (n : Z) :
  p_price payload = Price q ->
  p_quantity payload = IntOf n ->
  key_free table new_id = true ->
  exists table',
    insert_product srv table new_id payload = Done (table', new_id)
    /\ fetch_product table' new_id = Some (inserted_row srv new_id payload q n)
    /\ (forall id, id <> new_id ->
                   fetch_product table' id = fetch_product table id).
Proof.
  intros Hp Hq Hfree.
  unfold insert_product, stored_values, converted. rewrite Hp, Hq. cbn.
  eexists. split; [reflexivity|]. split.
  - rewrite fetch_product_app, (key_free_fetch table new_id Hfree).
    cbn. now rewrite Z.eqb_refl.
  - intros id Hid. rewrite fetch_product_app. cbn.
    destruct (fetch_product table id); [reflexivity|].
    apply not_eq_sym, Z.eqb_neq in Hid. now rewrite Hid.
Qed.

Lemma insert_then_fetch_witness :
  p_price floor_lamp = Price (60 # 1)
  /\ p_quantity floor_lamp = IntOf 2
  /\ key_free shelf 3 = true
  /\ exists table',
       insert_product today shelf 3 floor_lamp = Done (table', 3)
       /\ fetch_product table' 3
          = Some (inserted_row today 3 floor_lamp (60 # 1) 2)
       /\ (forall id, id <> 3 -> fetch_product table' id = fetch_product shelf id).
Proof.
  split; [reflexivity|]. split; [reflexivity|]. split; [reflexivity|].
  apply (insert_then_fetch today shelf 3 floor_lamp (60 # 1) 2); reflexivity.
Defined.

Lemma update_product_rows (srv : Server) (table : list Product) (id : Z)
    (payload : Payload) (q : Q) (n : Z) :
  p_price payload = Price q ->
  p_quantity payload = IntOf n ->
  update_product srv table id payload
  = Done (map (fun r => if product_id r =? id
                        then updated_row srv payload q n r else r) table).
Proof.
  intros Hp Hq. unfold update_product, stored_values, converted. now rewrite Hp, Hq.
Qed.

Lemma fetch_product_map (f : Product -> Product) (table : list Product) (id : Z) :
  (forall r, product_id (f r) = product_id r) ->
  fetch_product (map f table) id = option_map f (fetch_product table id).
Proof.
  intros Hid. unfold fetch_product.
  induction table as [|x table IH]; simpl; [reflexivity|].
  rewrite Hid. destruct (product_id x =? id); [reflexivity|exact IH].
Qed.

(** The rows of the idle report come from rows of the table that are
    stale. *)
Lemma idle_row_origin (srv : Server) (table : list Product) (days : Z)
    (row : IdleRow) :
  In row (fetch_idle_stock srv table days) ->
  exists r, In r table /\ stale srv days r = true /\ row = idle_row srv r.
Proof.
  unfold fetch_idle_stock. intros Hin.
  apply (Permutation_in _ (order_by_perm idlest_first _)) in Hin.
  apply in_map_iff in Hin. destruct Hin as (r & <- & Hr).
  apply filter_In in Hr. destruct Hr as [Hr Hs].
  rewrite idle_where_stale in Hs. now exists r.
Qed.

(** X4.  When the price and the quantity convert, [update_product]
    rewrites the seven fields of the rows with the given id from the
    payload and stamps them updated now; the keys, the archived flags
    and the creation dates of all rows stay, and every other key fetches
    what it fetched before.  A product just updated is in no idle report
    for a number of days that is not negative. *)
Theorem update_product_rewrites_one_product
    (srv : Server) (table : list Product) (id : Z) (payload : Payload)
    (q : Q) (n : Z) :
  p_price payload = Price q ->
  p_quantity payload = IntOf n ->
  exists table',
    update_product srv table id payload = Done table'
    /\ fetch_product table' id
       = option_map (updated_row srv payload q n) (fetch_product table id)
    /\ (forall other, other <> id ->
                      fetch_product table' other = fetch_product table other)
    /\ map product_id table' = map product_id table
    /\ map archived table' = map archived table
    /\ map created_at table' = map created_at table
    /\ (forall days, 0 <= days ->
          ~ In id (map idle_product_id (fetch_idle_stock srv table' days))).
Proof.
  intros Hp Hq.
  rewrite (update_product_rows srv table id payload q n Hp Hq).
  eexists. split; [reflexivity|].
  set (f := fun r => if product_id r =? id
                     then updated_row srv payload q n r else r).
  assert (forall r, product_id (f r) = product_id r) as Hid
    by (intros r; unfold f; now destruct (product_id r =? id)).
  split; [|split; [|split; [|split; [|split]]]].
  - rewrite (fetch_product_map f table id Hid).
    unfold fetch_product.
    destruct (find (fun r => product_id r =? id) table) as [r|] eqn:Hf;
      [|reflexivity].
    apply find_some in Hf. destruct Hf as [_ Hr].
    simpl. unfold f. now rewrite Hr.
  - intros other Hother. rewrite (fetch_product_map f table other Hid).
    unfold fetch_product.
    destruct (find (fun r => product_id r =? other) table) as [r|] eqn:Hf;
      [|reflexivity].
    apply find_some in Hf. destruct Hf as [_ Hr].
    apply Z.eqb_eq in Hr. simpl. unfold f.
    destruct (Z.eqb_spec (product_id r) id); [congruence|reflexivity].
  - rewrite map_map. apply map_ext. exact Hid.
  - rewrite map_map. apply map_ext. intros r. unfold f.
    now destruct (product_id r =? id).
  - rewrite map_map. apply map_ext. intros r. unfold f.
    now destruct (product_id r =? id).
  - intros days Hdays Hin.
    apply in_map_iff in Hin. destruct Hin as (row & Hrow & Hin).
    apply idle_row_origin in Hin. destruct Hin as (r' & Hr' & Hstale & ->).
    apply in_map_iff in Hr'. destruct Hr' as (r & <- & _).
    simpl in Hrow. rewrite Hid in Hrow.
    unfold f in Hstale. apply Z.eqb_eq in Hrow. rewrite Hrow in Hstale.
    unfold stale in Hstale. simpl in Hstale.
    apply andb_true_iff in Hstale. destruct Hstale as [_ Hlt].
    apply Z.ltb_lt in Hlt. unfold day in Hlt. lia.
Qed.

Lemma update_product_rewrites_one_product_witness :
  p_price floor_lamp = Price (60 # 1)
  /\ p_quantity floor_lamp = IntOf 2
  /\ exists table',
       update_product today shelf 1 floor_lamp = Done table'
       /\ fetch_product table' 1
          = option_map (updated_row today floor_lamp (60 # 1) 2)
                       (fetch_product shelf 1)
       /\ (forall other, other <> 1 ->
                         fetch_product table' other = fetch_product shelf other)
       /\ map product_id table' = map product_id shelf
       /\ map archived table' = map archived shelf
       /\ map created_at table' = map created_at shelf
       /\ (forall days, 0 <= days ->
             ~ In 1 (map idle_product_id (fetch_idle_stock today table' days))).
Proof.
  split; [reflexivity|]. split; [reflexivity|].
  apply (update_product_rewrites_one_product today shelf 1 floor_lamp (60 # 1) 2);
    reflexivity.
Defined.

Lemma search_products_refuses (srv : Server) (table : list Product)
    (filters : Filters) (page per_page : Z) :
  (finite_or_absent (f_min_price filters)
   && finite_or_absent (f_max_price filters))%bool = false ->
  raises (search_products srv table filters page per_page) = true.
Proof.
  unfold search_products, build_where, text_clauses.
  destruct (truthy (f_sku filters)), (truthy (f_category filters)),
    (truthy (f_keyword filters)), (f_min_price filters), (f_max_price filters);
    try discriminate; intros _; vm_compute; reflexivity.
Qed.

Lemma search_products_returns (srv : Server) (table : list Product)
    (filters : Filters) (page per_page : Z) (rows : list Product) (total : Z) :
  search_products srv table filters page per_page = Return (rows, total) ->
  0 <= per_page
  /\ 0 <= (page - 1) * per_page
  /\ rows = firstn (Z.to_nat per_page)
              (skipn (Z.to_nat ((page - 1) * per_page))
                 (order_by updated_first (filter (matches srv filters) table)))
  /\ total = Z.of_nat (List.length (filter (matches srv filters) table)).
Proof.
  intros Hret.
  destruct (finite_or_absent (f_min_price filters)
            && finite_or_absent (f_max_price filters))%bool
    eqn:Hok.
  - apply andb_true_iff in Hok. destruct Hok as [Hmn Hmx].
    rewrite (search_products_value srv table filters page per_page Hmn Hmx) in Hret.
    unfold page_result in Hret.
    destruct (limit_offset per_page ((page - 1) * per_page)
                (order_by updated_first (filter (matches srv filters) table)))
      as [taken|e] eqn:Hl; [|discriminate].
    cbn [bind] in Hret. injection Hret as <- <-.
    apply limit_offset_returns in Hl. destruct Hl as ([Hp _] & [Ho _] & ->).
    repeat split; assumption.
  - pose proof (search_products_refuses srv table filters page per_page Hok) as Hr.
    rewrite Hret in Hr. discriminate.
Qed.

Lemma in_firstn {A} (n : nat) (l : list A) (x : A) :
  In x (firstn n l) -> In x l.
Proof.
  revert l; induction n as [|n IH]; intros l; simpl; [contradiction|].
  destruct l as [|y l]; [contradiction|].
  intros [->|H]; [now left|right; now apply IH].
Qed.

Lemma in_skipn {A} (n : nat) (l : list A) (x : A) :
  In x (skipn n l) -> In x l.
Proof.
  revert l; induction n as [|n IH]; intros l; simpl; [auto|].
  destruct l as [|y l]; [contradiction|].
  intros H. right. now apply IH.
Qed.

Lemma returned_rows_match (srv : Server) (table : list Product)
    (filters : Filters) (page per_page : Z) (rows : list Product) (total : Z) :
  search_products srv table filters page per_page = Return (rows, total) ->
  forall r, In r rows ->
            In r table /\ archived r = false /\ matches srv filters r = true.
Proof.
  intros Hret r Hin.
  destruct (search_products_returns _ _ _ _ _ _ _ Hret) as (Hp & Ho & -> & ->).
  apply in_firstn, in_skipn in Hin.
  apply (Permutation_in _ (order_by_perm updated_first _)) in Hin.
  apply filter_In in Hin. destruct Hin as [Hin Hm].
  repeat split; try assumption.
  unfold matches in Hm.
  repeat (apply andb_true_iff in Hm; destruct Hm as [Hm _]).
  now apply negb_true_iff in Hm.
Qed.

(** X5.  Whatever [search_products] returns, each row is a row of the
    table that is not archived and on which every filter that is set
    holds; there are at most [per_page] rows and at most [total]; and
    [total] is the number of matching rows, the same for every page. *)
Theorem search_products_returns_matching_rows
    (srv : Server) (table : list Product) (filters : Filters)
    (page per_page : Z) (rows : list Product) (total : Z) :
  search_products srv table filters page per_page = Return (rows, total) ->
  (forall r, In r rows ->
             In r table /\ archived r = false /\ matches srv filters r = true)
  /\ Z.of_nat (List.length rows) <= per_page
  /\ Z.of_nat (List.length rows) <= total
  /\ total = Z.of_nat (List.length (filter (matches srv filters) table)).
Proof.
  intros Hret.
  split; [exact (returned_rows_match _ _ _ _ _ _ _ Hret)|].
  destruct (search_products_returns _ _ _ _ _ _ _ Hret) as (Hp & Ho & -> & ->).
  split; [|split; [|reflexivity]].
  - pose proof (firstn_le_length (Z.to_nat per_page)
                  (skipn (Z.to_nat ((page - 1) * per_page))
                     (order_by updated_first (filter (matches srv filters) table)))).
    lia.
  - rewrite length_firstn, length_skipn.
    rewrite (Permutation_length (order_by_perm updated_first _)). lia.
Qed.

Lemma search_products_returns_matching_rows_witness :
  search_products today shelf no_filters 1 1 = Return ([chair], 2)
  /\ (forall r, In r [chair] ->
        In r shelf /\ archived r = false /\ matches today no_filters r = true)
  /\ Z.of_nat (List.length [chair]) <= 1
  /\ Z.of_nat (List.length [chair]) <= 2
  /\ 2 = Z.of_nat (List.length (filter (matches today no_filters) shelf)).
Proof.
  split; [reflexivity|].
  apply (search_products_returns_matching_rows today shelf no_filters 1 1
           [chair] 2).
  reflexivity.
Defined.

(** X6.  Archiving is a soft delete.  The product is still fetched by its
    id, all its fields kept but the archived flag, now set, and the
    time of update; and from then on no search, whatever its filters and
    page, and no idle report returns it. *)
Theorem archived_product_is_kept_but_hidden
    (srv : Server) (table : list Product) (id : Z) :
  fetch_product (archive_product srv table id) id
  = option_map (archived_row srv) (fetch_product table id)
  /\ (forall srv' filters page per_page rows total,
        search_products srv' (archive_product srv table id) filters page per_page
        = Return (rows, total) ->
        ~ In id (map product_id rows))
  /\ (forall srv' days,
        ~ In id (map idle_product_id
                   (fetch_idle_stock srv' (archive_product srv table id) days))).
Proof.
  set (f := fun r => if product_id r =? id then archived_row srv r else r).
  assert (archive_product srv table id = map f table) as Harch by reflexivity.
  assert (forall r, product_id (f r) = product_id r) as Hid
    by (intros r; unfold f; now destruct (product_id r =? id)).
  assert (forall r', In r' (map f table) -> product_id r' = id ->
                     archived r' = true) as Hflag.
  { intros r' Hin Hr'. apply in_map_iff in Hin. destruct Hin as (r & <- & _).
    rewrite Hid in Hr'. unfold f. apply Z.eqb_eq in Hr'. now rewrite Hr'. }
  rewrite Harch. split; [|split].
  - rewrite (fetch_product_map f table id Hid). unfold fetch_product.
    destruct (find (fun r => product_id r =? id) table) as [r|] eqn:Hf;
      [|reflexivity].
    apply find_some in Hf. destruct Hf as [_ Hr]. simpl. unfold f.
    now rewrite Hr.
  - intros srv' filters page per_page rows total Hret Hin.
    apply in_map_iff in Hin. destruct Hin as (r & Hr & Hin).
    destruct (returned_rows_match _ _ _ _ _ _ _ Hret r Hin)
      as (Htab & Hnot & _).
    rewrite (Hflag r Htab Hr) in Hnot. discriminate.
  - intros srv' days Hin.
    apply in_map_iff in Hin. destruct Hin as (row & Hrow & Hin).
    apply idle_row_origin in Hin. destruct Hin as (r & Hr & Hstale & ->).
    simpl in Hrow. unfold stale in Hstale.
    rewrite (Hflag r Hr Hrow) in Hstale. discriminate.
Qed.

Lemma count_positive {A} (f : A -> bool) (l : list A) :
  negb (Z.of_nat (List.length (filter f l)) =? 0) = true <->
  exists x, In x l /\ f x = true.
Proof.
  rewrite negb_true_iff, Z.eqb_neq. split.
  - intros Hn. destruct (filter f l) as [|x r] eqn:Hf; [contradiction|].
    exists x. apply filter_In. rewrite Hf. now left.
  - intros (x & Hin & Hx) Hz.
    assert (In x (filter f l)) as Hxf by (now apply filter_In).
    destruct (filter f l); [contradiction|discriminate].
Qed.

(** X7.  [product_has_open_orders] answers [true] exactly when its three
    statements go through, both order tables are listed for the schema,
    and some order item of the product belongs to an order whose status,
    read as [open] when it is null, is none of completed, closed and
    cancelled. *)
Theorem product_has_open_orders_iff (srv : Server) (db : OrderTables) (pid : Z) :
  product_has_open_orders srv db pid = true <->
  (forall n, (n <= 2)%nat -> fails db n = false)
  /\ (exists t, In t (listed db) /\ text_eq srv t "orders" = true)
  /\ (exists t, In t (listed db) /\ text_eq srv t "order_items" = true)
  /\ exists oi o,
       In oi (order_items db) /\ In o (orders db)
       /\ order_id oi = id o /\ item_product_id oi = pid
       /\ forall closed, In closed ["completed"; "closed"; "cancelled"] ->
            text_eq srv (match status o with Some st => st | None => "open" end)
                    closed = false.
Proof.
  assert (forall o, is_open srv o = true <->
            forall closed, In closed ["completed"; "closed"; "cancelled"] ->
              text_eq srv (match status o with Some st => st | None => "open" end)
                      closed = false) as Hopen.
  { intros o. unfold is_open. rewrite negb_true_iff. split.
    - intros Hex closed Hin.
      destruct (text_eq srv _ closed) eqn:E; [|reflexivity].
      assert (existsb (text_eq srv match status o with
                                   | Some st => st
                                   | None => "open"
                                   end) ["completed"; "closed"; "cancelled"]
              = true) as Hyes by (apply existsb_exists; now exists closed).
      congruence.
    - intros Hall.
      destruct (existsb _ _) eqn:E; [|reflexivity].
      apply existsb_exists in E. destruct E as (closed & Hin & Ht).
      rewrite (Hall closed Hin) in Ht. discriminate. }
  assert (open_order_count srv db pid <> 0 <->
          exists oi o,
            In oi (order_items db) /\ In o (orders db)
            /\ order_id oi = id o /\ item_product_id oi = pid
            /\ is_open srv o = true) as Hcount.
  { unfold open_order_count.
    rewrite <- Z.eqb_neq, <- negb_true_iff, count_positive. split.
    - intros ([oi o] & Hin & Hc). apply in_prod_iff in Hin.
      apply andb_true_iff in Hc. destruct Hc as [Hc Ho].
      apply andb_true_iff in Hc. destruct Hc as [H1 H2].
      apply Z.eqb_eq in H1, H2.
      exists oi, o. tauto.
    - intros (oi & o & Hoi & Ho & H1 & H2 & H3).
      exists (oi, o). split; [now apply in_prod|].
      apply Z.eqb_eq in H1, H2. now rewrite H1, H2, H3. }
  unfold product_has_open_orders, open_orders_check, _table_exists, execute.
  split.
  - destruct (fails db 0) eqn:F0; cbn [bind]; [discriminate|].
    destruct (negb (Z.of_nat (List.length
                (filter (fun t => text_eq srv t "orders") (listed db))) =? 0))
      eqn:T0; cbn [bind negb]; [|discriminate].
    destruct (fails db 1) eqn:F1; cbn [bind]; [discriminate|].
    destruct (negb (Z.of_nat (List.length
                (filter (fun t => text_eq srv t "order_items") (listed db))) =? 0))
      eqn:T1; cbn [bind negb]; [|discriminate].
    destruct (fails db 2) eqn:F2; cbn [bind]; [discriminate|].
    intros Hc. apply negb_true_iff, Z.eqb_neq, Hcount in Hc.
    apply count_positive in T0, T1.
    split; [|split; [exact T0|split; [exact T1|]]].
    + intros n Hn. destruct n as [|[|[|n]]]; try assumption; lia.
    + destruct Hc as (oi & o & H1 & H2 & H3 & H4 & H5).
      exists oi, o. repeat split; try assumption. now apply Hopen.
  - intros (Hok & T0 & T1 & (oi & o & H1 & H2 & H3 & H4 & H5)).
    rewrite (Hok 0%nat), (Hok 1%nat), (Hok 2%nat) by lia. cbn [bind].
    apply count_positive in T0, T1. rewrite T0. cbn [bind negb].
    rewrite T1. cbn [bind negb].
    apply negb_true_iff, Z.eqb_neq, Hcount.
    exists oi, o. repeat split; try assumption. now apply Hopen.
Qed.

End ProductFacts.

(** ** Sessions: the gate, login, logout and deactivation *)

Module SessionFacts.
Import Text Sql Validators Users StatedUsers UserSamples UserPages StatedMore.
Import LoginFacts.

(** X8.  Without a session no protected endpoint opens a connection or
    writes anything: profile, deactivation, logout, dashboard, metrics
    and chat analysis flash the request to log in and redirect to the
    login page, and the list of recent users does the same. *)
Theorem endpoints_turn_away_without_session
    (env : Env) (s : State) (m : method) (form : ProfileForm)
    (question_field : option string) :
  session s = None ->
  profile env m form s = turned_away s
  /\ deactivate env s = turned_away s
  /\ logout env s = turned_away s
  /\ dashboard s = turned_away s
  /\ metrics env s = turned_away s
  /\ chat_analyze env question_field s = turned_away s
  /\ recent_users env s
     = (noted s [("Please log in first.", "warning")],
        Return (Turned (Redirect "users.login"))).
Proof.
  intros Hs.
  unfold profile, deactivate, logout, dashboard, metrics, chat_analyze,
    recent_users, login_required, login_required_data, turned_away,
    get_session, bindH.
  rewrite Hs. repeat split.
Qed.

Lemma endpoints_turn_away_without_session_witness :
  session two_accounts = None
  /\ deactivate office two_accounts = turned_away two_accounts.
Proof.
  split; [reflexivity|].
  apply (endpoints_turn_away_without_session office two_accounts POST
           mismatched_passwords None); reflexivity.
Defined.

(** X9.  A login with the email of an active account and a password
    that checks sets up the session (the stripped, lower-cased email,
    first and last name, role, permanent), stamps the rows of that email
    with the time of login, adds one audit row, welcomes the user and
    redirects to the dashboard; no row is added or removed and no email,
    password or status is touched. *)
Theorem login_sets_up_the_session
    (env : Env) (s : State) (form : LoginForm) (u : User) :
  reachable env = true ->
  account env (db s) (login_email form) = Some u ->
  check_password_hash env (UPassword u) (login_password form) = true ->
  Status u = "active" ->
  login env POST form s
    = (logged_in env s (login_email form) u, Return (Redirect "users.dashboard"))
  /\ map (fun v => (Email v, UPassword v, Status v))
         (UserProfile (db (logged_in env s (login_email form) u)))
     = map (fun v => (Email v, UPassword v, Status v)) (UserProfile (db s)).
Proof.
  intros Hr Ha Hc Hs. split.
  - unfold login, logged_in. run_handler. rewrite Hr. tidy.
    unfold select_user. unfold account in Ha. rewrite Ha. tidy.
    rewrite Hc. tidy. apply String.eqb_eq in Hs. rewrite Hs. reflexivity.
  - unfold logged_in; cbn [db UserProfile]. rewrite map_map. apply map_ext.
    intros v. now destruct (text_eq (srv env) (Email v) _).
Qed.

Lemma login_sets_up_the_session_witness :
  reachable office = true
  /\ account office (db two_accounts) " Ann@Example.com " = Some ann
  /\ check_password_hash office (UPassword ann) "Abcdef1!" = true
  /\ Status ann = "active"
  /\ login office POST
       {| login_email := " Ann@Example.com "; login_password := "Abcdef1!" |}
       two_accounts
     = (logged_in office two_accounts " Ann@Example.com " ann,
        Return (Redirect "users.dashboard")).
Proof.
  split; [reflexivity|]. split; [reflexivity|]. split; [reflexivity|].
  split; [reflexivity|].
  apply (login_sets_up_the_session office two_accounts
           {| login_email := " Ann@Example.com "; login_password := "Abcdef1!" |}
           ann); reflexivity.
Defined.

(** X10.  A logout always ends the session: whether or not the
    database can be reached it clears the session, flashes the farewell
    and redirects to the login page; the audit row is written when the
    database can be reached, and the accounts are never touched. *)
Theorem logout_always_clears_the_session
    (env : Env) (s : State) (who : Session) :
  session s = Some who ->
  logout env s = (logged_out env s who, Return (Redirect "users.login"))
  /\ session (logged_out env s who) = None
  /\ UserProfile (db (logged_out env s who)) = UserProfile (db s).
Proof.
  intros Hs. split; [|split; [reflexivity|]].
  - destruct s as [d c f se]. cbn [session] in Hs. subst se.
    unfold logout, logged_out, login_required. run_handler.
    destruct (reachable env); reflexivity.
  - unfold logged_out; cbn [db]. now destruct (reachable env).
Qed.

Lemma logout_always_clears_the_session_witness :
  session ann_logged_in = Some ann_session
  /\ logout office ann_logged_in
     = (logged_out office ann_logged_in ann_session,
        Return (Redirect "users.login")).
Proof.
  split; [reflexivity|].
  apply (logout_always_clears_the_session office ann_logged_in ann_session);
    reflexivity.
Defined.

Lemma find_map_same {A} (p : A -> bool) (f : A -> A) (l : list A) :
  (forall v, p (f v) = p v) ->
  find p (map f l) = option_map f (find p l).
Proof.
  intros Hp. induction l as [|x l IH]; simpl; [reflexivity|].
  rewrite Hp. destruct (p x); [reflexivity|exact IH].
Qed.

Lemma deactivate_value (env : Env) (s : State) (who : Session) :
  session s = Some who ->
  reachable env = true ->
  deactivate env s = (deactivated env s who, Return (Redirect "users.login")).
Proof.
  intros Hs Hr.
  destruct s as [d c f se]. cbn [session] in Hs. subst se.
  unfold deactivate, deactivated, login_required. run_handler.
  rewrite Hr. reflexivity.
Qed.

(** X11.  Deactivation is a soft delete that locks the account out: it
    sets the Status of the rows of the session's email to disabled,
    keeps every row, writes one audit row and ends the session; a later
    login to that account with the right password is refused with the
    message that the account is disabled. *)
Theorem deactivated_account_cannot_log_in
    (env : Env) (s : State) (who : Session) (form : LoginForm) (u : User) :
  session s = Some who ->
  reachable env = true ->
  account env (db s) (login_email form) = Some u ->
  text_eq (srv env) (Email u) (user_email who) = true ->
  check_password_hash env (UPassword u) (login_password form) = true ->
  deactivate env s = (deactivated env s who, Return (Redirect "users.login"))
  /\ map Email (UserProfile (db (deactivated env s who)))
     = map Email (UserProfile (db s))
  /\ account env (db (deactivated env s who)) (login_email form)
     = Some (with_status "disabled" u)
  /\ login env POST form (deactivated env s who)
     = (answered (deactivated env s who) [("Account disabled.", "warning")],
        Return (Redirect "users.login")).
Proof.
  intros Hs Hr Ha Hmine Hc.
  assert (account env (db (deactivated env s who)) (login_email form)
          = Some (with_status "disabled" u)) as Ha'.
  { unfold account in *. unfold deactivated; cbn [db UserProfile].
    rewrite find_map_same.
    - rewrite Ha. simpl. now rewrite Hmine.
    - intros v. now destruct (text_eq (srv env) (Email v) (user_email who)). }
  split; [now apply deactivate_value|]. split; [|split; [exact Ha'|]].
  - unfold deactivated; cbn [db UserProfile]. rewrite map_map. apply map_ext.
    intros v. now destruct (text_eq (srv env) (Email v) (user_email who)).
  - apply login_disabled with (with_status "disabled" u);
      [exact Hr|exact Ha'|exact Hc|discriminate].
Qed.

Lemma deactivated_account_cannot_log_in_witness :
  session ann_logged_in = Some ann_session
  /\ reachable office = true
  /\ account office (db ann_logged_in) "ann@example.com" = Some ann
  /\ text_eq (srv office) (Email ann) (user_email ann_session) = true
  /\ check_password_hash office (UPassword ann) "Abcdef1!" = true
  /\ login office POST
       {| login_email := "ann@example.com"; login_password := "Abcdef1!" |}
       (deactivated office ann_logged_in ann_session)
     = (answered (deactivated office ann_logged_in ann_session)
          [("Account disabled.", "warning")],
        Return (Redirect "users.login")).
Proof.
  split; [reflexivity|]. split; [reflexivity|]. split; [reflexivity|].
  split; [reflexivity|]. split; [reflexivity|].
  apply (deactivated_account_cannot_log_in office ann_logged_in ann_session
           {| login_email := "ann@example.com"; login_password := "Abcdef1!" |}
           ann); reflexivity.
Defined.

End SessionFacts.

(** ** Registration and profile updates *)

Module AccountFacts.
Import Text Sql Validators Users StatedUsers UserSamples UserPages StatedMore.
Import MoreSamples.
Import LoginFacts RegisterFacts ProfileFacts.

Lemma all_some_map {A} (c : A -> bool) (g : A -> A) (h : A -> option A)
    (l : list A) :
  (forall u, h u = Some (g u)) ->
  all_some (map (fun u => if c u then h u else Some u) l)
  = Some (map (fun u => if c u then g u else u) l).
Proof.
  intros Hh. induction l as [|x l IH]; simpl; [reflexivity|].
  rewrite IH. destruct (c x); [rewrite Hh|]; reflexivity.
Qed.

Lemma update_profile_patch (env : Env) (updates params : list string)
    (d : Database) (g : User -> User) :
  List.length params = S (List.length updates) ->
  (forall u, option_map fst (assign_all updates (removelast params) u)
             = Some (g u)) ->
  update_profile env updates params d
  = Return ({| UserProfile :=
                 map (fun u => if text_eq (srv env) (Email u)
                                    (last params EmptyString)
                               then g u else u) (UserProfile d);
               UserActivityLog := UserActivityLog d |}, tt).
Proof.
  intros Hlen Hg. unfold update_profile.
  rewrite Hlen, Nat.eqb_refl. cbn [negb].
  now rewrite (all_some_map _ g _ _ Hg).
Qed.

Ltac settle :=
  cbn -[is_valid_email is_strong_password lower strip existsb String.eqb
        nonempty contains patched update_profile].

Ltac patch_rows env form :=
  rewrite (update_profile_patch env _ _ _ (patched env form));
  [ | reflexivity
    | intros u; unfold patched, keep_or, keep_or_set, given, or_None;
      repeat match goal with
             | H : nonempty _ = _ |- _ => rewrite H
             end;
      reflexivity ].

Lemma profile_post_saved (env : Env) (s : State) (who : Session)
    (form : ProfileForm) :
  reachable env = true ->
  password_acceptable form = true ->
  profile_post env (user_email who) form s
  = (profile_saved env s who form, Return (Redirect "users.profile")).
Proof.
  intros Hr Hpw.
  destruct s as [d c f se].
  unfold profile_post, profile_saved, something_given, password_acceptable,
    apply_updates, or_None in *.
  unfold bindH, get_db, cursor, ret. rewrite Hr. settle.
  destruct (nonempty (strip (prof_first_name form))) eqn:E1;
  destruct (nonempty (strip (prof_last_name form))) eqn:E2;
  destruct (nonempty (strip (prof_phone form))) eqn:E3;
  destruct (nonempty (strip (prof_website form))) eqn:E4;
  destruct (nonempty (strip (prof_business_name form))) eqn:E5;
  destruct (nonempty (strip (prof_new_password form))) eqn:E6;
  settle; cbn [negb orb] in Hpw;
  try (apply andb_true_iff in Hpw; destruct Hpw as [Heq Hstrong];
       rewrite Heq; cbn [negb];
       destruct (is_strong_password (strip (prof_new_password form)))
         as [ok msg];
       cbn [fst] in Hstrong; subst ok; cbn [negb]);
  unfold bindH, execute_checked, execute, flash, close, ret, set_db, answered;
  settle;
  try reflexivity;
  patch_rows env form; reflexivity.
Qed.

(** X12.  A profile update whose password part is acceptable is a
    partial update: in the rows of the session's email each field of
    the form that is not blank replaces the stored value, a blank field
    leaves it, and a new password is stored as its hash; one audit row
    is written.  When every field is blank nothing is written and the
    user is told that there are no changes. *)
Theorem profile_update_is_partial
    (env : Env) (s : State) (who : Session) (form : ProfileForm) :
  session s = Some who ->
  reachable env = true ->
  password_acceptable form = true ->
  profile env POST form s
  = (profile_saved env s who form, Return (Redirect "users.profile")).
Proof.
  intros Hs Hr Hpw.
  unfold profile, login_required, get_session, bindH at 1. rewrite Hs.
  unfold try_except.
  now rewrite (profile_post_saved env s who form Hr Hpw).
Qed.

Lemma profile_update_is_partial_witness :
  session ann_logged_in = Some ann_session
  /\ reachable office = true
  /\ password_acceptable renamed = true
  /\ profile office POST renamed ann_logged_in
     = (profile_saved office ann_logged_in ann_session renamed,
        Return (Redirect "users.profile"))
  /\ map (fun u => (ContactFirstName u, ContactLastName u, Phone u))
         (UserProfile (db (profile_saved office ann_logged_in ann_session renamed)))
     = [("Anne", "Lee", Some "555 0100"); ("Bob", "Roe", None)].
Proof.
  split; [reflexivity|]. split; [reflexivity|]. split; [reflexivity|].
  split; [|reflexivity].
  apply (profile_update_is_partial office ann_logged_in ann_session renamed);
    reflexivity.
Defined.

Lemma profile_unreachable (env : Env) (s : State) (who : Session)
    (form : ProfileForm) :
  reachable env = false ->
  db (fst (profile_post env (user_email who) form s)) = db s.
Proof.
  intros Hr. unfold profile_post, bindH, get_db, cursor, raise.
  now rewrite Hr.
Qed.

Lemma handler_keeps_db (body : H response) (s : State) (endpoint : string) :
  db (fst (try_except body
             (fun e => flash ("Error: " ++ exn_str e) "danger" ;;
                       ret (Redirect endpoint)) s))
  = db (fst (body s)).
Proof.
  unfold try_except. destruct (body s) as [s' [r|e]]; reflexivity.
Qed.

(** X13.  No request to the profile page, whatever the form, the session
    and the state of the database, adds or removes an account or changes
    an email, a role, a status, a creation time or a login time. *)
Theorem profile_keeps_account_identity
    (env : Env) (s : State) (m : method) (form : ProfileForm) :
  map identity_of (UserProfile (db (fst (profile env m form s))))
  = map identity_of (UserProfile (db s)).
Proof.
  destruct (session s) as [who|] eqn:Hs.
  - unfold profile, login_required, get_session, bindH at 1. rewrite Hs.
    destruct m.
    + destruct s as [d c f se].
      unfold bindH, get_db, cursor, execute, close, ret, raise, select_user,
        set_db.
      destruct (reachable env); reflexivity.
    + rewrite handler_keeps_db.
      destruct (reachable env) eqn:Hr;
        [|now rewrite (profile_unreachable env s who form Hr)].
      destruct (password_acceptable form) eqn:Hpw.
      * rewrite (profile_post_saved env s who form Hr Hpw).
        unfold profile_saved. cbn [fst].
        destruct (something_given form); [|reflexivity].
        cbn [db UserProfile]. rewrite map_map. apply map_ext.
        intros u. now destruct (text_eq (srv env) (Email u) (user_email who)).
      * unfold password_acceptable in Hpw.
        rewrite (profile_post_refused env s (user_email who) form Hr).
        -- reflexivity.
        -- now destruct (nonempty (strip (prof_new_password form))).
        -- destruct (nonempty (strip (prof_new_password form)));
             [|discriminate].
           destruct (String.eqb _ _); [|reflexivity].
           now destruct (fst (is_strong_password _)).
  - unfold profile, login_required, get_session, bindH. now rewrite Hs.
Qed.

(** X14.  A registration that goes through appends exactly one account
    and one audit row and touches no other: the email stored is the
    stripped, lower-cased one, it passes the email check, it is its own
    lower-casing and no account held it before; the role is customer or
    merchant, both names are given, the status is active, and what is
    stored as password is the hash of a password that equals its
    confirmation and passes the strength check. *)
Theorem register_stores_a_checked_account
    (env : Env) (s s1 : State) (form : RegisterForm) :
  register env POST form s = (s1, Return (Redirect "users.login")) ->
  account env (db s) (reg_email form) = None
  /\ UserProfile (db s1) = (UserProfile (db s) ++ [new_user env form])%list
  /\ List.length (UserActivityLog (db s1))
     = S (List.length (UserActivityLog (db s)))
  /\ is_valid_email (Email (new_user env form)) = true
  /\ lower (Email (new_user env form)) = Email (new_user env form)
  /\ (UserType (new_user env form) = "customer"
      \/ UserType (new_user env form) = "merchant")
  /\ ContactFirstName (new_user env form) <> ""
  /\ ContactLastName (new_user env form) <> ""
  /\ Status (new_user env form) = "active"
  /\ UPassword (new_user env form)
     = generate_password_hash env (reg_password form)
  /\ reg_password form = reg_confirm_password form
  /\ fst (is_strong_password (reg_password form)) = true.
Proof.
  intros Hreg.
  destruct (register_success env s s1 form Hreg) as (Hv & Hr & Ha & ->).
  unfold validation_failure in Hv.
  destruct (negb (nonempty (lower (strip (reg_email form))))
            || negb (is_valid_email (lower (strip (reg_email form)))))%bool
    eqn:H1; [discriminate|].
  destruct (negb (existsb (String.eqb (strip (reg_user_type form)))
                          ["customer"; "merchant"])) eqn:H2; [discriminate|].
  destruct (negb (nonempty (strip (reg_first_name form)))
            || negb (nonempty (strip (reg_last_name form))))%bool
    eqn:H3; [discriminate|].
  destruct (negb (String.eqb (reg_password form) (reg_confirm_password form)))
    eqn:H4; [discriminate|].
  destruct (negb (fst (is_strong_password (reg_password form)))) eqn:H5;
    [discriminate|].
  apply orb_false_iff in H1, H3. destruct H1 as [_ H1], H3 as [H3a H3b].
  apply negb_false_iff in H1, H2, H3a, H3b, H4, H5.
  apply String.eqb_eq in H4.
  split; [exact Ha|]. split; [reflexivity|].
  split; [unfold registered; cbn [db UserActivityLog];
          rewrite length_app; cbn; lia|].
  split; [exact H1|]. split; [apply lower_idem|].
  split.
  { cbn [new_user UserType]. cbn [existsb] in H2.
    apply orb_true_iff in H2. destruct H2 as [H2|H2].
    - left. now apply String.eqb_eq in H2.
    - right. rewrite orb_false_r in H2. now apply String.eqb_eq in H2. }
  split; [cbn [new_user ContactFirstName]; intros E; now rewrite E in H3a|].
  split; [cbn [new_user ContactLastName]; intros E; now rewrite E in H3b|].
  repeat split; assumption.
Qed.

Lemma register_stores_a_checked_account_witness :
  register office POST ann_signs_up nobody_yet
  = (registered office nobody_yet ann_signs_up, Return (Redirect "users.login"))
  /\ UserProfile (db (registered office nobody_yet ann_signs_up))
     = (UserProfile (db nobody_yet) ++ [new_user office ann_signs_up])%list.
Proof.
  split; [reflexivity|].
  apply (register_stores_a_checked_account office nobody_yet
           (registered office nobody_yet ann_signs_up) ann_signs_up).
  reflexivity.
Defined.

End AccountFacts.

(** ** The dashboard data *)

Module DashboardFacts.
Import Text Sql Validators Users StatedUsers UserSamples UserPages StatedMore.
Import SqlFacts LoginFacts.

Lemma sorted_app_order {A} (R : A -> A -> Prop) (a b : list A) :
  StronglySorted R (a ++ b) -> forall x y, In x a -> In y b -> R x y.
Proof.
  induction a as [|z a IH]; simpl; intros Hs x y Hx Hy; [contradiction|].
  inversion Hs as [|? ? Hrest Hz]; subst.
  destruct Hx as [->|Hx].
  - rewrite Forall_forall in Hz. apply Hz. apply in_or_app. now right.
  - now apply IH.
Qed.

Lemma newest_first_total (a b : Listed) :
  newest_first a b = false -> newest_first b a = true.
Proof. unfold newest_first. rewrite Z.leb_gt, Z.leb_le. lia. Qed.

Lemma newest_first_trans (a b c : Listed) :
  newest_first a b = true -> newest_first b c = true -> newest_first a c = true.
Proof. unfold newest_first. rewrite !Z.leb_le. lia. Qed.

Lemma recent_users_value (env : Env) (s : State) (who : Session) :
  session s = Some who ->
  reachable env = true ->
  recent_users env s
  = ({| db := db s; connected := false; flashes := flashes s;
        session := session s |},
     Return (Users (snd (select_recent (db s))))).
Proof.
  intros Hs Hr. destruct s as [d c f se]. cbn [session] in Hs. subst se.
  unfold recent_users, login_required_data. run_handler. now rewrite Hr.
Qed.

(** X15.  For a logged-in user and a reachable database, the list of
    recent users holds at most ten accounts of the table, newest first,
    all of them when there are ten or fewer, and no account left out was
    created later than one that is listed; nothing is written. *)
Theorem recent_users_lists_the_newest
    (env : Env) (s : State) (who : Session) :
  session s = Some who ->
  reachable env = true ->
  let rows := snd (select_recent (db s)) in
  snd (recent_users env s) = Return (Users rows)
  /\ db (fst (recent_users env s)) = db s
  /\ List.length rows = Nat.min 10 (List.length (UserProfile (db s)))
  /\ (forall r, In r rows -> exists u, In u (UserProfile (db s)) /\ r = listed_of u)
  /\ StronglySorted not_older rows
  /\ (forall u, In u (UserProfile (db s)) -> ~ In (listed_of u) rows ->
                forall r, In r rows -> not_older r (listed_of u)).
Proof.
  intros Hs Hr rows.
  rewrite (recent_users_value env s who Hs Hr). cbn [fst snd db].
  subst rows. unfold select_recent. cbn [snd].
  set (all := order_by newest_first (map listed_of (UserProfile (db s)))).
  assert (Permutation all (map listed_of (UserProfile (db s)))) as Hperm
    by apply order_by_perm.
  assert (StronglySorted not_older all) as Hsorted.
  { apply StronglySorted_impl with (R := fun a b => newest_first a b = true).
    - intros a b. unfold newest_first, not_older. apply Z.leb_le.
    - apply order_by_sorted; [apply newest_first_total|apply newest_first_trans]. }
  split; [reflexivity|]. split; [reflexivity|].
  split; [|split; [|split]].
  - rewrite length_firstn, (Permutation_length Hperm), length_map. reflexivity.
  - intros r Hin.
    assert (In r all) as Hall.
    { rewrite <- (firstn_skipn 10 all). apply in_or_app. now left. }
    apply (Permutation_in _ Hperm) in Hall.
    apply in_map_iff in Hall. destruct Hall as (u & <- & Hu). now exists u.
  - now apply StronglySorted_firstn.
  - intros u Hu Hout r Hin.
    assert (In (listed_of u) all) as Hall.
    { apply (Permutation_in _ (Permutation_sym Hperm)). now apply in_map. }
    rewrite <- (firstn_skipn 10 all) in Hall, Hsorted.
    apply in_app_or in Hall. destruct Hall as [Hfirst|Hrest]; [contradiction|].
    exact (sorted_app_order not_older _ _ Hsorted r (listed_of u) Hin Hrest).
Qed.

Lemma recent_users_lists_the_newest_witness :
  session ann_logged_in = Some ann_session
  /\ reachable office = true
  /\ snd (recent_users office ann_logged_in)
     = Return (Users (snd (select_recent (db ann_logged_in)))).
Proof.
  split; [reflexivity|]. split; [reflexivity|].
  apply (recent_users_lists_the_newest office ann_logged_in ann_session);
    reflexivity.
Defined.

Lemma count_split {A} (p q : A -> bool) (l : list A) :
  forallb (fun x => xorb (p x) (q x)) l = true ->
  (List.length (filter p l) + List.length (filter q l))%nat = List.length l.
Proof.
  induction l as [|x l IH]; simpl; intros H; [reflexivity|].
  apply andb_true_iff in H. destruct H as [Hx H]. specialize (IH H).
  destruct (p x), (q x); try discriminate; simpl; lia.
Qed.

(** X16.  For a logged-in user and a reachable database the metrics are
    the number of accounts, of those whose status is active and of those
    whose status is disabled, and nothing is written; neither of the two
    exceeds the total, and the two add up to the total when every account
    is active or disabled and not both. *)
Theorem metrics_count_the_accounts
    (env : Env) (s : State) (who : Session) :
  session s = Some who ->
  reachable env = true ->
  let total := count_users (fun _ => true) (db s) in
  let active :=
    count_users (fun u => text_eq (srv env) (Status u) "active") (db s) in
  let disabled :=
    count_users (fun u => text_eq (srv env) (Status u) "disabled") (db s) in
  snd (metrics env s)
    = Return (Jsonify [("total", JNumber total); ("active", JNumber active);
                       ("disabled", JNumber disabled)] 200)
  /\ db (fst (metrics env s)) = db s
  /\ total = Z.of_nat (List.length (UserProfile (db s)))
  /\ 0 <= active <= total
  /\ 0 <= disabled <= total
  /\ (active_or_disabled env (db s) = true -> active + disabled = total).
Proof.
  intros Hs Hr total active disabled. subst total active disabled.
  destruct s as [d c f se]. cbn [session] in Hs. subst se.
  unfold metrics, login_required. run_handler. rewrite Hr. tidy.
  split; [reflexivity|]. split; [reflexivity|].
  unfold count_users.
  assert (forall p : User -> bool,
            (List.length (filter p (UserProfile d))
             <= List.length (UserProfile d))%nat) as Hle
    by (intros p; apply filter_length_le).
  assert (List.length (filter (fun _ : User => true) (UserProfile d))
          = List.length (UserProfile d)) as Hall
    by (clear; induction (UserProfile d); simpl; congruence).
  pose proof (Hle (fun u => text_eq (srv env) (Status u) "active")) as Ha.
  pose proof (Hle (fun u => text_eq (srv env) (Status u) "disabled")) as Hd.
  rewrite Hall.
  split; [reflexivity|]. split; [lia|]. split; [lia|].
  intros Hxor. unfold active_or_disabled in Hxor. cbn [db] in Hxor.
  pose proof (count_split _ _ _ Hxor). lia.
Qed.

Lemma metrics_count_the_accounts_witness :
  session ann_logged_in = Some ann_session
  /\ reachable office = true
  /\ active_or_disabled office (db ann_logged_in) = true
  /\ snd (metrics office ann_logged_in)
     = Return (Jsonify [("total", JNumber 2); ("active", JNumber 1);
                        ("disabled", JNumber 1)] 200).
Proof.
  split; [reflexivity|]. split; [reflexivity|]. split; [reflexivity|].
  apply (metrics_count_the_accounts office ann_logged_in ann_session);
    reflexivity.
Defined.

End DashboardFacts.

(** ** Which phrase of a question counts *)

Module PhraseFacts.
Import Text Sql Validators Users StatedUsers UserSamples UserPages StatedMore.
Import LoginFacts ChatFacts.

Lemma contains_nonempty (c : ascii) (keyword question : string) :
  contains (String c keyword) question = true -> nonempty question = true.
Proof. destruct question; [discriminate|reflexivity]. Qed.

Lemma chat_analyze_found (env : Env) (s : State) (who : Session)
    (question_field : option string) (keyword sql label : string) :
  session s = Some who ->
  reachable env = true ->
  nonempty (normalised question_field) = true ->
  first_phrase (normalised question_field) = Some (keyword, (sql, label)) ->
  snd (chat_analyze env question_field s)
  = Return (Jsonify (valued label (canned_value env (db s) sql)) 200).
Proof.
  intros Hs Hr Hq Hfirst.
  destruct s as [d c f se]. cbn [session] in Hs. subst se.
  unfold chat_analyze, login_required, get_session, bindH at 1.
  cbn [session]. unfold try_except.
  fold (normalised question_field). rewrite Hq. cbn [negb].
  unfold bindH at 1, get_db. rewrite Hr. cbn [db flashes session].
  unfold bindH at 1, cursor, ret.
  unfold bindH at 1.
  rewrite (first_match_find env (normalised question_field) d f (Some who)
             queries (queries_run env d)).
  unfold first_phrase in Hfirst. rewrite Hfirst. reflexivity.
Qed.

(** X17.  The order of the phrases decides.  A question that holds
    "new customers" is answered with the number of customers created in
    the last 30 days, whatever else it holds ("customers", which every
    such question holds, "merchants", "active users"); a question that
    holds "customers" and none of "new customers", "active users" and
    "merchants" is answered with the number of all customers. *)
Theorem chat_analyze_prefers_the_earlier_phrase
    (env : Env) (s : State) (who : Session) (question_field : option string) :
  session s = Some who ->
  reachable env = true ->
  (contains "new customers" (normalised question_field) = true ->
   snd (chat_analyze env question_field s)
   = Return
       (Jsonify
          (valued "New customers (30d)" (count_users (new_customer env) (db s)))
          200))
  /\ (contains "customers" (normalised question_field) = true ->
      contains "new customers" (normalised question_field) = false ->
      contains "active users" (normalised question_field) = false ->
      contains "merchants" (normalised question_field) = false ->
      snd (chat_analyze env question_field s)
      = Return
          (Jsonify
             (valued "Total customers" (count_users (customer env) (db s)))
             200)).
Proof.
  intros Hs Hr. split.
  - intros Hn.
    pose proof (contains_nonempty _ _ _ Hn) as Hq.
    rewrite (chat_analyze_found env s who question_field "new customers"
               (fst (snd (nth 0 queries ("", ("", ""))))) "New customers (30d)"
               Hs Hr Hq).
    + reflexivity.
    + unfold first_phrase, queries. cbn [find fst]. now rewrite Hn.
  - intros Hc Hn Ha Hm.
    pose proof (contains_nonempty _ _ _ Hc) as Hq.
    rewrite (chat_analyze_found env s who question_field "customers"
               (fst (snd (nth 3 queries ("", ("", ""))))) "Total customers"
               Hs Hr Hq).
    + reflexivity.
    + unfold first_phrase, queries. cbn [find fst]. now rewrite Hn, Ha, Hm, Hc.
Qed.

Lemma chat_analyze_prefers_the_earlier_phrase_witness :
  session ann_logged_in = Some ann_session
  /\ reachable office = true
  /\ contains "new customers"
       (normalised (Some "New customers and merchants?")) = true
  /\ contains "merchants"
       (normalised (Some "New customers and merchants?")) = true
  /\ snd (chat_analyze office (Some "New customers and merchants?") ann_logged_in)
     = Return (Jsonify (valued "New customers (30d)" 0) 200).
Proof.
  split; [reflexivity|]. split; [reflexivity|]. split; [reflexivity|].
  split; [reflexivity|].
  apply (proj1 (chat_analyze_prefers_the_earlier_phrase office ann_logged_in
                  ann_session (Some "New customers and merchants?")
                  eq_refl eq_refl)).
  reflexivity.
Defined.

End PhraseFacts.

(** ** The chat relay *)

Module AssistantFacts.
Import Text Sql Assistant StatedMore.

(** X18.  The relay calls the provider exactly when a client is
    configured and the message is not blank: then once, with the model
    of the configuration, the stripped message and a system prompt that
    carries the database context, whatever the state of the database (a
    database that cannot be reached or fails only changes the context
    text, which always starts with the same sentence).  A reply comes
    back with status 200; an error text is answered 401 when it holds
    401 or Unauthorized, else 404 when it holds 404, else 500. *)
Theorem chat_api_calls_the_provider_once
    (ai : Provider) (sch : Schema) (message_field : option string) :
  let message :=
    match message_field with Some m => m | None => EmptyString end in
  let answer := chat_api ai sch message_field in
  sent answer
    = (if (configured ai && nonempty (strip message))%bool
       then [relayed ai sch message] else [])
  /\ (exists rest,
        get_database_context sch
        = "Available Northwind database tables: " ++ rest)
  /\ (if (configured ai && nonempty (strip message))%bool
      then match complete ai (model ai)
                   (system_prompt (get_database_context sch)) (strip message)
           with
           | inl reply =>
               chat_body answer = [("reply", reply)] /\ chat_status answer = 200
           | inr error_msg => chat_status answer = error_status error_msg
           end
      else chat_status answer = (if configured ai then 400 else 500)).
Proof.
  intros message answer. subst answer. unfold chat_api, relayed, error_status.
  fold message.
  split; [|split].
  - destruct (configured ai); cbn [negb andb]; [|reflexivity].
    destruct (nonempty (strip message)); cbn [negb]; [|reflexivity].
    destruct (complete ai _ _ _) as [reply|err]; [reflexivity|].
    destruct (contains "401" err || contains "Unauthorized" err)%bool;
      [reflexivity|].
    destruct (contains "404" err); reflexivity.
  - unfold get_database_context.
    destruct (schema_reachable sch); cbn [negb]; [|eexists; reflexivity].
    destruct (table_names sch) as [tables|e]; eexists; reflexivity.
  - destruct (configured ai); cbn [negb andb]; [|reflexivity].
    destruct (nonempty (strip message)); cbn [negb]; [|reflexivity].
    destruct (complete ai _ _ _) as [reply|err]; [split; reflexivity|].
    destruct (contains "401" err || contains "Unauthorized" err)%bool;
      [reflexivity|].
    destruct (contains "404" err); reflexivity.
Qed.

End AssistantFacts.

(** ** The valuation report *)

Module ValuationFacts.
Import Text Sql ProductModel Samples SqlFacts Valuation StatedMore.

Local Open Scope Q_scope.

Lemma filter_none {A} (f : A -> bool) (l : list A) :
  (forall x, In x l -> f x = false) -> filter f l = [].
Proof.
  induction l as [|x l IH]; intros H; [reflexivity|].
  simpl. rewrite (H x (or_introl eq_refl)). apply IH.
  intros y Hy. apply H. now right.
Qed.

Section Groups.
Variable srv : Server.
Variable cats : list (option string).
Hypothesis consistent : groups_consistent srv cats = true.

Let same := same_category srv.

Lemma same_refl (a : option string) : In a cats -> same a a = true.
Proof.
  intros Ha. unfold groups_consistent in consistent.
  rewrite forallb_forall in consistent.
  specialize (consistent a Ha). apply andb_true_iff in consistent. tauto.
Qed.

Lemma same_sym (a b : option string) :
  In a cats -> In b cats -> same a b = true -> same b a = true.
Proof.
  intros Ha Hb Hab. unfold groups_consistent in consistent.
  rewrite forallb_forall in consistent.
  specialize (consistent a Ha). apply andb_true_iff in consistent.
  destruct consistent as [_ H]. rewrite forallb_forall in H.
  specialize (H b Hb). apply andb_true_iff in H. destruct H as [H _].
  fold same in H. now rewrite Hab in H.
Qed.

Lemma same_trans (a b c : option string) :
  In a cats -> In b cats -> In c cats ->
  same a b = true -> same b c = true -> same a c = true.
Proof.
  intros Ha Hb Hc Hab Hbc. unfold groups_consistent in consistent.
  rewrite forallb_forall in consistent.
  specialize (consistent a Ha). apply andb_true_iff in consistent.
  destruct consistent as [_ H]. rewrite forallb_forall in H.
  specialize (H b Hb). apply andb_true_iff in H. destruct H as [_ H].
  rewrite forallb_forall in H. specialize (H c Hc).
  fold same in H. now rewrite Hab, Hbc in H.
Qed.

Lemma keys_from_rows (rows : list Product) (k : option string) :
  In k (group_keys srv rows) -> exists r, In r rows /\ k = category r.
Proof.
  induction rows as [|x rs IH]; simpl; [contradiction|].
  destruct (existsb _ (group_keys srv rs)).
  - intros Hk. destruct (IH Hk) as (r & Hr & ->). exists r. auto.
  - intros [<-|Hk]; [exists x; auto|].
    destruct (IH Hk) as (r & Hr & ->). exists r. auto.
Qed.

Lemma keys_in_cats (rows : list Product) :
  incl (map category rows) cats -> incl (group_keys srv rows) cats.
Proof.
  intros Hincl k Hk. destruct (keys_from_rows rows k Hk) as (r & Hr & ->).
  apply Hincl. now apply in_map.
Qed.

Lemma keys_cover (rows : list Product) :
  incl (map category rows) cats ->
  forall r, In r rows ->
    existsb (fun k => same k (category r)) (group_keys srv rows) = true.
Proof.
  induction rows as [|x rs IH]; intros Hincl r Hr; [contradiction|].
  assert (incl (map category rs) cats) as Hrs
    by (intros c Hc; apply Hincl; now right).
  cbn [group_keys fold_right]. fold (group_keys srv rs).
  destruct (existsb (fun k => same_category srv k (category x))
                    (group_keys srv rs)) eqn:Hx.
  - destruct Hr as [->|Hr]; [exact Hx|now apply IH].
  - cbn [existsb]. destruct Hr as [->|Hr].
    + unfold same. rewrite same_refl; [reflexivity|].
      apply Hincl. now left.
    + rewrite (IH Hrs r Hr). apply orb_true_r.
Qed.

Let group_total := group_total srv.
Let grand := grand srv.
Let share := share srv.

Lemma grand_cons (keys : list (option string)) (x : Product) (rs : list Product) :
  grand keys (x :: rs) == share keys (category x) (stock_value x) + grand keys rs.
Proof.
  unfold grand, share, group_total, StatedMore.grand, StatedMore.share,
    StatedMore.group_total.
  induction keys as [|k keys IH]; cbn [fold_right]; [ring|].
  rewrite IH. cbn [filter]. unfold same.
  destruct (same_category srv k (category x)); unfold sum_values;
    cbn [fold_right]; ring.
Qed.

Lemma share_none (keys : list (option string)) (c : option string) (v : Q) :
  existsb (fun k => same k c) keys = false -> share keys c v == 0.
Proof.
  unfold share, StatedMore.share.
  induction keys as [|k keys IH]; cbn [fold_right existsb]; intros H;
    [reflexivity|].
  apply orb_false_iff in H. destruct H as [Hk H].
  unfold same in Hk. rewrite Hk, (IH H). ring.
Qed.

Lemma share_one (keys : list (option string)) (c : option string) (v : Q) :
  incl keys cats -> In c cats ->
  ForallOrdPairs (fun a b => same a b = false) keys ->
  existsb (fun k => same k c) keys = true ->
  share keys c v == v.
Proof.
  intros Hincl Hc Hdist.
  induction Hdist as [|k keys Hk Hrest IH]; cbn [existsb]; [discriminate|].
  unfold share, StatedMore.share. cbn [fold_right].
  fold (StatedMore.share srv keys c v). fold (share keys c v).
  fold (same k c).
  assert (incl keys cats) as Hincl' by (intros a Ha; apply Hincl; now right).
  assert (In k cats) as Hkc by (apply Hincl; now left).
  destruct (same k c) eqn:Hkcs; cbn [orb].
  - intros _. rewrite share_none; [ring|].
    destruct (existsb (fun k0 => same k0 c) keys) eqn:E; [|reflexivity].
    apply existsb_exists in E. destruct E as (k' & Hk' & Hk'c).
    rewrite Forall_forall in Hk.
    assert (same k k' = true) as Hbad.
    { apply same_trans with c; auto.
      apply same_sym; auto. }
    rewrite (Hk k' Hk') in Hbad. discriminate.
  - intros H. rewrite (IH Hincl' H). ring.
Qed.

Lemma keys_distinct (rows : list Product) :
  incl (map category rows) cats ->
  ForallOrdPairs (fun a b => same a b = false) (group_keys srv rows).
Proof.
  induction rows as [|x rs IH]; intros Hincl; [constructor|].
  assert (incl (map category rs) cats) as Hrs
    by (intros c Hc; apply Hincl; now right).
  cbn [group_keys fold_right]. fold (group_keys srv rs).
  destruct (existsb (fun k => same_category srv k (category x))
                    (group_keys srv rs)) eqn:Hx; [now apply IH|].
  constructor; [|now apply IH].
  apply Forall_forall. intros k Hk.
  destruct (same (category x) k) eqn:E; [|reflexivity].
  assert (same k (category x) = true) as Hbad.
  { apply same_sym; auto.
    - apply Hincl. now left.
    - now apply (keys_in_cats rs Hrs). }
  assert (existsb (fun k => same_category srv k (category x))
                  (group_keys srv rs) = true) as Hyes
    by (apply existsb_exists; now exists k).
  congruence.
Qed.

Lemma grand_keys (rows : list Product) :
  incl (map category rows) cats ->
  grand (group_keys srv rows) rows == sum_values rows.
Proof.
  induction rows as [|x rs IH]; intros Hincl; [reflexivity|].
  assert (incl (map category rs) cats) as Hrs
    by (intros c Hc; apply Hincl; now right).
  assert (In (category x) cats) as Hx by (apply Hincl; now left).
  cbn [group_keys fold_right]. fold (group_keys srv rs).
  destruct (existsb (fun k => same_category srv k (category x))
                    (group_keys srv rs)) eqn:E.
  - rewrite grand_cons, (IH Hrs).
    rewrite (share_one _ _ _ (keys_in_cats rs Hrs) Hx (keys_distinct rs Hrs) E).
    reflexivity.
  - unfold grand, StatedMore.grand. cbn [fold_right].
    fold (StatedMore.grand srv (group_keys srv rs) (x :: rs)).
    fold (grand (group_keys srv rs) (x :: rs)).
    rewrite grand_cons, (IH Hrs), (share_none _ _ _ E).
    unfold StatedMore.group_total. cbn [filter].
    fold (same (category x) (category x)).
    rewrite (same_refl _ Hx). cbn [sum_values fold_right].
    replace (filter (fun r => same_category srv (category x) (category r)) rs)
      with (@nil Product).
    + cbn [fold_right]. fold (sum_values rs). ring.
    + symmetry. apply filter_none. intros r Hr.
      fold (same (category x) (category r)).
      destruct (same (category x) (category r)) eqn:Hxr; [|reflexivity].
      pose proof (keys_cover rs Hrs r Hr) as Hcov.
      apply existsb_exists in Hcov. destruct Hcov as (k & Hk & Hkr).
      assert (In (category r) cats) as Hrc by (apply Hrs; now apply in_map).
      assert (same k (category x) = true) as Hbad.
      { apply same_trans with (category r); auto.
        - now apply (keys_in_cats rs Hrs).
        - apply same_sym; auto. }
      assert (existsb (fun k => same_category srv k (category x))
                      (group_keys srv rs) = true) as Hyes
        by (apply existsb_exists; now exists k).
      congruence.
Qed.

End Groups.

Lemma sum_totals_perm (a b : list (option string * Q)) :
  Permutation a b -> sum_totals a == sum_totals b.
Proof.
  unfold sum_totals.
  induction 1 as [|x a b Hab IH|x y a|a b c Hab IHab Hbc IHbc];
    cbn [fold_right].
  - reflexivity.
  - now rewrite IH.
  - ring.
  - now rewrite IHab.
Qed.

Lemma sum_totals_groups (srv : Server) (rows : list Product)
    (keys : list (option string)) :
  sum_totals
    (map (fun k =>
            (k, sum_values
                  (filter (fun r => same_category srv k (category r)) rows)))
         keys)
  == grand srv keys rows.
Proof.
  unfold sum_totals, grand, group_total.
  induction keys as [|k keys IH]; cbn [map fold_right snd]; [reflexivity|].
  now rewrite IH.
Qed.

(** X19.  When the grouping is consistent on the categories of the
    products that are not archived, the totals of the valuation report
    add up to the stock value of all those products: nothing is counted
    twice or left out, and archived stock is not counted.  Each line is
    the category of a product that is not archived with the sum of
    [price * quantity] over the products of its group that are not
    archived, and every such product has its line. *)
Theorem category_totals_add_up
    (text_le : string -> string -> bool) (srv : Server) (table : list Product) :
  let live := filter (fun r => negb (archived r)) table in
  let report := inventory_value_by_category text_le srv table in
  groups_consistent srv (map category live) = true ->
  sum_totals report == sum_values live
  /\ (forall line, In line report ->
        (exists r, In r table /\ archived r = false /\ fst line = category r)
        /\ snd line
           = sum_values
               (filter (fun r => same_category srv (fst line) (category r)) live))
  /\ (forall r, In r table -> archived r = false ->
        exists line,
          In line report /\ same_category srv (fst line) (category r) = true).
Proof.
  intros live report Hcons. subst report. unfold inventory_value_by_category.
  fold live.
  set (lines := map _ (group_keys srv live)).
  assert (Permutation (order_by (category_first text_le) lines) lines) as Hperm
    by apply order_by_perm.
  split; [|split].
  - rewrite (sum_totals_perm _ _ Hperm). unfold lines.
    rewrite sum_totals_groups.
    apply (grand_keys srv (map category live) Hcons live).
    apply incl_refl.
  - intros line Hin. apply (Permutation_in _ Hperm) in Hin.
    unfold lines in Hin. apply in_map_iff in Hin.
    destruct Hin as (k & <- & Hk). cbn [fst snd]. split; [|reflexivity].
    destruct (keys_from_rows srv live k Hk) as (r & Hr & ->).
    apply filter_In in Hr. destruct Hr as [Hr Ha].
    exists r. repeat split; auto. now apply negb_true_iff in Ha.
  - intros r Hr Ha.
    assert (In r live) as Hlive
      by (apply filter_In; split; [exact Hr|now rewrite Ha]).
    pose proof (keys_cover srv (map category live) Hcons live
                  (incl_refl _) r Hlive) as Hcov.
    apply existsb_exists in Hcov. destruct Hcov as (k & Hk & Hkr).
    exists (k, sum_values
                 (filter (fun r' => same_category srv k (category r')) live)).
    split; [|exact Hkr].
    apply (Permutation_in _ (Permutation_sym Hperm)).
    unfold lines. apply in_map_iff. now exists k.
Qed.

Lemma category_totals_add_up_witness :
  groups_consistent today
    (map category (filter (fun r => negb (archived r)) shelf)) = true
  /\ sum_totals (inventory_value_by_category String.leb today shelf)
     == sum_values (filter (fun r => negb (archived r)) shelf).
Proof.
  split; [reflexivity|].
  apply (category_totals_add_up String.leb today shelf). reflexivity.
Defined.

End ValuationFacts.

(** ** What no request undoes *)

Module HistoryFacts.
Import Text Sql Validators Users StatedUsers UserPages StatedMore.

Lemma extends_refl (d : Database) : extends d d.
Proof. split; exists []; now rewrite app_nil_r. Qed.

Lemma extends_trans (a b c : Database) : extends a b -> extends b c -> extends a c.
Proof.
  intros [[l1 H1] [e1 G1]] [[l2 H2] [e2 G2]]. split.
  - exists (l1 ++ l2)%list. now rewrite H2, H1, app_assoc.
  - exists (e1 ++ e2)%list. now rewrite G2, G1, app_assoc.
Qed.

Lemma ret_only_extends {A} (a : A) : only_extends (ret a).
Proof. intros s. apply extends_refl. Qed.

Lemma raise_only_extends {A} (e : exn) : only_extends (@raise A e).
Proof. intros s. apply extends_refl. Qed.

Lemma flash_only_extends (message category : string) :
  only_extends (flash message category).
Proof. intros s. apply extends_refl. Qed.

Lemma set_session_only_extends (v : option Session) :
  only_extends (set_session v).
Proof. intros s. apply extends_refl. Qed.

Lemma get_session_only_extends : only_extends get_session.
Proof. intros s. apply extends_refl. Qed.

Lemma get_db_only_extends (env : Env) : only_extends (get_db env).
Proof. intros s. unfold get_db. destruct (reachable env); apply extends_refl. Qed.

Lemma cursor_only_extends (conn : bool) : only_extends (cursor conn).
Proof. intros s. destruct conn; apply extends_refl. Qed.

Lemma close_only_extends : only_extends close.
Proof. intros s. unfold close. destruct (connected s); apply extends_refl. Qed.

Lemma bind_only_extends {A B} (m : H A) (k : A -> H B) :
  only_extends m -> (forall a, only_extends (k a)) -> only_extends (bindH m k).
Proof.
  intros Hm Hk s. unfold bindH. specialize (Hm s).
  destruct (m s) as [s' [a|e]]; cbn [fst] in *; [|exact Hm].
  apply extends_trans with (db s'); [exact Hm|apply Hk].
Qed.

Lemma try_only_extends {A} (body : H A) (handler : exn -> H A) :
  only_extends body -> (forall e, only_extends (handler e)) ->
  only_extends (try_except body handler).
Proof.
  intros Hb Hh s. unfold try_except. specialize (Hb s).
  destruct (body s) as [s' [a|e]]; cbn [fst] in *; [exact Hb|].
  apply extends_trans with (db s'); [exact Hb|apply Hh].
Qed.

Lemma execute_only_extends {A} (statement : Database -> Database * A) :
  (forall d, extends d (fst (statement d))) -> only_extends (execute statement).
Proof.
  intros Hst s. unfold execute.
  destruct (connected s); [|apply extends_refl].
  specialize (Hst (db s)). destruct (statement (db s)) as [d a]. exact Hst.
Qed.

Lemma execute_checked_only_extends {A}
    (statement : Database -> outcome (Database * A)) :
  (forall d d' a, statement d = Return (d', a) -> extends d d') ->
  only_extends (execute_checked statement).
Proof.
  intros Hst s. unfold execute_checked.
  destruct (connected s); [|apply extends_refl].
  destruct (statement (db s)) as [[d a]|e] eqn:E; [|apply extends_refl].
  exact (Hst _ _ _ E).
Qed.

Lemma select_user_extends (env : Env) (email : string) (d : Database) :
  extends d (fst (select_user env email d)).
Proof. apply extends_refl. Qed.

Lemma insert_user_extends (u : User) (d : Database) :
  extends d (fst (insert_user u d)).
Proof.
  split; [exists []; cbn; now rewrite app_nil_r|].
  exists [Email u]. cbn. now rewrite map_app.
Qed.

Lemma log_activity_extends (env : Env) (email kind : string)
    (description : option string) (d : Database) :
  extends d (fst (log_activity env email kind description d)).
Proof.
  split; [eexists; reflexivity|]. exists []. cbn. now rewrite app_nil_r.
Qed.

Lemma update_users_extends (env : Env) (email : string) (f : User -> User)
    (d : Database) :
  (forall u, Email (f u) = Email u) ->
  extends d (fst (update_users env email f d)).
Proof.
  intros Hf. split; [exists []; cbn; now rewrite app_nil_r|].
  exists []. cbn. rewrite app_nil_r, map_map. apply map_ext.
  intros u. destruct (text_eq (srv env) (Email u) email); [apply Hf|reflexivity].
Qed.

Lemma assign_keeps_email (text value : string) (u u' : User) :
  assign text value u = Some u' -> Email u' = Email u.
Proof.
  unfold assign.
  repeat match goal with
         | |- context [if ?c then _ else _] => destruct c
         end; try discriminate; now intros [= <-].
Qed.

Lemma assign_all_keeps_email (updates params : list string) (u u' : User)
    (rest : list string) :
  assign_all updates params u = Some (u', rest) -> Email u' = Email u.
Proof.
  revert params u. induction updates as [|text updates IH]; intros params u.
  - simpl. now intros [= <- _].
  - destruct params as [|value params]; [discriminate|]. simpl.
    destruct (assign text value u) as [v|] eqn:E; [|discriminate].
    intros H. rewrite (IH _ _ H). exact (assign_keeps_email _ _ _ _ E).
Qed.

Lemma all_some_emails (h : User -> option User) (l l' : list User) :
  (forall u u', h u = Some u' -> Email u' = Email u) ->
  all_some (map h l) = Some l' -> map Email l' = map Email l.
Proof.
  intros Hh. revert l'. induction l as [|x l IH]; intros l'; simpl.
  - now intros [= <-].
  - destruct (h x) as [x'|] eqn:E; [|discriminate].
    destruct (all_some (map h l)) as [r|]; [|discriminate].
    simpl. intros [= <-]. simpl. now rewrite (Hh _ _ E), (IH r eq_refl).
Qed.

Lemma update_profile_extends (env : Env) (updates params : list string)
    (d d' : Database) (a : unit) :
  update_profile env updates params d = Return (d', a) -> extends d d'.
Proof.
  unfold update_profile.
  destruct (negb _); [discriminate|].
  destruct (all_some _) as [users|] eqn:E; [|discriminate].
  intros [= <- _]. split; [exists []; cbn; now rewrite app_nil_r|].
  exists []. cbn. rewrite app_nil_r.
  apply (all_some_emails _ _ _) in E; [exact E|].
  intros u u'. destruct (text_eq (srv env) (Email u) _).
  - destruct (assign_all updates (removelast params) u) as [[v rest]|] eqn:Ea;
      [|discriminate].
    simpl. intros [= <-]. exact (assign_all_keeps_email _ _ _ _ _ Ea).
  - now intros [= <-].
Qed.

Lemma run_count_extends (env : Env) (sql : string) (d d' : Database) (a : Z) :
  run_count env sql d = Return (d', a) -> extends d d'.
Proof.
  unfold run_count.
  repeat match goal with
         | |- context [if ?c then _ else _] => destruct c
         end; try discriminate; intros [= <- _]; apply extends_refl.
Qed.

Ltac stepwise :=
  repeat
    first
      [ apply ret_only_extends
      | apply raise_only_extends
      | apply flash_only_extends
      | apply set_session_only_extends
      | apply get_session_only_extends
      | apply get_db_only_extends
      | apply cursor_only_extends
      | apply close_only_extends
      | apply bind_only_extends; [|intros ?]
      | apply try_only_extends; [|intros ?]
      | apply execute_only_extends; intros ?
      | apply execute_checked_only_extends; intros ? ? ?
      | apply select_user_extends
      | apply insert_user_extends
      | apply log_activity_extends
      | apply update_users_extends; intros ?; reflexivity
      | apply update_profile_extends
      | apply run_count_extends
      | apply extends_refl
      | match goal with
        | |- only_extends (match ?x with _ => _ end) => destruct x
        end ].

Lemma first_match_only_extends (env : Env) (question : string)
    (qs : list (string * (string * string))) :
  only_extends (first_match env question qs).
Proof.
  induction qs as [|[keyword [sql label]] qs IH]; cbn [first_match].
  - stepwise.
  - destruct (contains keyword question); [stepwise|exact IH].
Qed.

(** X20.  No request to the endpoints of [users.py] removes or rewrites
    what is on record: whatever the form, the session and the state of
    the database, and whether the handler returns or raises, the audit
    log after the request is the log before it followed by the rows
    added, and the emails of the accounts are the emails before it
    followed by those added. *)
Theorem requests_only_extend_the_records
    (env : Env) (m : method) (signup : RegisterForm) (credentials : LoginForm)
    (changes : ProfileForm) (question_field : option string) :
  only_extends (register env m signup)
  /\ only_extends (login env m credentials)
  /\ only_extends (profile env m changes)
  /\ only_extends (deactivate env)
  /\ only_extends (logout env)
  /\ only_extends dashboard
  /\ only_extends (metrics env)
  /\ only_extends (recent_users env)
  /\ only_extends (chat_analyze env question_field).
Proof.
  split; [|split; [|split; [|split; [|split; [|split; [|split; [|split]]]]]]].
  - unfold register. cbv zeta. destruct m; stepwise.
  - unfold login. cbv zeta. destruct m; stepwise.
  - unfold profile, login_required, profile_post, apply_updates. cbv zeta.
    stepwise.
  - unfold deactivate, login_required. cbv zeta. stepwise.
  - unfold logout, login_required. cbv zeta. stepwise.
  - unfold dashboard, login_required. stepwise.
  - unfold metrics, login_required, count_where. stepwise.
  - unfold recent_users, login_required_data, select_recent. stepwise.
  - unfold chat_analyze, login_required. cbv zeta. stepwise.
    apply first_match_only_extends.
Qed.

End HistoryFacts.
